(** * binaryninjax: a shallow embedding of the foreign-object proxy layer

    The module [binaryninjax/__init__.py] binds private C++ entry points of
    the host application by mangled name and wraps Qt objects.  The
    embedding below threads the interpreter-visible state (the heap of
    proxy instances, the class-level tables, the log of foreign
    interactions) through a state-and-exception monad; the host binary and
    the Qt reflection data are a record of oracles. *)

From Stdlib Require Import ZArith NArith Ascii String.
From stdpp Require Import gmap strings list.

Local Open Scope Z_scope.

(** ** Python strings: [str(int)] and [str.format] *)

Module PyStr.

Definition digit_char (d : N) : ascii :=
  Ascii.ascii_of_N (48 + d).

(** [str(n)] for a non-negative integer: peel off the last decimal digit
    until the quotient is zero.  [fuel] bounds the number of digits. *)
Fixpoint digits (fuel : nat) (n : N) (acc : string) : string :=
  match fuel with
  | O => acc
  | S fuel' =>
      let acc' := String (digit_char (n mod 10)%N) acc in
      if (n / 10 =? 0)%N then acc' else digits fuel' (n / 10)%N acc'
  end.

Definition str_of_N (n : N) : string := digits (S (N.size_nat n)) n "".

Definition str_of_Z (z : Z) : string :=
  match z with
  | Zneg p => "-" +:+ str_of_N (Npos p)
  | _ => str_of_N (Z.to_N z)
  end.

(** ['...{}...{}...'.format(a, b)]: every [{}] takes the next argument. *)
Fixpoint format (template : string) (args : list string) : string :=
  match template with
  | EmptyString => EmptyString
  | String "{" (String "}" rest) =>
      match args with
      | a :: args' => a +:+ format rest args'
      | [] => format rest []
      end
  | String c rest => String c (format rest args)
  end.

(** The number denoted by a decimal numeral, read left to right. *)
Definition digit_value (c : ascii) : option N :=
  let k := Ascii.N_of_ascii c in
  if ((48 <=? k) && (k <=? 57))%N then Some (k - 48)%N else None.

Fixpoint decimal_value_from (acc : N) (s : string) : option N :=
  match s with
  | EmptyString => Some acc
  | String c s' =>
      match digit_value c with
      | Some d => decimal_value_from (10 * acc + d)%N s'
      | None => None
      end
  end.

Definition decimal_value (s : string) : option N :=
  match s with
  | EmptyString => None
  | _ => decimal_value_from 0%N s
  end.

End PyStr.

(** ** Values, foreign functions and the host *)

(** The [ctypes] type codes the module uses and the prototypes built with
    [CFUNCTYPE(restype, *argtypes)]; [restype = None] is a [void] result. *)
Inductive ctype := c_int | c_void_p | c_char_p | c_int64.

Record csig := CFUNCTYPE { restype : option ctype; argtypes : list ctype }.

(** [func_sig(func_addr)]: a foreign function object. *)
Record cfunc := CFunc { fn_sig : csig; fn_addr : Z }.

Inductive sip_type :=
  QMetaObject | QMainWindow | QWidget | QObject | QColor | QUrl.

Inductive bn_ctype := BNBinaryView.

Definition loc := positive.

Inductive value :=
  | VNone
  | VBool (b : bool)
  | VInt (n : Z)
  | VStr (s : string)
  | VCVoidP (p : option Z)            (* a [c_void_p]; [None] is NULL *)
  | VSip (ty : sip_type) (addr : Z)   (* [sip.wrapinstance(addr, ty)] *)
  | VRef (l : loc)                    (* an instance of a class of the module *)
  | VMember (l : loc) (name : string) (* a member found by ordinary lookup *)
  | VHandle (ty : bn_ctype) (p : value)  (* [bnc.handle_of_type(p, ty)] *)
  | VBinaryView (handle : value)      (* [bn.BinaryView(handle=...)] *)
  | VHost (id : Z).                   (* any other object of the host *)

Inductive exn :=
  | AttributeError (msg : string)
  | TypeError (msg : string)
  | KeyError (msg : string)
  | SystemError (msg : string).

Inductive result (A : Type) :=
  | Ok (a : A)
  | Raise (e : exn).
Arguments Ok {A} a.
Arguments Raise {A} e.

(** What the module does to the foreign side, oldest first. *)
Inductive event :=
  | ECall (f : cfunc) (args : list value)
  | EInvokeMethod (q_meta_object q_self : Z) (name : string) (args : list value)
  | ENewQColor (addr : Z)
  | EHostCall (callee : value) (args : list value)
  | EConnectDestroyed (watched : Z)
  | ELogError
  | EPrintStderr.

(** The host process: the symbol table read by [resolve_symbol] (imported
    from [._selfsym], which is not in [__init__.py]), the foreign functions,
    memory, and the reflection data of Qt.  Answers of the foreign side may depend
    on everything that happened before. *)
Class Host := {
  resolve_symbol : string → option Z;
  sizeof_void_p : Z;
  foreign_result : list event → cfunc → list value → value;
  read_pointer : list event → Z → option Z;
  q_metaObject : Z → Z;
  meta_className : Z → string;
  meta_methodCount : Z → nat;
  meta_method_name : Z → nat → string;
  meta_propertyCount : Z → nat;
  meta_property_name : Z → nat → string;
  qt_getattr : Z → string → option Z;
  new_QColor : list event → Z;
  host_call_result : list event → value → list value → result value;
}.

(** The object tree of Qt below an object: the objects [children()] lists,
    each with the tree below it.  Every object has one parent, so that this
    is a finite tree. *)
#[warnings="-register-all"]
Inductive qobject_tree := QObjectTree (q : Z) (children : list qobject_tree).

(** The widgets of the running application: [q_children t q] is what
    [children()] gives for the object at [q] and, level by level, for its
    descendants; [q_isWidget] is [isinstance(_, QtWidgets.QWidget)];
    [q_isVisible] is [isVisible()]; [Q_ARG_bool b] is the object
    [Q_ARG(bool, b)]. *)
Class QtObjects := {
  q_children : list event → Z → list qobject_tree;
  q_isWidget : Z → bool;
  q_isVisible : list event → Z → bool;
  QTabWidget_staticMetaObject : Z;
  Q_ARG_bool : bool → Z;
}.

(** ** Interpreter state *)

Inductive wrapper_class :=
  | MainWindow | ViewFrame | InfoPanel
  | HexEditor | DisassemblyView | StringsView | LinearView | TypeView.

(** The attributes of a [_CObjectProxy]; [qt] holds [_q_meta_object] and
    [_q_object] when the instance is a [_QObjectProxy]; [inst_dict] holds
    what [setattr] added. *)
Record proxy := Proxy {
  c_ptr : value;
  c_api : gmap string (string * csig);
  qt : option (Z * Z);
  inst_dict : gmap string value;
}.

Inductive obj :=
  | OCStaticMethodProxy (func_name : string) (func_sig : csig) (func : option cfunc)
  | OCMethodProxy (func : cfunc) (this_ptr : value)
  | OQMethodProxy (q_meta_object q_self : Z) (name : string)
  | OObjectProxy (p : proxy)
  | OQString (owned : bool) (c : option loc)
  | OWrapper (cls : wrapper_class) (q : option loc).

(** [resolutions] lists the names handed to [resolve_symbol], oldest first;
    [trace] lists the foreign interactions. *)
Record State := {
  heap : gmap loc obj;
  next_loc : loc;
  _c_funcptrs : gmap string Z;
  _q_methods : gmap Z (list string);
  _q_properties : gmap Z (list string);
  _bn_new_ref_fns : gmap string loc;
  MainWindow_init_set : gset Z;
  MainWindow_init_callbacks : list value;
  ViewFrame_init_set : gset Z;
  ViewFrame_init_callbacks : list value;
  resolutions : list string;
  trace : list event;
}.

Definition set_heap (f : gmap loc obj → gmap loc obj) (st : State) : State :=
  {| heap := f (heap st); next_loc := next_loc st;
     _c_funcptrs := _c_funcptrs st; _q_methods := _q_methods st;
     _q_properties := _q_properties st; _bn_new_ref_fns := _bn_new_ref_fns st;
     MainWindow_init_set := MainWindow_init_set st;
     MainWindow_init_callbacks := MainWindow_init_callbacks st;
     ViewFrame_init_set := ViewFrame_init_set st;
     ViewFrame_init_callbacks := ViewFrame_init_callbacks st;
     resolutions := resolutions st; trace := trace st |}.

Definition set_next_loc (l : loc) (st : State) : State :=
  {| heap := heap st; next_loc := l;
     _c_funcptrs := _c_funcptrs st; _q_methods := _q_methods st;
     _q_properties := _q_properties st; _bn_new_ref_fns := _bn_new_ref_fns st;
     MainWindow_init_set := MainWindow_init_set st;
     MainWindow_init_callbacks := MainWindow_init_callbacks st;
     ViewFrame_init_set := ViewFrame_init_set st;
     ViewFrame_init_callbacks := ViewFrame_init_callbacks st;
     resolutions := resolutions st; trace := trace st |}.

Definition set_c_funcptrs (f : gmap string Z → gmap string Z) (st : State) : State :=
  {| heap := heap st; next_loc := next_loc st;
     _c_funcptrs := f (_c_funcptrs st); _q_methods := _q_methods st;
     _q_properties := _q_properties st; _bn_new_ref_fns := _bn_new_ref_fns st;
     MainWindow_init_set := MainWindow_init_set st;
     MainWindow_init_callbacks := MainWindow_init_callbacks st;
     ViewFrame_init_set := ViewFrame_init_set st;
     ViewFrame_init_callbacks := ViewFrame_init_callbacks st;
     resolutions := resolutions st; trace := trace st |}.

Definition set_q_methods (f : gmap Z (list string) → gmap Z (list string))
    (st : State) : State :=
  {| heap := heap st; next_loc := next_loc st;
     _c_funcptrs := _c_funcptrs st; _q_methods := f (_q_methods st);
     _q_properties := _q_properties st; _bn_new_ref_fns := _bn_new_ref_fns st;
     MainWindow_init_set := MainWindow_init_set st;
     MainWindow_init_callbacks := MainWindow_init_callbacks st;
     ViewFrame_init_set := ViewFrame_init_set st;
     ViewFrame_init_callbacks := ViewFrame_init_callbacks st;
     resolutions := resolutions st; trace := trace st |}.

Definition set_q_properties (f : gmap Z (list string) → gmap Z (list string))
    (st : State) : State :=
  {| heap := heap st; next_loc := next_loc st;
     _c_funcptrs := _c_funcptrs st; _q_methods := _q_methods st;
     _q_properties := f (_q_properties st); _bn_new_ref_fns := _bn_new_ref_fns st;
     MainWindow_init_set := MainWindow_init_set st;
     MainWindow_init_callbacks := MainWindow_init_callbacks st;
     ViewFrame_init_set := ViewFrame_init_set st;
     ViewFrame_init_callbacks := ViewFrame_init_callbacks st;
     resolutions := resolutions st; trace := trace st |}.

Definition set_bn_new_ref_fns (f : gmap string loc → gmap string loc)
    (st : State) : State :=
  {| heap := heap st; next_loc := next_loc st;
     _c_funcptrs := _c_funcptrs st; _q_methods := _q_methods st;
     _q_properties := _q_properties st; _bn_new_ref_fns := f (_bn_new_ref_fns st);
     MainWindow_init_set := MainWindow_init_set st;
     MainWindow_init_callbacks := MainWindow_init_callbacks st;
     ViewFrame_init_set := ViewFrame_init_set st;
     ViewFrame_init_callbacks := ViewFrame_init_callbacks st;
     resolutions := resolutions st; trace := trace st |}.


Definition set_init_callbacks (cls : wrapper_class)
    (f : list value → list value) (st : State) : State :=
  {| heap := heap st; next_loc := next_loc st;
     _c_funcptrs := _c_funcptrs st; _q_methods := _q_methods st;
     _q_properties := _q_properties st; _bn_new_ref_fns := _bn_new_ref_fns st;
     MainWindow_init_set := MainWindow_init_set st;
     MainWindow_init_callbacks :=
       match cls with
       | MainWindow => f (MainWindow_init_callbacks st)
       | _ => MainWindow_init_callbacks st
       end;
     ViewFrame_init_set := ViewFrame_init_set st;
     ViewFrame_init_callbacks :=
       match cls with
       | ViewFrame => f (ViewFrame_init_callbacks st)
       | _ => ViewFrame_init_callbacks st
       end;
     resolutions := resolutions st; trace := trace st |}.

Definition set_trace (f : list event → list event) (st : State) : State :=
  {| heap := heap st; next_loc := next_loc st;
     _c_funcptrs := _c_funcptrs st; _q_methods := _q_methods st;
     _q_properties := _q_properties st; _bn_new_ref_fns := _bn_new_ref_fns st;
     MainWindow_init_set := MainWindow_init_set st;
     MainWindow_init_callbacks := MainWindow_init_callbacks st;
     ViewFrame_init_set := ViewFrame_init_set st;
     ViewFrame_init_callbacks := ViewFrame_init_callbacks st;
     resolutions := resolutions st; trace := f (trace st) |}.

Definition set_resolutions (f : list string → list string) (st : State) : State :=
  {| heap := heap st; next_loc := next_loc st;
     _c_funcptrs := _c_funcptrs st; _q_methods := _q_methods st;
     _q_properties := _q_properties st; _bn_new_ref_fns := _bn_new_ref_fns st;
     MainWindow_init_set := MainWindow_init_set st;
     MainWindow_init_callbacks := MainWindow_init_callbacks st;
     ViewFrame_init_set := ViewFrame_init_set st;
     ViewFrame_init_callbacks := ViewFrame_init_callbacks st;
     resolutions := f (resolutions st); trace := trace st |}.


Definition init_callbacks (cls : wrapper_class) (st : State) : list value :=
  match cls with
  | MainWindow => MainWindow_init_callbacks st
  | ViewFrame => ViewFrame_init_callbacks st
  | _ => []
  end.

(** ** The state-and-exception monad

    A raised exception keeps the state reached so far: Python does not
    roll back what a failing call has already mutated. *)
Definition M (A : Type) : Type := State → result A * State.

Global Instance M_ret : MRet M := λ A a st, (Ok a, st).
Global Instance M_bind : MBind M := λ A B f m st,
  match m st with
  | (Ok a, st') => f a st'
  | (Raise e, st') => (Raise e, st')
  end.

Definition raise {A} (e : exn) : M A := λ st, (Raise e, st).
Definition get_state : M State := λ st, (Ok st, st).
Definition modify (f : State → State) : M unit := λ st, (Ok tt, f st).
Definition emit (ev : event) : M unit := modify (set_trace (λ t, t ++ [ev])).
Definition lift_result {A} (r : result A) : M A := λ st, (r, st).

Definition alloc (o : obj) : M loc := λ st,
  let l := next_loc st in
  (Ok l, set_next_loc (Pos.succ l) (set_heap <[l := o]> st)).

Definition deref (l : loc) : M obj := λ st,
  match heap st !! l with
  | Some o => (Ok o, st)
  | None => (Raise (SystemError "dangling reference"), st)
  end.

Definition store (l : loc) (o : obj) : M unit := modify (set_heap <[l := o]>).

(** [try: body except: handler] for a body whose value is discarded. *)
Definition try_except {A} (body : M A) (handler : exn → M unit) : M unit :=
  λ st, match body st with
        | (Ok _, st') => (Ok tt, st')
        | (Raise e, st') => handler e st'
        end.


(** [for x in xs: body] with a body that may [return v]: the body gives
    [Some v] when it returns and [None] when the loop is to go on; the loop
    gives [None] when it ran to its end. *)
Fixpoint for_return {A B} (xs : list A) (body : A → M (option B))
    : M (option B) :=
  match xs with
  | [] => mret None
  | x :: xs' =>
      r ← body x;
      match r with
      | Some v => mret (Some v)
      | None => for_return xs' body
      end
  end.

(** ** Primitives of the foreign side *)

Definition resolve `{!Host} (name : string) : M (option Z) :=
  modify (set_resolutions (λ r, r ++ [name])) ;; mret (resolve_symbol name).

(** Calling a foreign function object: the call is logged with the
    arguments as passed, the answer is the host's. *)
Definition foreign_call `{!Host} (f : cfunc) (args : list value) : M value :=
  st ← get_state;
  emit (ECall f args) ;;
  mret (foreign_result (trace st) f args).

Definition host_call `{!Host} (callee : value) (args : list value) : M value :=
  st ← get_state;
  emit (EHostCall callee args) ;;
  lift_result (host_call_result (trace st) callee args).

(** [sip.wrapinstance] wants an integer address. *)
Definition sip_wrapinstance (addr : option Z) (ty : sip_type) : result value :=
  match addr with
  | Some a => Ok (VSip ty a)
  | None => Raise (TypeError "wrapinstance() argument 1 must be int, not None")
  end.

Definition c_sizeof_c_void_p `{!Host} : Z := sizeof_void_p.

(** [c_cast(v, c_void_p)] for what a [c_void_p]-returning function yields. *)
Definition c_cast_c_void_p (v : value) : M value :=
  match v with
  | VInt n => mret (VCVoidP (if n =? 0 then None else Some n))
  | VNone => mret (VCVoidP None)
  | VCVoidP p => mret (VCVoidP p)
  | _ => raise (TypeError "wrong type")
  end.

(** [c_cast(addr, CPOINTER(c_void_p)).contents] *)
Definition contents_at `{!Host} (addr : Z) : M value :=
  st ← get_state;
  mret (VCVoidP (read_pointer (trace st) addr)).

(** [[str(meta.method(n).name()) for n in range(meta.methodCount())]] and
    the same for properties. *)
Definition meta_methods `{!Host} (meta : Z) : list string :=
  map (meta_method_name meta) (seq 0 (meta_methodCount meta)).

Definition meta_properties `{!Host} (meta : Z) : list string :=
  map (meta_property_name meta) (seq 0 (meta_propertyCount meta)).

(** ** Module-level functions and classes *)

Definition _q_meta_object_for_class `{!Host} (name : string) : result value :=
  sip_wrapinstance
    (resolve_symbol
       (PyStr.format "_ZN{}{}16staticMetaObjectE"
          [PyStr.str_of_Z (Z.of_nat (String.length name)); name]))
    QMetaObject.

(** Runs [func] and hands its outcome back; a failure is logged and
    announced on stderr before it is raised again. *)
Definition on_main_thread {A} (func : M A) : M A := λ st,
  match func st with
  | (Ok a, st') => (Ok a, st')
  | (Raise e, st') =>
      (Raise e, set_trace (λ t, t ++ [ELogError; EPrintStderr]) st')
  end.

Module _CStaticMethodProxy.

Definition __init__ (func_name : string) (func_sig : csig) : M loc :=
  alloc (OCStaticMethodProxy func_name func_sig None).

Definition __call__ `{!Host} (self : loc) (args : list value) : M value :=
  o ← deref self;
  match o with
  | OCStaticMethodProxy func_name func_sig func =>
      f ← match func with
          | None =>
              func_addr ← resolve func_name;
              match func_addr with
              | None =>
                  raise (AttributeError
                           (PyStr.format "Symbol {} is not defined" [func_name]))
              | Some a =>
                  store self (OCStaticMethodProxy func_name func_sig
                                (Some (CFunc func_sig a))) ;;
                  mret (CFunc func_sig a)
              end
          | Some f => mret f
          end;
      foreign_call f args
  | _ => raise (SystemError "not a _CStaticMethodProxy")
  end.

End _CStaticMethodProxy.

Module _CMethodProxy.

Definition __init__ (func : cfunc) (this_ptr : value) : M loc :=
  alloc (OCMethodProxy func this_ptr).

Definition __call__ `{!Host} (self : loc) (args : list value) : M value :=
  o ← deref self;
  match o with
  | OCMethodProxy func this_ptr => foreign_call func (this_ptr :: args)
  | _ => raise (SystemError "not a _CMethodProxy")
  end.

End _CMethodProxy.

(** [setattr(self, attr, v)] on a proxy instance. *)
Definition proxy_setattr (self : loc) (attr : string) (v : value) : M unit :=
  o ← deref self;
  match o with
  | OObjectProxy p =>
      store self (OObjectProxy
                    (Proxy (c_ptr p) (c_api p) (qt p) (<[attr := v]> (inst_dict p))))
  | _ => raise (SystemError "not an object proxy")
  end.

Definition deref_proxy (self : loc) : M proxy :=
  o ← deref self;
  match o with
  | OObjectProxy p => mret p
  | _ => raise (SystemError "not an object proxy")
  end.

Module _CObjectProxy.

Definition __init__ (c_ptr : value) (c_api : gmap string (string * csig)) : M loc :=
  alloc (OObjectProxy (Proxy c_ptr c_api None ∅)).

Definition __getattr__ `{!Host} (self : loc) (attr : string) : M value :=
  p ← deref_proxy self;
  match c_api p !! attr with
  | Some (func_name, func_sig) =>
      st ← get_state;
      match _c_funcptrs st !! func_name with
      | None =>
          func_addr ← resolve func_name;
          match func_addr with
          | None =>
              raise (AttributeError
                       (PyStr.format "Symbol {} is not defined" [func_name]))
          | Some a => modify (set_c_funcptrs <[func_name := a]>)
          end
      | Some _ => mret tt
      end ;;
      st ← get_state;
      match _c_funcptrs st !! func_name with
      | None => raise (KeyError func_name)
      | Some func_addr =>
          proxy ← _CMethodProxy.__init__ (CFunc func_sig func_addr) (c_ptr p);
          proxy_setattr self attr (VRef proxy) ;;
          mret (VRef proxy)
      end
  | None =>
      raise (AttributeError (PyStr.format "undefined method '{}'" [attr]))
  end.

Definition _pointer (self : loc) : M value :=
  p ← deref_proxy self;
  match c_ptr p with
  | VSip _ a => mret (VInt a)
  | _ => raise (TypeError "unwrapinstance() argument 1 must be a sip wrapper")
  end.

End _CObjectProxy.

Module _QMethodProxy.

Definition __init__ (q_meta_object q_self : Z) (name : string) : M loc :=
  alloc (OQMethodProxy q_meta_object q_self name).

(** The result of [invokeMethod] is dropped: the call returns [None]. *)
Definition __call__ (self : loc) (args : list value) : M value :=
  o ← deref self;
  match o with
  | OQMethodProxy q_meta_object q_self name =>
      emit (EInvokeMethod q_meta_object q_self name args) ;;
      mret VNone
  | _ => raise (SystemError "not a _QMethodProxy")
  end.

End _QMethodProxy.

Module _QObjectProxy.

(** Qt objects and meta-objects are given by the address of the C++ object
    their wrapper stands for; [sip.unwrapinstance] is that address and two
    wrappers are the same object exactly when the addresses agree. *)
Definition __init__ `{!Host} (q_meta_object q_object : Z)
    (c_api : gmap string (string * csig)) : M loc :=
  self ← alloc (OObjectProxy
                  (Proxy (VInt q_object) c_api (Some (q_meta_object, q_object)) ∅));
  (if decide (q_meta_object ≠ q_metaObject q_object)
   then raise (TypeError
                 (PyStr.format
                    "proxy for '{}' cannot be initialized from a pointer to '{}'"
                    [meta_className q_meta_object;
                     meta_className (q_metaObject q_object)]))
   else mret tt) ;;
  st ← get_state;
  (if decide (is_Some (_q_methods st !! q_meta_object)) then mret tt
   else modify (set_q_methods <[q_meta_object := meta_methods q_meta_object]>)) ;;
  st ← get_state;
  (if decide (is_Some (_q_properties st !! q_meta_object)) then mret tt
   else modify (set_q_properties
                  <[q_meta_object := meta_properties q_meta_object]>)) ;;
  mret self.

Definition __getattr__ `{!Host} (self : loc) (attr : string) : M value :=
  p ← deref_proxy self;
  match qt p with
  | None => raise (SystemError "not a _QObjectProxy")
  | Some (q_meta_object, q_object) =>
      st ← get_state;
      match _q_methods st !! q_meta_object with
      | None => raise (KeyError "_q_meta_object")
      | Some names =>
          if decide (attr ∈ names) then
            proxy ← _QMethodProxy.__init__ q_meta_object q_object attr;
            proxy_setattr self attr (VRef proxy) ;;
            mret (VRef proxy)
          else if decide (is_Some (c_api p !! attr)) then
            _CObjectProxy.__getattr__ self attr
          else
            match qt_getattr q_object attr with
            | Some id => mret (VHost id)
            | None => raise (AttributeError attr)
            end
      end
  end.

Definition _className `{!Host} (self : loc) : M string :=
  p ← deref_proxy self;
  match qt p with
  | Some (q_meta_object, _) => mret (meta_className q_meta_object)
  | None => raise (SystemError "not a _QObjectProxy")
  end.

Definition _methods (self : loc) : M (list string) :=
  p ← deref_proxy self;
  match qt p with
  | Some (q_meta_object, _) =>
      st ← get_state;
      match _q_methods st !! q_meta_object with
      | Some names => mret names
      | None => raise (KeyError "_q_meta_object")
      end
  | None => raise (SystemError "not a _QObjectProxy")
  end.

Definition _properties (self : loc) : M (list string) :=
  p ← deref_proxy self;
  match qt p with
  | Some (q_meta_object, _) =>
      st ← get_state;
      match _q_properties st !! q_meta_object with
      | Some names => mret names
      | None => raise (KeyError "_q_meta_object")
      end
  | None => raise (SystemError "not a _QObjectProxy")
  end.

Definition tree_object (t : qobject_tree) : Z :=
  match t with QObjectTree q _ => q end.

(** What [find_all(widget)] appends to [children]: every child, followed at
    once by what [find_all] appends for it. *)
Fixpoint find_all (widget : qobject_tree) : list Z :=
  match widget with
  | QObjectTree _ cs =>
      (fix each (cs : list qobject_tree) : list Z :=
         match cs with
         | [] => []
         | child :: cs' => tree_object child :: find_all child ++ each cs'
         end) cs
  end.

Definition _all_children `{!QtObjects} (self : loc) : M (list Z) :=
  p ← deref_proxy self;
  match qt p with
  | Some (_, q_object) =>
      st ← get_state;
      mret (find_all (QObjectTree q_object (q_children (trace st) q_object)))
  | None => raise (SystemError "not a _QObjectProxy")
  end.

End _QObjectProxy.

(** ** Attribute access and calls as the interpreter performs them *)

(** Names that ordinary lookup finds on an instance or on its class, so
    that [__getattr__] is never asked for them. *)
Definition c_members : list string :=
  ["_c_ptr"; "_c_api"; "_c_funcptrs"; "__init__"; "__getattr__"; "_pointer"].

Definition q_members : list string :=
  c_members ++
  ["_q_meta_object"; "_q_object"; "_q_methods"; "_q_properties";
   "_className"; "_methods"; "_properties"; "_all_children"].

Definition members (p : proxy) : list string :=
  match qt p with
  | Some _ => q_members
  | None => c_members
  end.

(** [self.attr] for an object proxy: the instance dictionary, then the
    class, and [__getattr__] only when both fail. *)
Definition py_getattr `{!Host} (self : loc) (attr : string) : M value :=
  p ← deref_proxy self;
  match inst_dict p !! attr with
  | Some v => mret v
  | None =>
      if decide (attr ∈ members p) then mret (VMember self attr)
      else match qt p with
           | Some _ => _QObjectProxy.__getattr__ self attr
           | None => _CObjectProxy.__getattr__ self attr
           end
  end.

(** Calling [callee] on the positional arguments [args]. *)
Definition py_call `{!Host} (callee : value) (args : list value) : M value :=
  match callee with
  | VRef l =>
      o ← deref l;
      match o with
      | OCStaticMethodProxy _ _ _ => _CStaticMethodProxy.__call__ l args
      | OCMethodProxy _ _ => _CMethodProxy.__call__ l args
      | OQMethodProxy _ _ _ => _QMethodProxy.__call__ l args
      | _ => raise (TypeError "object is not callable")
      end
  | VHost _ => host_call callee args
  | _ => raise (TypeError "object is not callable")
  end.

(** [self.q.name] applied to [args]. *)
Definition call_method `{!Host} (q : loc) (name : string) (args : list value)
    : M value :=
  f ← py_getattr q name;
  py_call f args.

(** ** Module globals

    The four [_CStaticMethodProxy] instances the module creates while it is
    imported, in the order of the source. *)
Definition _new : loc := 1%positive.
Definition _delete : loc := 2%positive.
Definition MainWindow_getActiveWindow : loc := 3%positive.
Definition _getThemeColor : loc := 4%positive.

Definition empty_state : State :=
  {| heap := ∅; next_loc := 1%positive;
     _c_funcptrs := ∅; _q_methods := ∅; _q_properties := ∅;
     _bn_new_ref_fns := ∅;
     MainWindow_init_set := ∅; MainWindow_init_callbacks := [];
     ViewFrame_init_set := ∅; ViewFrame_init_callbacks := [];
     resolutions := []; trace := [] |}.

Definition module_init : M unit :=
  _CStaticMethodProxy.__init__ "_Znwm" (CFUNCTYPE (Some c_void_p) [c_int]) ;;
  _CStaticMethodProxy.__init__ "_ZdlPv" (CFUNCTYPE None [c_void_p]) ;;
  _CStaticMethodProxy.__init__ "_ZN10MainWindow15getActiveWindowEv"
    (CFUNCTYPE (Some c_void_p) []) ;;
  _CStaticMethodProxy.__init__ "_Z13getThemeColor10ThemeColor"
    (CFUNCTYPE (Some c_int) [c_void_p; c_int]) ;;
  mret tt.

Definition initial_state : State := snd (module_init empty_state).

(** ** [_QString] *)

Module _QString.

Definition _c_api : gmap string (string * csig) :=
  list_to_map
    [("QString", ("_ZN7QStringC2EPKc", CFUNCTYPE None [c_void_p; c_char_p]));
     ("_d_QString", ("_ZN7QStringD2Ev", CFUNCTYPE None [c_void_p]))].

Definition __init__ `{!Host} (value : value) : M loc :=
  self ← alloc (OQString false None);
  match value with
  | VCVoidP _ =>
      c ← _CObjectProxy.__init__ value _c_api;
      store self (OQString false (Some c)) ;;
      mret self
  | VNone | VStr _ =>
      _c_ptr ← py_call (VRef _new) [VInt c_sizeof_c_void_p];
      c ← _CObjectProxy.__init__ _c_ptr _c_api;
      store self (OQString false (Some c)) ;;
      call_method c "QString" [value] ;;
      store self (OQString true (Some c)) ;;
      mret self
  | _ =>
      raise (TypeError
               "QString can only be initialized with None, str, or a pointer")
  end.

Definition _pointer (self : loc) : M value :=
  o ← deref self;
  match o with
  | OQString _ (Some c) => p ← deref_proxy c; mret (c_ptr p)
  | _ => raise (AttributeError "_c")
  end.

Definition __del__ `{!Host} (self : loc) : M unit :=
  o ← deref self;
  match o with
  | OQString true (Some c) =>
      call_method c "_d_QString" [] ;;
      ptr ← _pointer self;
      py_call (VRef _delete) [ptr] ;;
      mret tt
  | OQString true None => raise (AttributeError "_c")
  | OQString false _ => mret tt
  | _ => raise (SystemError "not a _QString")
  end.

End _QString.

(** A local [_QString] dies when the function that made it returns; what
    its [__del__] raises is reported on stderr and dropped. *)
Definition release_QString `{!Host} (self : loc) : M unit :=
  try_except (_QString.__del__ self) (λ _, emit EPrintStderr).

(** ** The widget wrappers *)

Definition cls_name (cls : wrapper_class) : string :=
  match cls with
  | MainWindow => "MainWindow"
  | ViewFrame => "ViewFrame"
  | InfoPanel => "InfoPanel"
  | HexEditor => "HexEditor"
  | DisassemblyView => "DisassemblyView"
  | StringsView => "StringsView"
  | LinearView => "LinearView"
  | TypeView => "TypeView"
  end.

Definition cls_c_api (cls : wrapper_class) : gmap string (string * csig) :=
  match cls with
  | MainWindow =>
      list_to_map
        [("openFilename", ("_ZN10MainWindow12openFilenameERK7QString",
                           CFUNCTYPE (Some c_int) [c_void_p; c_void_p]));
         ("openUrl", ("_ZN10MainWindow7openUrlERK4QUrl",
                      CFUNCTYPE (Some c_int) [c_void_p; c_void_p]));
         ("getCurrentView", ("_ZN10MainWindow14getCurrentViewEv",
                             CFUNCTYPE (Some c_void_p) [c_void_p]))]
  | ViewFrame =>
      list_to_map
        [("back", ("_ZN9ViewFrame4backEv", CFUNCTYPE None [c_void_p]));
         ("forward", ("_ZN9ViewFrame7forwardEv", CFUNCTYPE None [c_void_p]));
         ("setViewType", ("_ZN9ViewFrame11setViewTypeERK7QString",
                          CFUNCTYPE (Some c_int) [c_void_p; c_void_p]));
         ("getCurrentView", ("_ZN9ViewFrame14getCurrentViewEv",
                             CFUNCTYPE (Some c_void_p) [c_void_p; c_void_p]))]
  | InfoPanel => ∅
  | HexEditor =>
      list_to_map
        [("getData", ("_ZN9HexEditor7getDataEv",
                      CFUNCTYPE (Some c_void_p) [c_void_p]))]
  | DisassemblyView =>
      list_to_map
        [("getData", ("_ZN15DisassemblyView7getDataEv",
                      CFUNCTYPE (Some c_void_p) [c_void_p]))]
  | StringsView =>
      list_to_map
        [("getData", ("_ZN11StringsView7getDataEv",
                      CFUNCTYPE (Some c_void_p) [c_void_p]));
         ("navigate", ("_ZN11StringsView8navigateEm",
                       CFUNCTYPE (Some c_int) [c_void_p; c_int64]))]
  | LinearView =>
      list_to_map
        [("getData", ("_ZN10LinearView7getDataEv",
                      CFUNCTYPE (Some c_void_p) [c_void_p]))]
  | TypeView =>
      list_to_map
        [("getData", ("_ZN10TypeView7getDataEv",
                      CFUNCTYPE (Some c_void_p) [c_void_p]))]
  end.

(** The class attribute [_q_meta_object], computed when the class body
    runs; reading it later gives the same wrapper. *)
Definition cls_q_meta_object `{!Host} (cls : wrapper_class) : M Z :=
  match _q_meta_object_for_class (cls_name cls) with
  | Ok (VSip _ m) => mret m
  | Ok _ => raise (SystemError "not a sip wrapper")
  | Raise e => raise e
  end.

(** [self.q = _QObjectProxy(self._q_meta_object, q, self._c_api)], the body
    shared by the [__init__] of every wrapper class. *)
Definition wrapper___init__ `{!Host} (cls : wrapper_class) (q : Z) : M loc :=
  self ← alloc (OWrapper cls None);
  q_meta_object ← cls_q_meta_object cls;
  proxy ← _QObjectProxy.__init__ q_meta_object q (cls_c_api cls);
  store self (OWrapper cls (Some proxy)) ;;
  mret self.

(** [self.q] *)
Definition wrapper_q (self : loc) : M loc :=
  o ← deref self;
  match o with
  | OWrapper _ (Some q) => mret q
  | _ => raise (AttributeError "q")
  end.

(** [bool(v)], as [if v:] tests it. *)
Definition py_bool (v : value) : bool :=
  match v with
  | VNone => false
  | VBool b => b
  | VInt n => negb (n =? 0)
  | VStr s => negb (bool_decide (s = ""))
  | VCVoidP (Some a) => negb (a =? 0)
  | VCVoidP None => false
  | _ => true
  end.

(** The address [sip.wrapinstance(v, ty)] makes a wrapper for, [v] being the
    address of an object; anything but an integer is refused. *)
Definition wrapinstance_address (v : value) : M Z :=
  match v with
  | VInt a => mret a
  | _ => raise (TypeError "wrapinstance() argument 1 must be int")
  end.

(** [View.__subclasses__()]: the view classes, in the order in which the
    module defines them. *)
Definition View___subclasses__ : list wrapper_class :=
  [HexEditor; DisassemblyView; StringsView; LinearView; TypeView].

(** [View.getViewFromWidget(q_widget)]: when no class matches, the function
    runs off its end and returns [None]. *)
Definition View_getViewFromWidget `{!Host} (q_widget : Z) : M value :=
  r ← for_return View___subclasses__ (λ subcls,
         q_meta_object ← cls_q_meta_object subcls;
         if decide (q_metaObject q_widget = q_meta_object)
         then obj ← wrapper___init__ subcls q_widget; mret (Some (VRef obj))
         else mret None);
  mret (default VNone r).

(** Values are compared as the objects they stand for: two callbacks are
    equal when they are the same function. *)
Global Instance value_eq_dec : EqDecision value.
Proof.
  unfold EqDecision, Decision. fix go 1.
  decide equality; try apply go;
    first [exact (decide (_ = _)) | decide equality].
Defined.

(** [l.remove(x)]: [l] without its first item equal to [x]; [None] when
    there is no such item, where Python raises [ValueError]. *)
Fixpoint list_remove (x : value) (l : list value) : option (list value) :=
  match l with
  | [] => None
  | y :: l' =>
      if decide (y = x) then Some l'
      else l'' ← list_remove x l'; Some (y :: l'')
  end.

Module MainWindow.

Definition __init__ `{!Host} (q_main_window : Z) : M loc :=
  wrapper___init__ MainWindow q_main_window.

Definition addInitCallback (fn : value) : M value :=
  modify (set_init_callbacks MainWindow (λ l, l ++ [fn])) ;; mret VNone.

(** [None] stands for the [ValueError] of [list.remove]; the state is then
    the one before. *)
Definition removeInitCallback (fn : value) (st : State) : option State :=
  l ← list_remove fn (init_callbacks MainWindow st);
  Some (set_init_callbacks MainWindow (λ _, l) st).

(** The class method: [cls] is [MainWindow]. *)
Definition getActiveWindow `{!Host} : M value :=
  p ← py_call (VRef MainWindow_getActiveWindow) [];
  q ← wrapinstance_address p;
  obj ← __init__ q;
  mret (VRef obj).

Definition newWindow `{!Host} (self : loc) : M value :=
  q ← wrapper_q self;
  call_method q "newWindow" [] ;;
  mret VNone.

Definition newTab `{!Host} (self : loc) : M value :=
  q ← wrapper_q self;
  call_method q "newTab" [] ;;
  mret VNone.

Definition newBinary `{!Host} (self : loc) : M value :=
  q ← wrapper_q self;
  call_method q "newBinary" [] ;;
  mret VNone.

Definition nextTab `{!Host} (self : loc) : M value :=
  q ← wrapper_q self;
  call_method q "nextTab" [] ;;
  mret VNone.

Definition previousTab `{!Host} (self : loc) : M value :=
  q ← wrapper_q self;
  call_method q "previousTab" [] ;;
  mret VNone.

Definition newWindowForTab `{!Host} (self : loc) : M value :=
  q ← wrapper_q self;
  call_method q "newWindowForTab" [] ;;
  mret VNone.

Definition splitToNewTab `{!Host} (self : loc) : M value :=
  q ← wrapper_q self;
  call_method q "splitToNewTab" [] ;;
  mret VNone.

Definition splitToNewWindow `{!Host} (self : loc) : M value :=
  q ← wrapper_q self;
  call_method q "splitToNewWindow" [] ;;
  mret VNone.

Definition navigateBack `{!Host, !QtObjects} (self : loc) : M value :=
  q ← wrapper_q self;
  call_method q "navigateBack" [VHost (Q_ARG_bool false)] ;;
  mret VNone.

Definition navigateForward `{!Host, !QtObjects} (self : loc) : M value :=
  q ← wrapper_q self;
  call_method q "navigateForward" [VHost (Q_ARG_bool false)] ;;
  mret VNone.

Definition open `{!Host} (self : loc) : M value :=
  q ← wrapper_q self;
  call_method q "open" [] ;;
  mret VNone.

Definition openUrlDialog `{!Host} (self : loc) : M value :=
  q ← wrapper_q self;
  call_method q "openUrlDialog" [] ;;
  mret VNone.

Definition save `{!Host} (self : loc) : M value :=
  q ← wrapper_q self;
  call_method q "saveDatabase" [] ;;
  mret VNone.

Definition saveAs `{!Host} (self : loc) : M value :=
  q ← wrapper_q self;
  call_method q "saveAs" [] ;;
  mret VNone.

(** The native string lives as long as the call; what the C function
    returns is dropped. *)
Definition openFilename `{!Host} (self : loc) (filename : value) : M value :=
  on_main_thread (
    q_filename ← _QString.__init__ filename;
    q ← wrapper_q self;
    ptr ← _QString._pointer q_filename;
    call_method q "openFilename" [ptr] ;;
    release_QString q_filename ;;
    mret VNone).

(** [ViewFrame(q_view_frame)] is [wrapper___init__ ViewFrame]. *)
Definition getCurrentView `{!Host} (self : loc) : M value :=
  q ← wrapper_q self;
  p_view_frame ← call_method q "getCurrentView" [];
  if py_bool p_view_frame then
    q_view_frame ← wrapinstance_address p_view_frame;
    obj ← wrapper___init__ ViewFrame q_view_frame;
    mret (VRef obj)
  else mret VNone.

Definition closeTab `{!Host} (self : loc) : M value :=
  q ← wrapper_q self;
  call_method q "closeTab" [] ;;
  mret VNone.

Definition closeAll `{!Host} (self : loc) : M value :=
  q ← wrapper_q self;
  call_method q "closeTab" [] ;;
  mret VNone.

End MainWindow.


Module ViewFrame.

Definition __init__ `{!Host} (q : Z) : M loc :=
  wrapper___init__ ViewFrame q.

Definition addInitCallback (fn : value) : M value :=
  modify (set_init_callbacks ViewFrame (λ l, l ++ [fn])) ;; mret VNone.


(** [None] stands for the [ValueError] of [list.remove]. *)
Definition removeInitCallback (fn : value) (st : State) : option State :=
  l ← list_remove fn (init_callbacks ViewFrame st);
  Some (set_init_callbacks ViewFrame (λ _, l) st).

Definition back `{!Host} (self : loc) : M value :=
  on_main_thread (
    q ← wrapper_q self;
    call_method q "back" [] ;;
    mret VNone).

Definition forward `{!Host} (self : loc) : M value :=
  on_main_thread (
    q ← wrapper_q self;
    call_method q "forward" [] ;;
    mret VNone).

(** [InfoPanel(child)] is [wrapper___init__ InfoPanel]. *)
Definition getInfoPanel `{!Host, !QtObjects} (self : loc) : M value :=
  q ← wrapper_q self;
  children ← _QObjectProxy._all_children q;
  r ← for_return children (λ child,
         q_meta_object ← cls_q_meta_object InfoPanel;
         if decide (q_metaObject child = q_meta_object)
         then obj ← wrapper___init__ InfoPanel child; mret (Some (VRef obj))
         else mret None);
  mret (default VNone r).

Definition getView `{!Host, !QtObjects} (self : loc) : M value :=
  q ← wrapper_q self;
  children ← _QObjectProxy._all_children q;
  r ← for_return children (λ child,
         st ← get_state;
         if q_isWidget child && q_isVisible (trace st) child then
           view ← View_getViewFromWidget child;
           match view with
           | VNone => mret None
           | _ => mret (Some view)
           end
         else mret None);
  mret (default VNone r).

End ViewFrame.

Module InfoPanel.

Definition __init__ `{!Host} (q : Z) : M loc :=
  wrapper___init__ InfoPanel q.

(** The tab widget is given by its address; [None] when no child is one. *)
Definition getTabWidget `{!Host, !QtObjects} (self : loc) : M (option Z) :=
  q ← wrapper_q self;
  children ← _QObjectProxy._all_children q;
  for_return children (λ child,
    if decide (q_metaObject child = QTabWidget_staticMetaObject)
    then mret (Some child)
    else mret None).

End InfoPanel.

(** ** Smart pointers of the host *)

Definition _from_bn_smart_ptr `{!Host} (ptr : value) (c_type : bn_ctype)
    (new_ref : string) : M value :=
  st ← get_state;
  (if decide (is_Some (_bn_new_ref_fns st !! new_ref)) then mret tt
   else
     fn ← _CStaticMethodProxy.__init__ new_ref
            (CFUNCTYPE (Some c_void_p) [c_void_p]);
     modify (set_bn_new_ref_fns <[new_ref := fn]>)) ;;
  st ← get_state;
  match _bn_new_ref_fns st !! new_ref with
  | None => raise (KeyError new_ref)
  | Some new_ref_fn =>
      addr ← match ptr with
             | VInt p => mret (p + c_sizeof_c_void_p * 2)
             | _ => raise (TypeError "unsupported operand type(s) for +")
             end;
      c_object ← contents_at addr;
      r ← py_call (VRef new_ref_fn) [c_object];
      handle ← c_cast_c_void_p r;
      mret (VHandle c_type handle)
  end.

Definition _binary_view_from_cxx_ref `{!Host} (ptr : value) : M value :=
  handle ← _from_bn_smart_ptr ptr BNBinaryView "BNNewViewReference";
  mret (VBinaryView handle).

Module View.

Definition __init__ `{!Host} (cls : wrapper_class) (q : Z) : M loc :=
  wrapper___init__ cls q.

Definition getViewFromWidget `{!Host} (q_widget : Z) : M value :=
  View_getViewFromWidget q_widget.

End View.

Module HexEditor.
Definition getBinaryView `{!Host} (self : loc) : M value :=
  q ← wrapper_q self;
  ptr ← call_method q "getData" [];
  _binary_view_from_cxx_ref ptr.
End HexEditor.

Module DisassemblyView.
Definition getBinaryView `{!Host} (self : loc) : M value :=
  q ← wrapper_q self;
  ptr ← call_method q "getData" [];
  _binary_view_from_cxx_ref ptr.
End DisassemblyView.

Module StringsView.
Definition getBinaryView `{!Host} (self : loc) : M value :=
  q ← wrapper_q self;
  ptr ← call_method q "getData" [];
  _binary_view_from_cxx_ref ptr.

End StringsView.

Module LinearView.
Definition getBinaryView `{!Host} (self : loc) : M value :=
  q ← wrapper_q self;
  ptr ← call_method q "getData" [];
  _binary_view_from_cxx_ref ptr.
End LinearView.

Module TypeView.
Definition getBinaryView `{!Host} (self : loc) : M value :=
  q ← wrapper_q self;
  ptr ← call_method q "getData" [];
  _binary_view_from_cxx_ref ptr.
End TypeView.

(** The method the class of a view instance provides. *)
Definition getBinaryView `{!Host} (cls : wrapper_class) (self : loc) : M value :=
  match cls with
  | HexEditor => HexEditor.getBinaryView self
  | DisassemblyView => DisassemblyView.getBinaryView self
  | StringsView => StringsView.getBinaryView self
  | LinearView => LinearView.getBinaryView self
  | TypeView => TypeView.getBinaryView self
  | _ => raise (AttributeError "getBinaryView")
  end.

(** ** Theme colours *)



(** ** The application event filter *)


Module _ApplicationEventFilter.




End _ApplicationEventFilter.

(** The module-level [getActiveWindow()]. *)
Definition getActiveWindow `{!Host} : M value := MainWindow.getActiveWindow.

(** ** The symbol of a static meta-object, as the specification words it

    "_ZN", then the decimal length of the class name, then the class name,
    then "16staticMetaObjectE". *)
Definition static_meta_object_symbol (S : string) : string :=
  "_ZN" +:+ PyStr.str_of_Z (Z.of_nat (String.length S)) +:+ S
  +:+ "16staticMetaObjectE".

(** ** Client programs

    What code using the proxies can do with them: build instances, read
    attributes, call methods.  [run] ignores what an operation returns or
    raises and keeps the state it leaves behind. *)
Inductive client_op :=
  | NewCObjectProxy (c_ptr : value) (c_api : gmap string (string * csig))
  | NewQObjectProxy (q_meta_object q_object : Z)
      (c_api : gmap string (string * csig))
  | GetAttr (self : loc) (attr : string)
  | CallMethod (self : loc) (attr : string) (args : list value).

Definition run_op `{!Host} (op : client_op) : M unit :=
  match op with
  | NewCObjectProxy c_ptr c_api => _CObjectProxy.__init__ c_ptr c_api ;; mret tt
  | NewQObjectProxy m q c_api => _QObjectProxy.__init__ m q c_api ;; mret tt
  | GetAttr self attr => py_getattr self attr ;; mret tt
  | CallMethod self attr args => call_method self attr args ;; mret tt
  end.

Fixpoint run `{!Host} (ops : list client_op) (st : State) : State :=
  match ops with
  | [] => st
  | op :: ops' => run ops' (snd (run_op op st))
  end.

(** ** Well-formed states

    What holds of every state the module can be in: fresh locations are
    unused, every address that was cached is the one the symbol table
    gives, and what [setattr] stored on a proxy is the binding its name
    stands for. *)
Definition static_sound `{!Host} (o : obj) : Prop :=
  match o with
  | OCStaticMethodProxy n s (Some f) =>
      ∃ a, resolve_symbol n = Some a ∧ f = CFunc s a
  | _ => True
  end.

Definition is_static (st : State) (l : loc) (name : string) (sig : csig) : Prop :=
  ∃ f, heap st !! l = Some (OCStaticMethodProxy name sig f).

Definition binding_of `{!Host} (st : State) (p : proxy) (attr : string)
    (v : value) : Prop :=
  ∃ l, v = VRef l ∧
    ((∃ m q, qt p = Some (m, q) ∧ attr ∈ meta_methods m ∧
             heap st !! l = Some (OQMethodProxy m q attr))
     ∨ (∃ n s a, c_api p !! attr = Some (n, s) ∧ resolve_symbol n = Some a ∧
                 (∀ m q, qt p = Some (m, q) → attr ∉ meta_methods m) ∧
                 heap st !! l = Some (OCMethodProxy (CFunc s a) (c_ptr p)))).

Record wf `{!Host} (st : State) : Prop := {
  wf_fresh : ∀ l, (next_loc st ≤ l)%positive → heap st !! l = None;
  wf_static : ∀ l o, heap st !! l = Some o → static_sound o;
  wf_funcptrs : ∀ n a, _c_funcptrs st !! n = Some a → resolve_symbol n = Some a;
  wf_new : is_static st _new "_Znwm" (CFUNCTYPE (Some c_void_p) [c_int]);
  wf_delete : is_static st _delete "_ZdlPv" (CFUNCTYPE None [c_void_p]);
  wf_getThemeColor :
    is_static st _getThemeColor "_Z13getThemeColor10ThemeColor"
      (CFUNCTYPE (Some c_int) [c_void_p; c_int]);
  wf_new_ref : ∀ n l, _bn_new_ref_fns st !! n = Some l →
    is_static st l n (CFUNCTYPE (Some c_void_p) [c_void_p]);
  wf_q_methods : ∀ m names, _q_methods st !! m = Some names →
    names = meta_methods m;
  wf_dict : ∀ self p attr v, heap st !! self = Some (OObjectProxy p) →
    inst_dict p !! attr = Some v → binding_of st p attr v;
  wf_wrapper : ∀ self cls q, heap st !! self = Some (OWrapper cls (Some q)) →
    ∃ p m w, heap st !! q = Some (OObjectProxy p) ∧
      c_api p = cls_c_api cls ∧ c_ptr p = VInt w ∧ qt p = Some (m, w) ∧
      _q_meta_object_for_class (cls_name cls) = Ok (VSip QMetaObject m) ∧
      is_Some (_q_methods st !! m);
}.

(** How an object may change while the module runs: a static proxy gets
    bound once, a proxy instance gains attributes, a [_QString] or a wrapper
    gets its fields while it is being built; method proxies never change. *)
Definition obj_le (o o' : obj) : Prop :=
  match o, o' with
  | OCStaticMethodProxy n s f, OCStaticMethodProxy n' s' f' =>
      n = n' ∧ s = s' ∧ (f = None ∨ f = f')
  | OCMethodProxy _ _, _ => o' = o
  | OQMethodProxy _ _ _, _ => o' = o
  | OObjectProxy p, OObjectProxy p' =>
      c_ptr p = c_ptr p' ∧ c_api p = c_api p' ∧ qt p = qt p'
      ∧ inst_dict p ⊆ inst_dict p'
  | OQString b c, OQString b' c' =>
      (b = false ∨ b' = b) ∧ (c = None ∨ c' = c)
  | OWrapper cls q, OWrapper cls' q' => cls = cls' ∧ (q = None ∨ q' = q)
  | _, _ => False
  end.

Record state_le (st st' : State) : Prop := {
  le_next : (next_loc st ≤ next_loc st')%positive;
  le_heap : ∀ l o, heap st !! l = Some o →
    ∃ o', heap st' !! l = Some o' ∧ obj_le o o';
  le_funcptrs : _c_funcptrs st ⊆ _c_funcptrs st';
  le_q_methods : _q_methods st ⊆ _q_methods st';
  le_new_ref : _bn_new_ref_fns st ⊆ _bn_new_ref_fns st';
  le_MainWindow_init_set : MainWindow_init_set st ⊆ MainWindow_init_set st';
  le_ViewFrame_init_set : ViewFrame_init_set st ⊆ ViewFrame_init_set st';
  le_resolutions : resolutions st `prefix_of` resolutions st';
  le_trace : trace st `prefix_of` trace st';
}.

(** What may be allocated: an unbound static proxy, a proxy instance
    without attributes, a wrapper without its [q]. *)
Definition new_ok (o : obj) : Prop :=
  match o with
  | OCStaticMethodProxy _ _ f => f = None
  | OObjectProxy p => inst_dict p = ∅
  | OWrapper _ q => q = None
  | _ => True
  end.

(** Running [m] from [st] ends in a well-formed state that extends [st],
    and [Q] holds of what it returned or raised. *)
Definition outcome `{!Host} {A} (m : M A) (st : State)
    (Q : result A → State → Prop) : Prop :=
  wf (m st).2 ∧ state_le st (m st).2 ∧ Q (m st).1 (m st).2.

(** Objects that existed in [st], other than [self], are the same in [st']. *)
Definition unchanged_but (self : loc) (st st' : State) : Prop :=
  ∀ l, l ≠ self → (l < next_loc st)%positive → heap st' !! l = heap st !! l.

(** Every way [self.attr] can go from [st]: nothing changes (the attribute
    was already stored, belongs to the class or to the Qt object, or does
    not exist); a method proxy is made and stored on the instance; or a
    symbol fails to resolve. *)
Definition getattr_cases `{!Host} (st : State) (self : loc) (attr : string)
    (r : result value) (st' : State) : Prop :=
  (st' = st ∧ ∀ v, r = Ok v →
      (∃ p, heap st !! self = Some (OObjectProxy p) ∧ inst_dict p !! attr = Some v)
      ∨ v = VMember self attr ∨ ∃ id, v = VHost id)
  ∨ (∃ p o st1,
       heap st !! self = Some (OObjectProxy p) ∧ inst_dict p !! attr = None ∧
       ((∃ m q, qt p = Some (m, q) ∧ o = OQMethodProxy m q attr ∧ st1 = st)
        ∨ ∃ n s a, o = OCMethodProxy (CFunc s a) (c_ptr p) ∧
            c_api p !! attr = Some (n, s) ∧ resolve_symbol n = Some a ∧
            (st1 = st ∧ is_Some (_c_funcptrs st !! n)
             ∨ st1 = set_c_funcptrs <[n := a]>
                       (set_resolutions (λ r, r ++ [n]) st)
               ∧ _c_funcptrs st !! n = None)) ∧
       r = Ok (VRef (next_loc st)) ∧
       st' = set_heap
               <[self := OObjectProxy
                           (Proxy (c_ptr p) (c_api p) (qt p)
                              (<[attr := VRef (next_loc st)]> (inst_dict p)))]>
               (set_next_loc (Pos.succ (next_loc st))
                  (set_heap <[next_loc st := o]> st1)))
  ∨ (∃ p n s e, heap st !! self = Some (OObjectProxy p) ∧
       c_api p !! attr = Some (n, s) ∧
       resolve_symbol n = None ∧ _c_funcptrs st !! n = None ∧
       r = Raise e ∧ st' = set_resolutions (λ r, r ++ [n]) st).


Definition is_method_proxy (o : obj) : Prop :=
  match o with
  | OCMethodProxy _ _ | OQMethodProxy _ _ _ => True
  | _ => False
  end.





(** The methods of [MainWindow] that stand for a slot of the Qt window, each
    with the name of the slot and the arguments it passes. *)
Definition MainWindow_slots `{!Host, !QtObjects}
    : list ((loc → M value) * (string * list value)) :=
  [(MainWindow.newWindow, ("newWindow", []));
   (MainWindow.newTab, ("newTab", []));
   (MainWindow.newBinary, ("newBinary", []));
   (MainWindow.nextTab, ("nextTab", []));
   (MainWindow.previousTab, ("previousTab", []));
   (MainWindow.newWindowForTab, ("newWindowForTab", []));
   (MainWindow.splitToNewTab, ("splitToNewTab", []));
   (MainWindow.splitToNewWindow, ("splitToNewWindow", []));
   (MainWindow.navigateBack, ("navigateBack", [VHost (Q_ARG_bool false)]));
   (MainWindow.navigateForward, ("navigateForward", [VHost (Q_ARG_bool false)]));
   (MainWindow.open, ("open", []));
   (MainWindow.openUrlDialog, ("openUrlDialog", []));
   (MainWindow.save, ("saveDatabase", []));
   (MainWindow.saveAs, ("saveAs", []))].




(** The static meta-object of the class [cls] is at [m]. *)
Definition class_meta `{!Host} (cls : wrapper_class) (m : Z) : Prop :=
  _q_meta_object_for_class (cls_name cls) = Ok (VSip QMetaObject m).

(** The module was imported: every class body found its static
    meta-object. *)
Definition imported `{!Host} : Prop := ∀ cls, ∃ m, class_meta cls m.

(** The widget at [w] belongs to one of the view classes. *)
Definition is_view `{!Host} (w : Z) : Prop :=
  ∃ cls, cls ∈ View___subclasses__ ∧ class_meta cls (q_metaObject w).

(** ** A small concrete host

    A symbol table, three widgets and one smart pointer, enough to run
    every operation above. *)
Module Demo.

Definition symbols : list (string * Z) :=
  [("_Znwm", 4096); ("_ZdlPv", 4104);
   ("_ZN7QStringC2EPKc", 4112); ("_ZN7QStringD2Ev", 4120);
   ("_ZN10MainWindow16staticMetaObjectE", 8192);
   ("_ZN9ViewFrame16staticMetaObjectE", 8448);
   ("_ZN9InfoPanel16staticMetaObjectE", 8704);
   ("_ZN9HexEditor16staticMetaObjectE", 8960);
   ("_ZN15DisassemblyView16staticMetaObjectE", 9216);
   ("_ZN11StringsView16staticMetaObjectE", 9472);
   ("_ZN10LinearView16staticMetaObjectE", 9728);
   ("_ZN8TypeView16staticMetaObjectE", 9984);
   ("_ZN9HexEditor7getDataEv", 12288);
   ("_ZN15DisassemblyView7getDataEv", 12296);
   ("_ZN11StringsView7getDataEv", 12304);
   ("_ZN10LinearView7getDataEv", 12312);
   ("_ZN10TypeView7getDataEv", 12320);
   ("_ZN9ViewFrame11setViewTypeERK7QString", 12544);
   ("BNNewViewReference", 16384);
   ("_Z13getThemeColor10ThemeColor", 20480)].

Definition class_names : list (Z * string) :=
  [(8192, "MainWindow"); (8448, "ViewFrame"); (8704, "InfoPanel");
   (8960, "HexEditor"); (9216, "DisassemblyView"); (9472, "StringsView");
   (9728, "LinearView"); (9984, "TypeView")].

Definition method_names (meta : Z) : list string :=
  if meta =? 8192 then ["newTab"; "closeTab"; "closeAll"] else ["update"].

(** Widget [w] of the demo has the meta-object at [8192 + 256 * (w - 1)]
    for [1 <= w <= 8], and is a plain [QWidget] otherwise. *)
Definition widget_meta (w : Z) : Z :=
  if (1 <=? w) && (w <=? 8) then 8192 + 256 * (w - 1) else 4660.

Definition assoc {A} (k : string) (l : list (string * A)) : option A :=
  snd <$> List.find (λ kv, bool_decide (kv.1 = k)) l.

Definition answer (f : cfunc) (args : list value) : value :=
  match restype (fn_sig f) with
  | None => VNone
  | Some c_void_p =>
      if fn_addr f =? 4096 then VInt 28672           (* operator new *)
      else if fn_addr f =? 16384 then VInt 40960     (* BNNewViewReference *)
      else VInt 32768                                (* getData *)
  | Some _ => VInt 1
  end.

#[export] Instance host : Host := {|
  resolve_symbol name := assoc name symbols;
  sizeof_void_p := 8;
  foreign_result _ f args := answer f args;
  read_pointer _ addr := if addr =? 32784 then Some 36864 else None;
  q_metaObject := widget_meta;
  meta_className m :=
    default "QWidget" (snd <$> List.find (λ kv, kv.1 =? m) class_names);
  meta_methodCount m := length (method_names m);
  meta_method_name m n := default "" (method_names m !! n);
  meta_propertyCount _ := 1%nat;
  meta_property_name _ _ := "objectName";
  qt_getattr _ attr := if bool_decide (attr = "show") then Some 1 else None;
  new_QColor _ := 24576;
  host_call_result _ _ _ := Ok VNone;
|}.

(** States of the demo: one proxy for the main window (widget 1); a
    [MainWindow], a [ViewFrame] and a [HexEditor] wrapper; a registered
    callback; and a plain C proxy whose table names a symbol the demo does
    not define. *)
Definition st_window : State :=
  run [NewQObjectProxy 8192 1 (cls_c_api MainWindow)] initial_state.

Definition p_window : proxy :=
  Proxy (VInt 1) (cls_c_api MainWindow) (Some (8192, 1)) ∅.

Definition st_main : State := (MainWindow.__init__ 1 initial_state).2.

Definition st_frame : State := (ViewFrame.__init__ 2 initial_state).2.

Definition p_frame : proxy :=
  Proxy (VInt 2) (cls_c_api ViewFrame) (Some (8448, 2)) ∅.

Definition st_hex : State := (View.__init__ HexEditor 4 initial_state).2.

Definition p_hex : proxy :=
  Proxy (VInt 4) (cls_c_api HexEditor) (Some (8960, 4)) ∅.

Definition st_callback : State :=
  (MainWindow.addInitCallback (VHost 7) initial_state).2.


End Demo.

(** ** A host with every entry point

    The demo host with the remaining symbols defined, an active window
    (widget 1) whose current view is the view frame at widget 2, and a small
    object tree below that frame: a hidden plain widget 9, the info panel 3
    with its tab widget 10, and the hex editor 4.  The callback [VHost 7]
    fails when it is called. *)
Module Session.

Definition symbols : list (string * Z) :=
  Demo.symbols ++
  [("_ZN10MainWindow15getActiveWindowEv", 12800);
   ("_ZN10MainWindow12openFilenameERK7QString", 12808);
   ("_ZN10MainWindow14getCurrentViewEv", 12816);
   ("_ZN11StringsView8navigateEm", 12840)].

Definition widget_meta (w : Z) : Z :=
  if w =? 10 then 4700 else Demo.widget_meta w.

Definition answer (f : cfunc) (args : list value) : value :=
  if fn_addr f =? 12800 then VInt 1
  else if fn_addr f =? 12816 then VInt 2
  else if fn_addr f =? 12840 then VInt 0
  else Demo.answer f args.

#[export] Instance host : Host := {|
  resolve_symbol name := Demo.assoc name symbols;
  sizeof_void_p := 8;
  foreign_result _ f args := answer f args;
  read_pointer _ addr := if addr =? 32784 then Some 36864 else None;
  q_metaObject := widget_meta;
  meta_className m :=
    default "QWidget" (snd <$> List.find (λ kv, kv.1 =? m) Demo.class_names);
  meta_methodCount m := length (Demo.method_names m);
  meta_method_name m n := default "" (Demo.method_names m !! n);
  meta_propertyCount _ := 1%nat;
  meta_property_name _ _ := "objectName";
  qt_getattr _ attr := if bool_decide (attr = "show") then Some 1 else None;
  new_QColor _ := 24576;
  host_call_result _ callee _ :=
    if bool_decide (callee = VHost 7) then Raise (TypeError "callback failed")
    else Ok VNone;
|}.

Definition tree (q : Z) : list qobject_tree :=
  if q =? 2 then
    [QObjectTree 9 []; QObjectTree 3 [QObjectTree 10 []]; QObjectTree 4 []]
  else if q =? 3 then [QObjectTree 10 []]
  else [].

#[export] Instance qt_objects : QtObjects := {|
  q_children _ q := tree q;
  q_isWidget _ := true;
  q_isVisible _ w := negb (w =? 9);
  QTabWidget_staticMetaObject := 4700;
  Q_ARG_bool b := if b then 61 else 60;
|}.

Definition st_main : State := (MainWindow.__init__ 1 initial_state).2.

Definition p_main : proxy :=
  Proxy (VInt 1) (cls_c_api MainWindow) (Some (8192, 1)) ∅.

Definition st_frame : State := (ViewFrame.__init__ 2 initial_state).2.

Definition p_frame : proxy :=
  Proxy (VInt 2) (cls_c_api ViewFrame) (Some (8448, 2)) ∅.

Definition st_panel : State := (InfoPanel.__init__ 3 initial_state).2.

Definition p_panel : proxy := Proxy (VInt 3) ∅ (Some (8704, 3)) ∅.




End Session.

(** * Properties *)

(** ** Decimal numerals *)

Section Decimal.
Import PyStr.

Lemma digit_value_digit_char d :
  (d < 10)%N → digit_value (digit_char d) = Some d.
Proof.
  intros Hd. unfold digit_value, digit_char.
  rewrite Ascii.N_ascii_embedding by lia.
  replace ((48 <=? 48 + d)%N && (48 + d <=? 57)%N) with true.
  - f_equal. lia.
  - symmetry. apply andb_true_iff. split; apply N.leb_le; lia.
Qed.

Lemma size_nat_div10 n :
  (n / 10 ≠ 0)%N → (S (N.size_nat (n / 10)) ≤ N.size_nat n)%nat.
Proof.
  intros Hq.
  assert (Hle : (n / 10 ≤ N.div2 n)%N).
  { rewrite N.div2_div. apply N.div_le_compat_l. lia. }
  destruct (n / 10)%N as [|q]; [done|].
  destruct n as [|[p|p|]]; simpl in *; try lia.
  - destruct (Pos.eq_dec q p) as [->|Hne]; [lia|].
    apply le_n_S, Pos.size_nat_monotone. lia.
  - destruct (Pos.eq_dec q p) as [->|Hne]; [lia|].
    apply le_n_S, Pos.size_nat_monotone. lia.
Qed.

(** Reading the digits produced for [n] in front of [acc], starting from
    the accumulator [a], continues as if [n] had been pushed on [a]. *)
Lemma decimal_value_from_digits fuel : ∀ n acc,
  (N.size_nat n ≤ fuel)%nat → (0 < n)%N →
  ∃ k, (n < k)%N ∧ ∀ a,
    decimal_value_from a (digits fuel n acc) =
    decimal_value_from (k * a + n)%N acc.
Proof.
  induction fuel as [|fuel IH]; intros n acc Hsz Hn.
  - destruct n as [|[p|p|]]; simpl in Hsz; lia.
  - simpl. pose proof (N.div_mod n 10 ltac:(lia)) as Hdm.
    pose proof (N.mod_lt n 10 ltac:(lia)) as Hm.
    destruct (N.eqb_spec (n / 10) 0) as [Hq|Hq].
    + exists 10%N. split; [lia|]. intros a. simpl.
      rewrite digit_value_digit_char by done. f_equal. lia.
    + destruct (IH (n / 10)%N (String (digit_char (n mod 10)%N) acc))
        as (k & Hlt & Heq).
      * pose proof (size_nat_div10 n Hq). lia.
      * lia.
      * exists (10 * k)%N. split; [lia|].
        intros a. rewrite Heq. simpl.
        rewrite digit_value_digit_char by done. f_equal. lia.
Qed.

Lemma decimal_value_str_of_N n : decimal_value (str_of_N n) = Some n.
Proof.
  destruct (N.eq_dec n 0%N) as [->|Hn]; [reflexivity|].
  destruct (decimal_value_from_digits (S (N.size_nat n)) n "")
    as (k & _ & Heq); [lia | lia |].
  unfold decimal_value, str_of_N.
  specialize (Heq 0%N). simpl decimal_value_from at 2 in Heq.
  replace (k * 0 + n)%N with n in Heq by lia.
  destruct (digits (S (N.size_nat n)) n "") eqn:Hd.
  - simpl in Heq. congruence.
  - exact Heq.
Qed.

End Decimal.

(** ** Running the monad by hand *)

Ltac munfold :=
  cbv [mbind M_bind mret M_ret raise get_state modify emit resolve foreign_call
       host_call lift_result deref deref_proxy store alloc try_except
       proxy_setattr contents_at].


Lemma bind_unfold {A B} (m : M A) (k : A → M B) st :
  (m ≫= k) st =
  match m st with
  | (Ok a, st') => k a st'
  | (Raise e, st') => (Raise e, st')
  end.
Proof. reflexivity. Qed.

Lemma bind_ok {A B} (m : M A) (k : A → M B) st a st' :
  m st = (Ok a, st') → (m ≫= k) st = k a st'.
Proof. intros Hm. rewrite bind_unfold, Hm. reflexivity. Qed.

Lemma bind_raise {A B} (m : M A) (k : A → M B) st e st' :
  m st = (Raise e, st') → (m ≫= k) st = (Raise e, st').
Proof. intros Hm. rewrite bind_unfold, Hm. reflexivity. Qed.

Lemma not_elem_of_c_members attr :
  bool_decide (attr ∈ c_members) = false → attr ∉ c_members.
Proof. apply bool_decide_eq_false. Qed.

Lemma not_elem_of_q_members attr :
  bool_decide (attr ∈ q_members) = false → attr ∉ q_members.
Proof. apply bool_decide_eq_false. Qed.

Section Proofs.
Context `{!Host}.

(** ** Single steps *)

Lemma static_call_undefined (st : State) self name sig args :
  heap st !! self = Some (OCStaticMethodProxy name sig None) →
  resolve_symbol name = None →
  _CStaticMethodProxy.__call__ self args st =
    (Raise (AttributeError ("Symbol " +:+ name +:+ " is not defined")),
     set_resolutions (λ r, r ++ [name]) st).
Proof.
  intros Hh Hr. unfold _CStaticMethodProxy.__call__. munfold.
  rewrite Hh. simpl. rewrite Hr. reflexivity.
Qed.

Lemma c_getattr_undefined_symbol (st : State) self p attr name sig :
  heap st !! self = Some (OObjectProxy p) →
  c_api p !! attr = Some (name, sig) →
  _c_funcptrs st !! name = None →
  resolve_symbol name = None →
  _CObjectProxy.__getattr__ self attr st =
    (Raise (AttributeError ("Symbol " +:+ name +:+ " is not defined")),
     set_resolutions (λ r, r ++ [name]) st).
Proof.
  intros Hh Ha Hc Hr. unfold _CObjectProxy.__getattr__. munfold.
  rewrite Hh. simpl. rewrite Ha, Hc. simpl. rewrite Hr. reflexivity.
Qed.

Lemma c_getattr_undefined_method (st : State) self p attr :
  heap st !! self = Some (OObjectProxy p) →
  c_api p !! attr = None →
  _CObjectProxy.__getattr__ self attr st =
    (Raise (AttributeError ("undefined method '" +:+ attr +:+ "'")), st).
Proof.
  intros Hh Ha. unfold _CObjectProxy.__getattr__. munfold.
  rewrite Hh. simpl. rewrite Ha. reflexivity.
Qed.

Lemma q_init_mismatch st m q api :
  m ≠ q_metaObject q →
  ∃ st', _QObjectProxy.__init__ m q api st =
    (Raise (TypeError ("proxy for '" +:+ meta_className m
                       +:+ "' cannot be initialized from a pointer to '"
                       +:+ meta_className (q_metaObject q) +:+ "'")), st')
    ∧ _q_methods st' = _q_methods st ∧ _q_properties st' = _q_properties st
    ∧ _c_funcptrs st' = _c_funcptrs st ∧ trace st' = trace st.
Proof.
  intros Hne. unfold _QObjectProxy.__init__. munfold.
  destruct (decide (m ≠ q_metaObject q)); [|done].
  eexists. split; [reflexivity|]. done.
Qed.

Lemma q_init_ok st m q api :
  m = q_metaObject q →
  ∃ st', _QObjectProxy.__init__ m q api st = (Ok (next_loc st), st')
    ∧ heap st' =
        <[next_loc st := OObjectProxy (Proxy (VInt q) api (Some (m, q)) ∅)]>
          (heap st)
    ∧ next_loc st' = Pos.succ (next_loc st)
    ∧ _q_methods st' =
        (if decide (is_Some (_q_methods st !! m)) then _q_methods st
         else <[m := meta_methods m]> (_q_methods st))
    ∧ _q_properties st' =
        (if decide (is_Some (_q_properties st !! m)) then _q_properties st
         else <[m := meta_properties m]> (_q_properties st))
    ∧ _c_funcptrs st' = _c_funcptrs st
    ∧ _bn_new_ref_fns st' = _bn_new_ref_fns st
    ∧ trace st' = trace st ∧ resolutions st' = resolutions st.
Proof.
  intros Heq. unfold _QObjectProxy.__init__. munfold.
  destruct (decide (m ≠ q_metaObject q)); [done|]. simpl.
  repeat (case_decide; simpl);
  eexists; (split; [reflexivity|]); simpl; repeat split; by repeat case_decide.
Qed.

Lemma obj_le_refl o : obj_le o o.
Proof. destruct o; simpl; auto. Qed.

Lemma obj_le_trans o1 o2 o3 : obj_le o1 o2 → obj_le o2 o3 → obj_le o1 o3.
Proof.
  intros H12 H23.
  destruct o1; simpl in *; subst; simpl in *; try done;
    destruct o2; simpl in *; try done;
    destruct o3; simpl in *; try done.
  - destruct H12 as (-> & -> & Hf), H23 as (-> & -> & Hf').
    repeat split; auto. destruct Hf as [-> | ->]; auto.
  - destruct H12 as (-> & -> & -> & Hd), H23 as (-> & -> & -> & Hd').
    repeat split; auto. by trans (inst_dict p0).
  - destruct H12 as [Hb Hc], H23 as [Hb' Hc']. split.
    + destruct Hb as [-> | ->]; auto.
    + destruct Hc as [-> | ->]; auto.
  - destruct H12 as [-> Hq], H23 as [-> Hq']. split; auto.
    destruct Hq as [-> | ->]; auto.
Qed.

Lemma state_le_refl st : state_le st st.
Proof.
  constructor; try done.
  intros l o Hl. exists o. split; [done | apply obj_le_refl].
Qed.

Lemma state_le_trans st1 st2 st3 :
  state_le st1 st2 → state_le st2 st3 → state_le st1 st3.
Proof.
  intros H12 H23.
  constructor; try (etrans; [apply H12 | apply H23]).
  intros l o Hl. destruct (le_heap _ _ H12 l o Hl) as (o2 & Hl2 & Hle).
  destruct (le_heap _ _ H23 l o2 Hl2) as (o3 & Hl3 & Hle').
  exists o3. split; [done | by eapply obj_le_trans].
Qed.

(** Changes that leave the heap and the address tables alone. *)
Lemma wf_same st st' :
  heap st' = heap st → next_loc st' = next_loc st →
  _c_funcptrs st' = _c_funcptrs st → _bn_new_ref_fns st' = _bn_new_ref_fns st →
  _q_methods st ⊆ _q_methods st' →
  (∀ m names, _q_methods st' !! m = Some names → names = meta_methods m) →
  wf st → wf st'.
Proof.
  intros Hh Hn Hc Hb Hq Hq' Hwf.
  constructor; unfold is_static, binding_of in *;
    rewrite ?Hh, ?Hn, ?Hc, ?Hb; try done; try apply Hwf.
  intros self cls q Hs.
  destruct (wf_wrapper _ Hwf self cls q Hs)
    as (p & m & w & ? & ? & ? & ? & ? & [x Hx]).
  exists p, m, w. repeat split; try done.
  exists x. by eapply lookup_weaken.
Qed.

Lemma wf_set_trace f st : wf st → wf (set_trace f st).
Proof. intros Hwf. apply (wf_same st); try done. apply Hwf. Qed.

Lemma wf_set_resolutions f st : wf st → wf (set_resolutions f st).
Proof. intros Hwf. apply (wf_same st); try done. apply Hwf. Qed.


Lemma wf_set_init_callbacks cls f st : wf st → wf (set_init_callbacks cls f st).
Proof. intros Hwf. apply (wf_same st); try done. apply Hwf. Qed.

Lemma wf_set_q_properties f st : wf st → wf (set_q_properties f st).
Proof. intros Hwf. apply (wf_same st); try done. apply Hwf. Qed.

Lemma wf_set_q_methods m st :
  _q_methods st !! m = None →
  wf st → wf (set_q_methods <[m := meta_methods m]> st).
Proof.
  intros Hm Hwf. apply (wf_same st); try done; simpl.
  - by apply insert_subseteq.
  - intros m' names. destruct (decide (m = m')) as [-> | Hne].
    + rewrite lookup_insert_eq. congruence.
    + rewrite lookup_insert_ne by done. apply Hwf.
Qed.

Lemma wf_set_c_funcptrs n a st :
  resolve_symbol n = Some a →
  wf st → wf (set_c_funcptrs <[n := a]> st).
Proof.
  intros Hr Hwf. constructor; try apply Hwf. simpl.
  intros n' a'. destruct (decide (n = n')) as [-> | Hne].
  - rewrite lookup_insert_eq. congruence.
  - rewrite lookup_insert_ne by done. apply Hwf.
Qed.

Lemma wf_set_bn_new_ref_fns n l st :
  is_static st l n (CFUNCTYPE (Some c_void_p) [c_void_p]) →
  wf st → wf (set_bn_new_ref_fns <[n := l]> st).
Proof.
  intros Hs Hwf. constructor; try apply Hwf. simpl.
  intros n' l'. destruct (decide (n = n')) as [-> | Hne].
  - rewrite lookup_insert_eq. intros [= <-]. done.
  - rewrite lookup_insert_ne by done. apply Hwf.
Qed.

Lemma wf_self_not_fresh st l o :
  wf st → heap st !! l = Some o → l ≠ next_loc st.
Proof.
  intros Hwf Hl ->. rewrite (wf_fresh _ Hwf) in Hl; [done | lia].
Qed.

Lemma binding_of_mono st st' p attr v :
  (∀ l o, heap st !! l = Some o →
          ∃ o', heap st' !! l = Some o' ∧ obj_le o o') →
  binding_of st p attr v → binding_of st' p attr v.
Proof.
  intros Hmono (l & -> & Hb). exists l. split; [done|].
  destruct Hb as [(m & q & ? & ? & Hl)|(n & s & a & ? & ? & ? & Hl)].
  - left. exists m, q. repeat split; try done.
    destruct (Hmono _ _ Hl) as (o' & ? & Hle). simpl in Hle. by subst.
  - right. exists n, s, a. repeat split; try done.
    destruct (Hmono _ _ Hl) as (o' & ? & Hle). simpl in Hle. by subst.
Qed.

Lemma insert_heap_le st self o o' :
  heap st !! self = Some o → obj_le o o' →
  ∀ l o1, heap st !! l = Some o1 →
    ∃ o1', <[self := o']> (heap st) !! l = Some o1' ∧ obj_le o1 o1'.
Proof.
  intros Hs Hle l o1 Hl. destruct (decide (self = l)) as [<- | Hne].
  - rewrite lookup_insert_eq. exists o'. split; [done|]. congruence.
  - rewrite lookup_insert_ne by done. exists o1. split; [done|]. apply obj_le_refl.
Qed.

Lemma is_static_le st st' l n s :
  (∀ l o, heap st !! l = Some o →
          ∃ o', heap st' !! l = Some o' ∧ obj_le o o') →
  is_static st l n s → is_static st' l n s.
Proof.
  intros Hmono [f Hf]. destruct (Hmono _ _ Hf) as (o' & Ho' & Hle).
  destruct o'; simpl in Hle; try done. destruct Hle as (-> & -> & _).
  by eexists.
Qed.

(** Replacing an object by a later stage of itself. *)
Lemma wf_store st self o o' :
  wf st → heap st !! self = Some o → obj_le o o' → static_sound o' →
  (∀ p', o' = OObjectProxy p' → ∀ attr v,
      inst_dict p' !! attr = Some v → binding_of st p' attr v) →
  (∀ cls q, o' = OWrapper cls (Some q) →
      ∃ p m w, heap st !! q = Some (OObjectProxy p) ∧
        c_api p = cls_c_api cls ∧ c_ptr p = VInt w ∧ qt p = Some (m, w) ∧
        _q_meta_object_for_class (cls_name cls) = Ok (VSip QMetaObject m) ∧
        is_Some (_q_methods st !! m)) →
  wf (set_heap <[self := o']> st).
Proof.
  intros Hwf Hs Hle Hsound Hdict Hwrap.
  pose proof (insert_heap_le st self o o' Hs Hle) as Hmono.
  constructor; simpl.
  - intros l Hl. rewrite lookup_insert_ne.
    + by apply Hwf.
    + intros <-. rewrite (wf_fresh _ Hwf) in Hs; done.
  - intros l o1. destruct (decide (self = l)) as [<- | Hne].
    + rewrite lookup_insert_eq. by intros [= <-].
    + rewrite lookup_insert_ne by done. apply Hwf.
  - apply Hwf.
  - eapply (is_static_le st); [done | apply Hwf].
  - eapply (is_static_le st); [done | apply Hwf].
  - eapply (is_static_le st); [done | apply Hwf].
  - intros n l Hn. eapply (is_static_le st); [done | by apply Hwf].
  - apply Hwf.
  - intros self' p attr v. destruct (decide (self = self')) as [<- | Hne].
    + rewrite lookup_insert_eq. intros [= ->] Hd.
      eapply (binding_of_mono st); [done | by eapply Hdict].
    + rewrite lookup_insert_ne by done. intros Hs' Hd.
      eapply (binding_of_mono st); [done | by eapply (wf_dict _ Hwf)].
  - intros self' cls q. destruct (decide (self = self')) as [<- | Hne].
    + rewrite lookup_insert_eq. intros [= ->].
      destruct (Hwrap cls q eq_refl) as (p & m & w & Hq & Ha & Hp & Hqt & Hm & Hsome).
      destruct (Hmono _ _ Hq) as (o1 & Hq' & Hle').
      destruct o1 as [| | |p'| |]; simpl in Hle'; try done.
      destruct Hle' as (? & ? & ? & ?).
      exists p', m, w. repeat split; try done; congruence.
    + rewrite lookup_insert_ne by done. intros Hs'.
      destruct (wf_wrapper _ Hwf self' cls q Hs')
        as (p & m & w & Hq & Ha & Hp & Hqt & Hm & Hsome).
      destruct (Hmono _ _ Hq) as (o1 & Hq' & Hle').
      destruct o1 as [| | |p'| |]; simpl in Hle'; try done.
      destruct Hle' as (? & ? & ? & ?).
      exists p', m, w. repeat split; try done; congruence.
Qed.

Lemma le_store st self o o' :
  heap st !! self = Some o → obj_le o o' →
  state_le st (set_heap <[self := o']> st).
Proof.
  intros Hs Hle. constructor; simpl; try done.
  by apply (insert_heap_le st self o o').
Qed.

Lemma le_same_heap st st' :
  heap st' = heap st → next_loc st' = next_loc st →
  _c_funcptrs st ⊆ _c_funcptrs st' → _q_methods st ⊆ _q_methods st' →
  _bn_new_ref_fns st ⊆ _bn_new_ref_fns st' →
  MainWindow_init_set st ⊆ MainWindow_init_set st' →
  ViewFrame_init_set st ⊆ ViewFrame_init_set st' →
  resolutions st `prefix_of` resolutions st' →
  trace st `prefix_of` trace st' →
  state_le st st'.
Proof.
  intros Hh Hn ???????. constructor; try done.
  - rewrite Hn. lia.
  - rewrite Hh. intros l o Hl. exists o. split; [done | apply obj_le_refl].
Qed.

Lemma wf_alloc o st :
  new_ok o → wf st →
  wf (set_next_loc (Pos.succ (next_loc st)) (set_heap <[next_loc st := o]> st)).
Proof.
  intros Hnew Hwf.
  assert (Hmono : ∀ l o', heap st !! l = Some o' →
            <[next_loc st := o]> (heap st) !! l = Some o').
  { intros l o' Hl. rewrite lookup_insert_ne; [done|].
    intros <-. by eapply wf_self_not_fresh. }
  constructor; simpl; unfold is_static in *; simpl.
  - intros l Hl. rewrite lookup_insert_ne by lia. apply Hwf. lia.
  - intros l o'. destruct (decide (next_loc st = l)) as [<- | Hne].
    + rewrite lookup_insert_eq. intros [= <-]. destruct o; simpl in *; by subst.
    + rewrite lookup_insert_ne by done. apply Hwf.
  - apply Hwf.
  - destruct (wf_new _ Hwf) as [f Hf]. exists f. by apply Hmono.
  - destruct (wf_delete _ Hwf) as [f Hf]. exists f. by apply Hmono.
  - destruct (wf_getThemeColor _ Hwf) as [f Hf]. exists f. by apply Hmono.
  - intros n l Hn. destruct (wf_new_ref _ Hwf n l Hn) as [f Hf].
    exists f. by apply Hmono.
  - apply Hwf.
  - intros self p attr v. destruct (decide (next_loc st = self)) as [<- | Hne].
    + rewrite lookup_insert_eq. intros [= ->]. simpl in Hnew. rewrite Hnew.
      by rewrite lookup_empty.
    + rewrite lookup_insert_ne by done. intros Hs Hd.
      eapply (binding_of_mono st); [|by eapply (wf_dict _ Hwf)].
      intros l o1 Hl. exists o1. split; [by apply Hmono | apply obj_le_refl].
  - intros self cls q. destruct (decide (next_loc st = self)) as [<- | Hne].
    + rewrite lookup_insert_eq. intros [= ->]. done.
    + rewrite lookup_insert_ne by done. intros Hs.
      destruct (wf_wrapper _ Hwf self cls q Hs) as (p & m & w & ? & ?).
      exists p, m, w. split; [by apply Hmono | done].
Qed.

Lemma le_alloc o st :
  wf st →
  state_le st (set_next_loc (Pos.succ (next_loc st)) (set_heap <[next_loc st := o]> st)).
Proof.
  intros Hwf. constructor; simpl; try done; [lia|].
  intros l o' Hl. exists o'. split; [|apply obj_le_refl].
  rewrite lookup_insert_ne; [done|]. intros <-. by eapply wf_self_not_fresh.
Qed.


(** ** Outcomes *)


Lemma outcome_raise {A} e st (Q : result A → State → Prop) :
  wf st → Q (Raise e) st → outcome (raise e) st Q.
Proof. intros Hwf HQ. split; [done|]. split; [apply state_le_refl | done]. Qed.

Lemma outcome_bind {A B} (m : M A) (k : A → M B) st
    (Q : result A → State → Prop) (R : result B → State → Prop) :
  outcome m st Q →
  (∀ a st1, wf st1 → state_le st st1 → Q (Ok a) st1 → outcome (k a) st1
     (λ r st2, state_le st st2 → R r st2)) →
  (∀ e st1, wf st1 → state_le st st1 → Q (Raise e) st1 → R (Raise e) st1) →
  outcome (m ≫= k) st R.
Proof.
  intros (Hwf1 & Hle1 & HQ) Hk He. unfold outcome. rewrite bind_unfold.
  destruct (m st) as [[a|e] st1]; simpl in *.
  - destruct (Hk a st1 Hwf1 Hle1 HQ) as (Hwf2 & Hle2 & HR).
    assert (state_le st (k a st1).2) by (by eapply state_le_trans).
    auto.
  - auto.
Qed.

Lemma outcome_weaken {A} (m : M A) st (Q Q' : result A → State → Prop) :
  outcome m st Q →
  (∀ r st', wf st' → state_le st st' → Q r st' → Q' r st') →
  outcome m st Q'.
Proof. intros (? & ? & ?) HQ. split; [done|]. split; [done|]. by apply HQ. Qed.

Lemma unchanged_but_refl self st : unchanged_but self st st.
Proof. by intros l _ _. Qed.

Lemma unchanged_but_trans self st1 st2 st3 :
  (next_loc st1 ≤ next_loc st2)%positive →
  unchanged_but self st1 st2 → unchanged_but self st2 st3 →
  unchanged_but self st1 st3.
Proof.
  intros Hn H12 H23 l Hne Hl. rewrite H23, H12; try done. lia.
Qed.

(** *** Calls *)

Lemma static_call_outcome st self args :
  wf st →
  outcome (_CStaticMethodProxy.__call__ self args) st (λ r st',
    next_loc st' = next_loc st ∧ unchanged_but self st st' ∧
    _c_funcptrs st' = _c_funcptrs st ∧
    ∀ n s f a, heap st !! self = Some (OCStaticMethodProxy n s f) →
      resolve_symbol n = Some a →
      r = Ok (foreign_result (trace st) (CFunc s a) args)
      ∧ trace st' = trace st ++ [ECall (CFunc s a) args]).
Proof.
  intros Hwf. unfold outcome, _CStaticMethodProxy.__call__. munfold.
  destruct (heap st !! self) as [o|] eqn:Hs; simpl.
  2:{ split; [done|]. split; [apply state_le_refl|]. by split_and!. }
  destruct o as [n s [f|]| | | | |]; simpl;
    try (split; [done|]; split; [apply state_le_refl|]; by split_and!).
  - split; [by apply wf_set_trace|]. split.
    { apply le_same_heap; try done. by apply prefix_app_r. }
    split_and!; try done.
    intros n' s' f' a [= <- <- <-] Hr.
    destruct (wf_static _ Hwf _ _ Hs) as (a' & Ha' & ->).
    split; congruence.
  - destruct (resolve_symbol n) as [a|] eqn:Hr; simpl.
    + assert (wf (set_resolutions (λ r, r ++ [n]) st)) as Hwf1
        by (by apply wf_set_resolutions).
      assert (wf (set_heap <[self:=OCStaticMethodProxy n s (Some (CFunc s a))]>
                 (set_resolutions (λ r, r ++ [n]) st))) as Hwf2.
      { eapply wf_store; try done; simpl; eauto. }
      split; [by apply wf_set_trace|]. split.
      { apply (state_le_trans _ (set_resolutions (λ r, r ++ [n]) st)).
        { apply le_same_heap; try done. by apply prefix_app_r. }
        apply (state_le_trans _ (set_heap
                 <[self:=OCStaticMethodProxy n s (Some (CFunc s a))]>
                 (set_resolutions (λ r, r ++ [n]) st))).
        { apply (le_store _ _ (OCStaticMethodProxy n s None)); [done|].
          simpl. eauto. }
        apply le_same_heap; try done. by apply prefix_app_r. }
      split_and!; try done.
      * intros l Hne _. simpl. by rewrite lookup_insert_ne.
      * intros n' s' f' a' [= <- <- <-] Hr'. split; congruence.
    + split; [by apply wf_set_resolutions|]. split.
      { apply le_same_heap; try done. by apply prefix_app_r. }
      split_and!; try done.
      intros n' s' f' a' [= <- <- <-] Hr'. congruence.
Qed.


Lemma le_set_trace_app st xs : state_le st (set_trace (λ t, t ++ xs) st).
Proof. apply le_same_heap; try done. by apply prefix_app_r. Qed.

Lemma le_set_resolutions_app st xs :
  state_le st (set_resolutions (λ r, r ++ xs) st).
Proof. apply le_same_heap; try done. by apply prefix_app_r. Qed.

Lemma le_set_c_funcptrs st n a :
  _c_funcptrs st !! n = None → state_le st (set_c_funcptrs <[n := a]> st).
Proof. intros Hn. apply le_same_heap; try done. by apply insert_subseteq. Qed.

Lemma le_set_q_methods st m v :
  _q_methods st !! m = None → state_le st (set_q_methods <[m := v]> st).
Proof. intros Hn. apply le_same_heap; try done. by apply insert_subseteq. Qed.

Lemma le_set_q_properties st f : state_le st (set_q_properties f st).
Proof. by apply le_same_heap. Qed.

Lemma le_set_bn_new_ref_fns st n l :
  _bn_new_ref_fns st !! n = None → state_le st (set_bn_new_ref_fns <[n := l]> st).
Proof. intros Hn. apply le_same_heap; try done. by apply insert_subseteq. Qed.


Lemma le_set_init_callbacks st cls f : state_le st (set_init_callbacks cls f st).
Proof. by apply le_same_heap. Qed.

Lemma c_method_call_run st self f this args :
  heap st !! self = Some (OCMethodProxy f this) →
  _CMethodProxy.__call__ self args st =
    (Ok (foreign_result (trace st) f (this :: args)),
     set_trace (λ t, t ++ [ECall f (this :: args)]) st).
Proof.
  intros Hs. unfold _CMethodProxy.__call__. munfold. by rewrite Hs.
Qed.

Lemma q_method_call_run st self m q name args :
  heap st !! self = Some (OQMethodProxy m q name) →
  _QMethodProxy.__call__ self args st =
    (Ok VNone, set_trace (λ t, t ++ [EInvokeMethod m q name args]) st).
Proof.
  intros Hs. unfold _QMethodProxy.__call__. munfold. by rewrite Hs.
Qed.

Lemma py_call_static st l n s f args :
  heap st !! l = Some (OCStaticMethodProxy n s f) →
  py_call (VRef l) args st = _CStaticMethodProxy.__call__ l args st.
Proof. intros Hl. unfold py_call. munfold. by rewrite Hl. Qed.

Lemma py_call_c_method st l f this args :
  heap st !! l = Some (OCMethodProxy f this) →
  py_call (VRef l) args st =
    (Ok (foreign_result (trace st) f (this :: args)),
     set_trace (λ t, t ++ [ECall f (this :: args)]) st).
Proof.
  intros Hl. rewrite <- (c_method_call_run st l) by done.
  unfold py_call. munfold. by rewrite Hl.
Qed.

Lemma py_call_q_method st l m q name args :
  heap st !! l = Some (OQMethodProxy m q name) →
  py_call (VRef l) args st =
    (Ok VNone, set_trace (λ t, t ++ [EInvokeMethod m q name args]) st).
Proof.
  intros Hl. rewrite <- (q_method_call_run st l) by done.
  unfold py_call. munfold. by rewrite Hl.
Qed.

(** Whatever is called, and whether or not it raises. *)
Lemma py_call_outcome st callee args :
  wf st →
  outcome (py_call callee args) st (λ r st',
    next_loc st' = next_loc st ∧ _c_funcptrs st' = _c_funcptrs st ∧
    ∀ l, callee ≠ VRef l → heap st' !! l = heap st !! l).
Proof.
  intros Hwf.
  assert (Hskip : ∀ e, outcome (raise (A:=value) e) st (λ r st',
    next_loc st' = next_loc st ∧ _c_funcptrs st' = _c_funcptrs st ∧
    ∀ l, callee ≠ VRef l → heap st' !! l = heap st !! l)).
  { intros e. by apply outcome_raise. }
  destruct callee as [| | | | | |l| | | |id]; try apply Hskip.
  - destruct (heap st !! l) as [o|] eqn:Hl.
    2:{ unfold outcome, py_call. munfold. rewrite Hl. apply (Hskip (SystemError "")). }
    destruct o as [n s f|f this|m q name|p|b c|cls q].
    + unfold outcome. rewrite (py_call_static st l n s f) by done.
      destruct (static_call_outcome st l args Hwf) as (? & ? & Hn & Hu & Hc & _).
      split_and!; try done. intros l' Hne.
      destruct (decide (l' < next_loc st)%positive) as [Hlt|Hge].
      * apply Hu; [congruence | done].
      * rewrite (wf_fresh _ Hwf) by lia. apply wf_fresh; [done|]. lia.
    + unfold outcome. rewrite (py_call_c_method st l f this) by done. simpl.
      split; [by apply wf_set_trace|]. split; [apply le_set_trace_app | done].
    + unfold outcome. rewrite (py_call_q_method st l m q name) by done. simpl.
      split; [by apply wf_set_trace|]. split; [apply le_set_trace_app | done].
    + unfold outcome, py_call. munfold. rewrite Hl. apply (Hskip (SystemError "")).
    + unfold outcome, py_call. munfold. rewrite Hl. apply (Hskip (SystemError "")).
    + unfold outcome, py_call. munfold. rewrite Hl. apply (Hskip (SystemError "")).
  - unfold outcome, py_call. munfold. simpl.
    destruct (host_call_result (trace st) (VHost id) args); simpl;
      (split; [by apply wf_set_trace|]; split; [apply le_set_trace_app | done]).
Qed.


(** *** Attribute lookup *)

Lemma binding_of_proxy st p p' attr v :
  c_ptr p = c_ptr p' → c_api p = c_api p' → qt p = qt p' →
  binding_of st p attr v → binding_of st p' attr v.
Proof.
  intros Hp Ha Hq. unfold binding_of. by rewrite Hp, Ha, Hq.
Qed.

(** A fresh method proxy is allocated and stored on [self] under [attr]. *)
Lemma bind_attr_wf_le st self p attr o :
  wf st → heap st !! self = Some (OObjectProxy p) →
  inst_dict p !! attr = None → new_ok o →
  let st1 := set_next_loc (Pos.succ (next_loc st))
               (set_heap <[next_loc st := o]> st) in
  let st2 := set_heap
               <[self := OObjectProxy
                           (Proxy (c_ptr p) (c_api p) (qt p)
                              (<[attr := VRef (next_loc st)]> (inst_dict p)))]> st1 in
  binding_of st1 p attr (VRef (next_loc st)) →
  wf st2 ∧ state_le st st2.
Proof.
  intros Hwf Hs Hd Hnew st1 st2 Hb.
  assert (Hne : self ≠ next_loc st) by (by eapply wf_self_not_fresh).
  assert (Hwf1 : wf st1) by (by apply wf_alloc).
  assert (Hle1 : state_le st st1) by (by apply le_alloc).
  assert (Hs1 : heap st1 !! self = Some (OObjectProxy p)).
  { simpl. by rewrite lookup_insert_ne. }
  assert (Hle : obj_le (OObjectProxy p)
            (OObjectProxy (Proxy (c_ptr p) (c_api p) (qt p)
                             (<[attr := VRef (next_loc st)]> (inst_dict p))))).
  { simpl. split_and!; try done. by apply insert_subseteq. }
  split.
  - eapply (wf_store st1); try done.
    intros p' [= <-] attr' v. simpl.
    destruct (decide (attr = attr')) as [<- | Hna].
    + rewrite lookup_insert_eq. intros [= <-].
      by apply (binding_of_proxy st1 p).
    + rewrite lookup_insert_ne by done. intros Hd'.
      apply (binding_of_proxy st1 p); [done..|].
      by apply (wf_dict _ Hwf1 self).
  - apply (state_le_trans _ st1); [done|]. by eapply le_store.
Qed.

Lemma c_getattr_run st self p attr n s a :
  wf st → heap st !! self = Some (OObjectProxy p) →
  c_api p !! attr = Some (n, s) → resolve_symbol n = Some a →
  ∃ st1, (st1 = st ∧ is_Some (_c_funcptrs st !! n)
          ∨ st1 = set_c_funcptrs <[n := a]> (set_resolutions (λ r, r ++ [n]) st)
            ∧ _c_funcptrs st !! n = None) ∧
  _CObjectProxy.__getattr__ self attr st =
    (Ok (VRef (next_loc st)),
     set_heap
       <[self := OObjectProxy
                   (Proxy (c_ptr p) (c_api p) (qt p)
                      (<[attr := VRef (next_loc st)]> (inst_dict p)))]>
       (set_next_loc (Pos.succ (next_loc st))
          (set_heap <[next_loc st := OCMethodProxy (CFunc s a) (c_ptr p)]> st1))).
Proof.
  intros Hwf Hs Ha Hr.
  assert (Hne : self ≠ next_loc st) by (by eapply wf_self_not_fresh).
  unfold _CObjectProxy.__getattr__, _CMethodProxy.__init__. munfold.
  rewrite Hs. simpl. rewrite Ha.
  destruct (_c_funcptrs st !! n) as [a0|] eqn:Hc; simpl.
  - exists st. split; [left; eauto|].
    rewrite Hc. simpl. rewrite lookup_insert_ne by done. rewrite Hs. simpl.
    rewrite (wf_funcptrs _ Hwf _ _ Hc) in Hr. by injection Hr as ->.
  - eexists. split; [right; eauto|].
    rewrite Hr. simpl. rewrite lookup_insert_eq. simpl.
    rewrite lookup_insert_ne by done. rewrite Hs. done.
Qed.

Lemma c_getattr_outcome st self p attr :
  wf st → heap st !! self = Some (OObjectProxy p) →
  inst_dict p !! attr = None →
  (∀ m q, qt p = Some (m, q) → attr ∉ meta_methods m) →
  outcome (_CObjectProxy.__getattr__ self attr) st (λ r st',
    trace st' = trace st ∧ unchanged_but self st st').
Proof.
  intros Hwf Hs Hd Hq.
  destruct (c_api p !! attr) as [[n s]|] eqn:Ha.
  2:{ unfold outcome. rewrite (c_getattr_undefined_method st self p) by done.
      simpl. split; [done|]. split; [apply state_le_refl|]. split; [done|].
      apply unchanged_but_refl. }
  destruct (resolve_symbol n) as [a|] eqn:Hr.
  - destruct (c_getattr_run st self p attr n s a) as (st1 & Hst1 & Hrun); try done.
    unfold outcome. rewrite Hrun. simpl.
    assert (wf st1 ∧ state_le st st1 ∧ heap st1 = heap st
            ∧ next_loc st1 = next_loc st ∧ trace st1 = trace st)
      as (Hwf1 & Hle1 & Hh1 & Hn1 & Ht1).
    { destruct Hst1 as [[-> _]|[-> Hnone]].
      - split_and!; try done. apply state_le_refl.
      - split_and!; try done.
        + by apply wf_set_c_funcptrs, wf_set_resolutions.
        + apply (state_le_trans _ (set_resolutions (λ r, r ++ [n]) st)).
          * apply le_set_resolutions_app.
          * by apply le_set_c_funcptrs. }
    rewrite <- Hn1.
    destruct (bind_attr_wf_le st1 self p attr
                (OCMethodProxy (CFunc s a) (c_ptr p))) as [Hwf2 Hle2];
      try done.
    { by rewrite Hh1. }
    { exists (next_loc st1). split; [done|]. right. exists n, s, a.
      split_and!; try done. simpl. by rewrite lookup_insert_eq. }
    split; [done|]. split; [by eapply state_le_trans|]. split; [done|].
    intros l Hne Hlt. simpl. rewrite lookup_insert_ne by done.
    rewrite lookup_insert_ne by lia. by rewrite Hh1.
  - destruct (_c_funcptrs st !! n) as [a0|] eqn:Hc.
    { rewrite (wf_funcptrs _ Hwf _ _ Hc) in Hr. done. }
    unfold outcome. rewrite (c_getattr_undefined_symbol st self p attr n s) by done.
    simpl. split; [by apply wf_set_resolutions|].
    split; [apply le_set_resolutions_app|]. split; [done|]. by intros l _ _.
Qed.


Lemma q_getattr_method_run st self p m q names attr :
  wf st → heap st !! self = Some (OObjectProxy p) → qt p = Some (m, q) →
  _q_methods st !! m = Some names → attr ∈ names →
  _QObjectProxy.__getattr__ self attr st =
    (Ok (VRef (next_loc st)),
     set_heap
       <[self := OObjectProxy
                   (Proxy (c_ptr p) (c_api p) (qt p)
                      (<[attr := VRef (next_loc st)]> (inst_dict p)))]>
       (set_next_loc (Pos.succ (next_loc st))
          (set_heap <[next_loc st := OQMethodProxy m q attr]> st))).
Proof.
  intros Hwf Hs Hq Hm Hin.
  assert (Hne : self ≠ next_loc st) by (by eapply wf_self_not_fresh).
  unfold _QObjectProxy.__getattr__, _QMethodProxy.__init__. munfold.
  rewrite Hs. simpl. rewrite Hq, Hm. rewrite decide_True by done. simpl.
  rewrite lookup_insert_ne by done. rewrite Hs. by rewrite ?Hq.
Qed.

Lemma q_getattr_c_api st self p m q names attr :
  heap st !! self = Some (OObjectProxy p) → qt p = Some (m, q) →
  _q_methods st !! m = Some names → attr ∉ names →
  is_Some (c_api p !! attr) →
  _QObjectProxy.__getattr__ self attr st = _CObjectProxy.__getattr__ self attr st.
Proof.
  intros Hs Hq Hm Hin Ha.
  unfold _QObjectProxy.__getattr__. munfold.
  rewrite Hs. simpl. rewrite Hq, Hm.
  rewrite decide_False by done. by rewrite decide_True by done.
Qed.

Lemma q_getattr_qt st self p m q names attr :
  heap st !! self = Some (OObjectProxy p) → qt p = Some (m, q) →
  _q_methods st !! m = Some names → attr ∉ names →
  c_api p !! attr = None →
  _QObjectProxy.__getattr__ self attr st =
    (match qt_getattr q attr with
     | Some id => Ok (VHost id)
     | None => Raise (AttributeError attr)
     end, st).
Proof.
  intros Hs Hq Hm Hin Ha.
  unfold _QObjectProxy.__getattr__. munfold.
  rewrite Hs. simpl. rewrite Hq, Hm.
  rewrite decide_False by done. rewrite decide_False.
  - by destruct (qt_getattr q attr).
  - rewrite Ha. by intros [? ?].
Qed.

Lemma q_getattr_outcome st self p attr :
  wf st → heap st !! self = Some (OObjectProxy p) →
  inst_dict p !! attr = None →
  outcome (_QObjectProxy.__getattr__ self attr) st (λ r st',
    trace st' = trace st ∧ unchanged_but self st st').
Proof.
  intros Hwf Hs Hd.
  assert (Hskip : ∀ r, outcome (λ st, (r, st)) st (λ (r : result value) st',
    trace st' = trace st ∧ unchanged_but self st st')).
  { intros r. split; [done|]. split; [apply state_le_refl|].
    split; [done | apply unchanged_but_refl]. }
  destruct (qt p) as [[m q]|] eqn:Hq.
  2:{ unfold outcome, _QObjectProxy.__getattr__. munfold. rewrite Hs. simpl.
      rewrite Hq. apply (Hskip (Raise (SystemError ""))). }
  destruct (_q_methods st !! m) as [names|] eqn:Hm.
  2:{ unfold outcome, _QObjectProxy.__getattr__. munfold. rewrite Hs. simpl.
      rewrite Hq, Hm. apply (Hskip (Raise (KeyError ""))). }
  destruct (decide (attr ∈ names)) as [Hin|Hin].
  - unfold outcome. rewrite (q_getattr_method_run st self p m q names) by done.
    destruct (bind_attr_wf_le st self p attr (OQMethodProxy m q attr))
      as [Hwf2 Hle2]; try done.
    { exists (next_loc st). split; [done|]. left. exists m, q.
      split_and!; try done.
      - by rewrite <- (wf_q_methods _ Hwf _ _ Hm).
      - simpl. by rewrite lookup_insert_eq. }
    split; [done|]. split; [done|]. split; [done|].
    intros l Hne Hlt. simpl. rewrite lookup_insert_ne by done.
    by rewrite lookup_insert_ne by lia.
  - destruct (c_api p !! attr) as [ns|] eqn:Ha.
    + unfold outcome. rewrite (q_getattr_c_api st self p m q names) by done.
      apply (c_getattr_outcome st self p); try done.
      intros m' q' Hq'. rewrite Hq in Hq'. injection Hq' as <- <-.
      by rewrite <- (wf_q_methods _ Hwf _ _ Hm).
    + unfold outcome. rewrite (q_getattr_qt st self p m q names) by done.
      apply Hskip.
Qed.

Lemma py_getattr_dict st self p attr v :
  heap st !! self = Some (OObjectProxy p) → inst_dict p !! attr = Some v →
  py_getattr self attr st = (Ok v, st).
Proof.
  intros Hs Hd. unfold py_getattr. munfold. rewrite Hs. simpl. by rewrite Hd.
Qed.

Lemma py_getattr_dispatch st self p attr :
  heap st !! self = Some (OObjectProxy p) → inst_dict p !! attr = None →
  attr ∉ members p →
  py_getattr self attr st =
    match qt p with
    | Some _ => _QObjectProxy.__getattr__ self attr st
    | None => _CObjectProxy.__getattr__ self attr st
    end.
Proof.
  intros Hs Hd Hm. unfold py_getattr. munfold. rewrite Hs. simpl. rewrite Hd.
  rewrite decide_False by done. by destruct (qt p).
Qed.

Lemma py_getattr_outcome st self attr :
  wf st →
  outcome (py_getattr self attr) st (λ r st',
    trace st' = trace st ∧ unchanged_but self st st').
Proof.
  intros Hwf.
  assert (Hskip : ∀ r, outcome (λ st, (r, st)) st (λ (r : result value) st',
    trace st' = trace st ∧ unchanged_but self st st')).
  { intros r. split; [done|]. split; [apply state_le_refl|].
    split; [done | apply unchanged_but_refl]. }
  destruct (heap st !! self) as [o|] eqn:Hs.
  2:{ unfold outcome, py_getattr. munfold. rewrite Hs. apply (Hskip (Raise (SystemError ""))). }
  destruct o as [| | |p| |];
    try (unfold outcome, py_getattr; munfold; rewrite Hs;
         apply (Hskip (Raise (SystemError "")))).
  destruct (inst_dict p !! attr) as [v|] eqn:Hd.
  { unfold outcome. rewrite (py_getattr_dict st self p attr v) by done. apply Hskip. }
  destruct (decide (attr ∈ members p)) as [Hm|Hm].
  { unfold outcome, py_getattr. munfold. rewrite Hs. simpl. rewrite Hd.
    rewrite decide_True by done. apply Hskip. }
  unfold outcome. rewrite (py_getattr_dispatch st self p) by done.
  destruct (qt p) as [[m q]|] eqn:Hq.
  - by apply (q_getattr_outcome st self p).
  - apply (c_getattr_outcome st self p); try done. intros m q. by rewrite Hq.
Qed.

Lemma call_method_outcome st self attr args :
  wf st → outcome (call_method self attr args) st (λ _ _, True).
Proof.
  intros Hwf. unfold call_method.
  eapply outcome_bind; [by apply py_getattr_outcome| |done].
  intros v st1 Hwf1 Hle1 _.
  eapply outcome_weaken; [by apply py_call_outcome|]. done.
Qed.


Lemma py_getattr_cases st self attr :
  wf st →
  getattr_cases st self attr
    (py_getattr self attr st).1 (py_getattr self attr st).2.
Proof.
  intros Hwf.
  assert (Hskip : ∀ e, getattr_cases st self attr (Raise e) st).
  { intros e. left. split; [done|]. by intros v. }
  assert (Hc : ∀ p, heap st !! self = Some (OObjectProxy p) →
            inst_dict p !! attr = None →
            getattr_cases st self attr
              (_CObjectProxy.__getattr__ self attr st).1
              (_CObjectProxy.__getattr__ self attr st).2).
  { intros p Hs Hd. destruct (c_api p !! attr) as [[n s]|] eqn:Ha.
    2:{ rewrite (c_getattr_undefined_method st self p) by done. apply Hskip. }
    destruct (resolve_symbol n) as [a|] eqn:Hr.
    - destruct (c_getattr_run st self p attr n s a) as (st1 & Hst1 & Hrun);
        try done.
      rewrite Hrun. right. left.
      exists p, (OCMethodProxy (CFunc s a) (c_ptr p)), st1.
      split_and!; try done. right. by exists n, s, a.
    - destruct (_c_funcptrs st !! n) as [a0|] eqn:Hcache.
      { rewrite (wf_funcptrs _ Hwf _ _ Hcache) in Hr. done. }
      rewrite (c_getattr_undefined_symbol st self p attr n s) by done.
      right. right. eexists p, n, s, _. by split_and!. }
  destruct (heap st !! self) as [o|] eqn:Hs.
  2:{ unfold py_getattr. munfold. rewrite Hs. apply Hskip. }
  destruct o as [| | |p| |];
    try (unfold py_getattr; munfold; rewrite Hs; apply Hskip).
  destruct (inst_dict p !! attr) as [v|] eqn:Hd.
  { rewrite (py_getattr_dict st self p attr v) by done.
    left. split; [done|]. intros v' [= <-]. left. by exists p. }
  destruct (decide (attr ∈ members p)) as [Hm|Hm].
  { unfold py_getattr. munfold. rewrite Hs. simpl. rewrite Hd.
    rewrite decide_True by done.
    left. split; [done|]. intros v' [= <-]. by right; left. }
  rewrite (py_getattr_dispatch st self p) by done.
  destruct (qt p) as [[m q]|] eqn:Hq; [|by apply (Hc p)].
  destruct (_q_methods st !! m) as [names|] eqn:Hmn.
  2:{ unfold _QObjectProxy.__getattr__. munfold. rewrite Hs. simpl.
      rewrite Hq, Hmn. apply Hskip. }
  destruct (decide (attr ∈ names)) as [Hin|Hin].
  - rewrite (q_getattr_method_run st self p m q names) by done.
    right. left.
    exists p, (OQMethodProxy m q attr), st. split_and!; try done.
    left. by exists m, q.
  - destruct (c_api p !! attr) as [ns|] eqn:Ha.
    + rewrite (q_getattr_c_api st self p m q names) by done. by apply (Hc p).
    + rewrite (q_getattr_qt st self p m q names) by done.
      left. split; [done|].
      intros v. simpl. destruct (qt_getattr q attr) as [id|]; [|done].
      intros [= <-]. right; right. by exists id.
Qed.


(** *** Construction of proxies *)

Lemma c_init_outcome st c_ptr api :
  wf st →
  outcome (_CObjectProxy.__init__ c_ptr api) st (λ r st',
    r = Ok (next_loc st) ∧ trace st' = trace st
    ∧ resolutions st' = resolutions st ∧ _c_funcptrs st' = _c_funcptrs st).
Proof.
  intros Hwf. unfold outcome, _CObjectProxy.__init__, alloc. simpl.
  split; [by apply wf_alloc|]. split; [by apply le_alloc | done].
Qed.

Lemma q_init_outcome st m q api :
  wf st →
  outcome (_QObjectProxy.__init__ m q api) st (λ r st',
    trace st' = trace st ∧ resolutions st' = resolutions st
    ∧ _c_funcptrs st' = _c_funcptrs st
    ∧ (m = q_metaObject q → is_Some (_q_methods st' !! m))).
Proof.
  intros Hwf. unfold outcome, _QObjectProxy.__init__. munfold.
  set (st1 := set_next_loc (Pos.succ (next_loc st))
                (set_heap <[next_loc st := OObjectProxy
                   (Proxy (VInt q) api (Some (m, q)) ∅)]> st)).
  assert (Hwf1 : wf st1) by (by apply wf_alloc).
  assert (Hle1 : state_le st st1) by (by apply le_alloc).
  destruct (decide (m ≠ q_metaObject q)) as [Hne|Heq]; simpl.
  { split; [done|]. split; [done|]. by split_and!. }
  set (st2 := if decide (is_Some (_q_methods st !! m)) then st1
              else set_q_methods <[m := meta_methods m]> st1).
  assert (wf st2 ∧ state_le st1 st2 ∧ is_Some (_q_methods st2 !! m)
          ∧ trace st2 = trace st ∧ resolutions st2 = resolutions st
          ∧ _c_funcptrs st2 = _c_funcptrs st ∧ _q_properties st2 = _q_properties st)
    as (Hwf2 & Hle2 & Hm2 & ? & ? & ? & Hp2).
  { unfold st2. case_decide as Hm.
    - split_and!; try done. apply state_le_refl.
    - assert (_q_methods st1 !! m = None) as Hnone.
      { simpl. by apply eq_None_not_Some. }
      split_and!; try done.
      + by apply wf_set_q_methods.
      + by apply le_set_q_methods.
      + simpl. rewrite lookup_insert_eq. by eexists. }
  assert (∀ A (f g : M A) (P : Prop) (d : Decision P),
            (if d then f else g) st1 = (if d then f st1 else g st1)) as Hif.
  { intros. by destruct d. }
  rewrite Hif. simpl.
  replace (_ : result () * State) with (Ok tt, st2); last first.
  { unfold st2. by case_decide. }
  simpl. rewrite Hp2.
  case_decide; simpl.
  - split; [done|]. split; [by eapply state_le_trans|]. by split_and!.
  - split; [by apply wf_set_q_properties|]. split.
    { eapply state_le_trans; [done|]. eapply state_le_trans; [done|].
      apply le_set_q_properties. }
    by split_and!.
Qed.


(** *** Client programs *)

Lemma outcome_discard {A} (m : M A) st (Q : result A → State → Prop) :
  outcome m st Q → outcome (m ;; mret tt) st (λ _ _, True).
Proof.
  intros (Hwf & Hle & _). unfold outcome. rewrite bind_unfold.
  destruct (m st) as [[a|e] st1]; simpl in *; done.
Qed.

Lemma run_op_outcome op st : wf st → outcome (run_op op) st (λ _ _, True).
Proof.
  intros Hwf. destruct op; simpl.
  - eapply outcome_discard. by apply c_init_outcome.
  - eapply outcome_discard. by apply q_init_outcome.
  - eapply outcome_discard. by apply py_getattr_outcome.
  - eapply outcome_discard. by apply call_method_outcome.
Qed.

Lemma run_wf_le ops : ∀ st, wf st → wf (run ops st) ∧ state_le st (run ops st).
Proof.
  induction ops as [|op ops IH]; intros st Hwf; simpl.
  - split; [done | apply state_le_refl].
  - destruct (run_op_outcome op st Hwf) as (Hwf1 & Hle1 & _).
    destruct (IH _ Hwf1) as [Hwf2 Hle2].
    split; [done | by eapply state_le_trans].
Qed.

Lemma initial_state_tables :
  next_loc initial_state = 5%positive ∧ _c_funcptrs initial_state = ∅
  ∧ _q_methods initial_state = ∅ ∧ _bn_new_ref_fns initial_state = ∅
  ∧ resolutions initial_state = [] ∧ trace initial_state = [].
Proof. done. Qed.

Lemma initial_state_heap l o :
  heap initial_state !! l = Some o →
  ∃ n s, o = OCStaticMethodProxy n s None ∧ (l < 5)%positive.
Proof.
  unfold initial_state, module_init, _CStaticMethodProxy.__init__.
  munfold. simpl. intros Hl.
  repeat (apply lookup_insert_Some in Hl as [[<- <-]|[? Hl]];
    [eexists _, _; split; [done | lia]|]).
  by rewrite lookup_empty in Hl.
Qed.

Lemma wf_initial_state : wf initial_state.
Proof.
  destruct initial_state_tables as (Hn & Hc & Hq & Hb & _).
  constructor; rewrite ?Hn, ?Hc, ?Hq, ?Hb.
  - intros l Hl. destruct (heap initial_state !! l) as [o|] eqn:Ho; [|done].
    destruct (initial_state_heap _ _ Ho) as (n & s & _ & Hlt). lia.
  - intros l o Ho. destruct (initial_state_heap _ _ Ho) as (n & s & -> & _). done.
  - intros n a. by rewrite lookup_empty.
  - by eexists.
  - by eexists.
  - by eexists.
  - intros n l. by rewrite lookup_empty.
  - intros m names. by rewrite lookup_empty.
  - intros self p attr v Ho. by destruct (initial_state_heap _ _ Ho) as (n & s & ? & _).
  - intros self cls q Ho. by destruct (initial_state_heap _ _ Ho) as (n & s & ? & _).
Qed.




(** What [self.attr] gives is, when it is an object of the module, a method
    proxy; and it is then stored on the instance. *)
Lemma py_getattr_ref st self attr l :
  wf st → (py_getattr self attr st).1 = Ok (VRef l) →
  (∃ o, heap (py_getattr self attr st).2 !! l = Some o ∧ is_method_proxy o)
  ∧ ∃ p, heap (py_getattr self attr st).2 !! self = Some (OObjectProxy p)
         ∧ inst_dict p !! attr = Some (VRef l).
Proof.
  intros Hwf Hr. destruct (py_getattr_cases st self attr Hwf)
    as [[-> Hv]|[(p & o & st1 & Hs & _ & Ho & Hr' & ->)|(p & n & s & e & _ & _ & _ & _ & Hr' & _)]].
  - destruct (Hv _ Hr) as [(p & Hs & Hd)|[?|[? ?]]]; try done.
    split; [|by exists p].
    destruct (wf_dict _ Hwf _ _ _ _ Hs Hd) as (l' & [= <-] & Hb).
    destruct Hb as [(m & q & _ & _ & Hl)|(n & s & a & _ & _ & _ & Hl)];
      by eexists.
  - rewrite Hr' in Hr. injection Hr as <-.
    assert (self ≠ next_loc st) by (by eapply wf_self_not_fresh).
    simpl. split.
    + exists o. rewrite lookup_insert_ne by done. rewrite lookup_insert_eq.
      split; [done|].
      by destruct Ho as [(m & q & _ & -> & _)|(n & s & a & -> & _)].
    + eexists. rewrite lookup_insert_eq. split; [done|]. simpl.
      by rewrite lookup_insert_eq.
  - by rewrite Hr' in Hr.
Qed.







(** ** The static meta-object of a class *)

(** C6: the static meta-object of class [S] is the wrapper of the address
    that the symbol "_ZN" + decimal length of [S] + [S] +
    "16staticMetaObjectE" resolves to; the length is written as the decimal
    numeral that denotes it. *)
Theorem q_meta_object_for_class_symbol (S : string) :
  _q_meta_object_for_class S =
    sip_wrapinstance (resolve_symbol (static_meta_object_symbol S)) QMetaObject
  ∧ PyStr.decimal_value (PyStr.str_of_Z (Z.of_nat (String.length S)))
    = Some (N.of_nat (String.length S)).
Proof.
  split.
  - reflexivity.
  - replace (PyStr.str_of_Z (Z.of_nat (String.length S)))
      with (PyStr.str_of_N (N.of_nat (String.length S))).
    + apply decimal_value_str_of_N.
    + unfold PyStr.str_of_Z.
      destruct (Z.of_nat (String.length S)) eqn:E; try lia; f_equal; lia.
Qed.


Example static_meta_object_symbol_MainWindow :
  static_meta_object_symbol "MainWindow" = "_ZN10MainWindow16staticMetaObjectE".
Proof. reflexivity. Qed.

Example static_meta_object_symbol_CrossReferenceItemDelegate :
  static_meta_object_symbol "CrossReferenceItemDelegate"
  = "_ZN26CrossReferenceItemDelegate16staticMetaObjectE".
Proof. reflexivity. Qed.

(** ** Attribute lookup on a Qt object proxy *)

(** C1: [_QObjectProxy.__getattr__] tries, in this order, the Qt
    meta-object method names (giving a [_QMethodProxy]), the C API table
    (giving the C method binding of [_CObjectProxy.__getattr__], a
    [_CMethodProxy] on the resolved address), and then the wrapped Qt object;
    what the first two give can be called like any method. *)
Theorem q_getattr_resolution_order (st : State) (self : loc) (p : proxy)
    (m q : Z) (names : list string) (attr : string)
    (Hwf : wf st)
    (Hself : heap st !! self = Some (OObjectProxy p))
    (Hqt : qt p = Some (m, q))
    (Hnames : _q_methods st !! m = Some names) :
  let r := _QObjectProxy.__getattr__ self attr st in
  (attr ∈ names →
     r.1 = Ok (VRef (next_loc st))
     ∧ heap r.2 !! next_loc st = Some (OQMethodProxy m q attr)
     ∧ ∀ args, py_call (VRef (next_loc st)) args r.2 =
         (Ok VNone, set_trace (λ t, t ++ [EInvokeMethod m q attr args]) r.2))
  ∧ (attr ∉ names → ∀ n s, c_api p !! attr = Some (n, s) →
       r = _CObjectProxy.__getattr__ self attr st
       ∧ ∀ a, resolve_symbol n = Some a →
           r.1 = Ok (VRef (next_loc st))
           ∧ heap r.2 !! next_loc st = Some (OCMethodProxy (CFunc s a) (c_ptr p))
           ∧ ∀ args, py_call (VRef (next_loc st)) args r.2 =
               (Ok (foreign_result (trace st) (CFunc s a) (c_ptr p :: args)),
                set_trace (λ t, t ++ [ECall (CFunc s a) (c_ptr p :: args)]) r.2))
  ∧ (attr ∉ names → c_api p !! attr = None →
       r = (match qt_getattr q attr with
            | Some id => Ok (VHost id)
            | None => Raise (AttributeError attr)
            end, st)).
Proof.
  intros r. unfold r.
  assert (Hne : self ≠ next_loc st) by (by eapply wf_self_not_fresh).
  split_and!.
  - intros Hin. rewrite (q_getattr_method_run st self p m q names) by done.
    cbn [fst snd]. split_and!; [done | |intros args; apply py_call_q_method];
      simpl; rewrite lookup_insert_ne by done; by rewrite lookup_insert_eq.
  - intros Hin n s Ha.
    rewrite (q_getattr_c_api st self p m q names) by done.
    split; [done|]. intros a Hr.
    destruct (c_getattr_run st self p attr n s a) as (st1 & Hst1 & ->); try done.
    assert (trace st1 = trace st) as Ht.
    { by destruct Hst1 as [[-> _]|[-> _]]. }
    cbn [fst snd]. split_and!; [done | |intros args; erewrite py_call_c_method].
    + simpl. rewrite lookup_insert_ne by done. by rewrite lookup_insert_eq.
    + simpl. by rewrite Ht.
    + simpl. rewrite lookup_insert_ne by done. by rewrite lookup_insert_eq.
  - intros Hin Ha. by apply (q_getattr_qt st self p m q names).
Qed.

(** ** Undefined symbols *)

(** C3: when the symbol of a static proxy, or of a method of an object
    proxy, resolves to no address, the call (the lookup) raises
    [AttributeError] naming the symbol, and nothing changed except that the
    symbol table was asked: no binding, no cache entry, no foreign call;
    a name that is not in the C API table raises [AttributeError] too. *)
Theorem undefined_symbol_raises (st : State) :
  (∀ self name sig args,
     heap st !! self = Some (OCStaticMethodProxy name sig None) →
     resolve_symbol name = None →
     _CStaticMethodProxy.__call__ self args st =
       (Raise (AttributeError ("Symbol " +:+ name +:+ " is not defined")),
        set_resolutions (λ r, r ++ [name]) st))
  ∧ (∀ self p attr name sig,
       heap st !! self = Some (OObjectProxy p) →
       c_api p !! attr = Some (name, sig) →
       _c_funcptrs st !! name = None →
       resolve_symbol name = None →
       _CObjectProxy.__getattr__ self attr st =
         (Raise (AttributeError ("Symbol " +:+ name +:+ " is not defined")),
          set_resolutions (λ r, r ++ [name]) st))
  ∧ (∀ self p attr,
       heap st !! self = Some (OObjectProxy p) →
       c_api p !! attr = None →
       _CObjectProxy.__getattr__ self attr st =
         (Raise (AttributeError ("undefined method '" +:+ attr +:+ "'")), st)).
Proof.
  split_and!.
  - intros. by eapply static_call_undefined.
  - intros. by eapply c_getattr_undefined_symbol.
  - intros. by eapply c_getattr_undefined_method.
Qed.


(** ** Construction of wrappers *)

Lemma cls_q_meta_object_spec cls st :
  (cls_q_meta_object cls st).2 = st
  ∧ ∀ m, (cls_q_meta_object cls st).1 = Ok m ↔
         _q_meta_object_for_class (cls_name cls) = Ok (VSip QMetaObject m).
Proof.
  unfold cls_q_meta_object, _q_meta_object_for_class, sip_wrapinstance.
  destruct (resolve_symbol _) as [a|]; simpl; split; try done.
  - intros m. split; by intros [= ->].
Qed.

Lemma wrapper_init_mismatch cls w m st :
  _q_meta_object_for_class (cls_name cls) = Ok (VSip QMetaObject m) →
  m ≠ q_metaObject w →
  (wrapper___init__ cls w st).1 =
    Raise (TypeError ("proxy for '" +:+ meta_className m
                      +:+ "' cannot be initialized from a pointer to '"
                      +:+ meta_className (q_metaObject w) +:+ "'")).
Proof.
  intros Hm Hne. unfold wrapper___init__.
  rewrite bind_unfold. unfold alloc at 1. cbn [fst snd].
  rewrite bind_unfold.
  destruct (cls_q_meta_object_spec cls
              (set_next_loc (Pos.succ (next_loc st))
                 (set_heap <[next_loc st := OWrapper cls None]> st))) as [Hst Hr].
  destruct (cls_q_meta_object cls _) as [r st1]. simpl in Hst, Hr. subst st1.
  apply Hr in Hm. subst r.
  rewrite bind_unfold.
  destruct (q_init_mismatch
              (set_next_loc (Pos.succ (next_loc st))
                 (set_heap <[next_loc st := OWrapper cls None]> st))
              m w (cls_c_api cls) Hne) as (st' & -> & _).
  done.
Qed.

Lemma wrapper_init_ok cls w m st :
  _q_meta_object_for_class (cls_name cls) = Ok (VSip QMetaObject m) →
  m = q_metaObject w →
  ∃ st', wrapper___init__ cls w st = (Ok (next_loc st), st')
    ∧ heap st' =
        <[next_loc st := OWrapper cls (Some (Pos.succ (next_loc st)))]>
          (<[Pos.succ (next_loc st) :=
               OObjectProxy (Proxy (VInt w) (cls_c_api cls) (Some (m, w)) ∅)]>
             (<[next_loc st := OWrapper cls None]> (heap st)))
    ∧ next_loc st' = Pos.succ (Pos.succ (next_loc st))
    ∧ is_Some (_q_methods st' !! m)
    ∧ _c_funcptrs st' = _c_funcptrs st
    ∧ _bn_new_ref_fns st' = _bn_new_ref_fns st
    ∧ trace st' = trace st ∧ resolutions st' = resolutions st.
Proof.
  intros Hm Heq. unfold wrapper___init__.
  rewrite bind_unfold. unfold alloc at 1. cbn [fst snd].
  rewrite bind_unfold.
  set (st1 := set_next_loc (Pos.succ (next_loc st))
                (set_heap <[next_loc st := OWrapper cls None]> st)).
  destruct (cls_q_meta_object_spec cls st1) as [Hst Hr].
  destruct (cls_q_meta_object cls st1) as [r st1']. simpl in Hst, Hr. subst st1'.
  apply Hr in Hm. subst r.
  rewrite bind_unfold.
  destruct (q_init_ok st1 m w (cls_c_api cls) Heq)
    as (st2 & -> & Hh & Hn & Hq & _ & Hc & Hb & Ht & Hres).
  eexists. split; [reflexivity|]. simpl. rewrite Hh, Hn, Hc, Hb, Ht, Hres.
  split_and!; try done.
  rewrite Hq. case_decide; [done|]. simpl. rewrite lookup_insert_eq. by eexists.
Qed.

Lemma outcome_intro {A} (m : M A) st r st' (Q : result A → State → Prop) :
  m st = (r, st') → wf st' → state_le st st' → Q r st' → outcome m st Q.
Proof. intros Hm ???. unfold outcome. by rewrite Hm. Qed.

Lemma wrapper_init_outcome cls w st :
  wf st →
  outcome (wrapper___init__ cls w) st (λ r st',
    trace st' = trace st ∧ resolutions st' = resolutions st
    ∧ _c_funcptrs st' = _c_funcptrs st).
Proof.
  intros Hwf.
  set (st1 := set_next_loc (Pos.succ (next_loc st))
                (set_heap <[next_loc st := OWrapper cls None]> st)).
  assert (Hwf1 : wf st1) by (by apply wf_alloc).
  assert (Hle1 : state_le st st1) by (by apply le_alloc).
  unfold outcome.
  destruct (wrapper___init__ cls w st) as [r st'] eqn:Hrun. cbn [fst snd].
  revert Hrun. unfold wrapper___init__.
  rewrite bind_unfold. unfold alloc at 1. cbn [fst snd]. fold st1.
  rewrite bind_unfold.
  destruct (cls_q_meta_object_spec cls st1) as [Hst Hr].
  destruct (cls_q_meta_object cls st1) as [[m|e] st1'];
    simpl in Hst, Hr; subst st1'.
  2:{ intros [= <- <-]. by split_and!. }
  assert (Hm : _q_meta_object_for_class (cls_name cls) = Ok (VSip QMetaObject m))
    by (by apply Hr).
  rewrite bind_unfold.
  destruct (q_init_outcome st1 m w (cls_c_api cls) Hwf1)
    as (Hwf2 & Hle2 & Ht & Hres & Hc & Hsome).
  destruct (decide (m = q_metaObject w)) as [Heq|Hne].
  - destruct (q_init_ok st1 m w (cls_c_api cls) Heq)
      as (st2 & Hrun & Hh & Hn & _).
    rewrite Hrun in *. cbn [fst snd] in *.
    assert (Hs2 : heap st2 !! next_loc st = Some (OWrapper cls None)).
    { rewrite Hh. simpl. rewrite lookup_insert_ne by lia.
      by rewrite lookup_insert_eq. }
    unfold store, modify. rewrite bind_unfold. cbn [fst snd].
    intros [= <- <-]. split_and!; try done.
    + eapply (wf_store st2); try done; simpl; auto.
      intros cls' q [= <- <-].
      exists (Proxy (VInt w) (cls_c_api cls) (Some (m, w)) ∅), m, w.
      split_and!; try done; [|by apply Hsome].
      rewrite Hh. simpl. by rewrite lookup_insert_eq.
    + eapply state_le_trans; [done|]. eapply state_le_trans; [done|].
      eapply le_store; [done|]. simpl. auto.
  - destruct (q_init_mismatch st1 m w (cls_c_api cls) Hne) as (st2 & Hrun & _).
    rewrite Hrun in *. cbn [fst snd] in *.
    intros [= <- <-]. split_and!; try done.
    by eapply state_le_trans.
Qed.

(** C8: a [_QObjectProxy], and so any wrapper built on one, is only made
    for a Qt object whose meta-object is the one the proxy expects:
    otherwise [TypeError] names both classes and no proxy comes back; when
    they agree the new proxy wraps exactly the given object. *)
Theorem q_init_checks_meta_object (st : State) (m q : Z)
    (api : gmap string (string * csig)) :
  (m ≠ q_metaObject q →
     ((_QObjectProxy.__init__ m q api st).1 =
        Raise (TypeError ("proxy for '" +:+ meta_className m
                          +:+ "' cannot be initialized from a pointer to '"
                          +:+ meta_className (q_metaObject q) +:+ "'"))
      ∧ _q_methods (_QObjectProxy.__init__ m q api st).2 = _q_methods st
      ∧ _q_properties (_QObjectProxy.__init__ m q api st).2 = _q_properties st)
     ∧ ∀ cls, _q_meta_object_for_class (cls_name cls)
               = Ok (VSip QMetaObject m) →
         (wrapper___init__ cls q st).1 =
           Raise (TypeError ("proxy for '" +:+ meta_className m
                             +:+ "' cannot be initialized from a pointer to '"
                             +:+ meta_className (q_metaObject q) +:+ "'")))
  ∧ (m = q_metaObject q →
       ((_QObjectProxy.__init__ m q api st).1 = Ok (next_loc st)
        ∧ heap (_QObjectProxy.__init__ m q api st).2 !! next_loc st =
            Some (OObjectProxy (Proxy (VInt q) api (Some (m, q)) ∅)))
       ∧ ∀ cls, _q_meta_object_for_class (cls_name cls)
                 = Ok (VSip QMetaObject m) →
           (wrapper___init__ cls q st).1 = Ok (next_loc st)
           ∧ heap (wrapper___init__ cls q st).2 !! next_loc st =
               Some (OWrapper cls (Some (Pos.succ (next_loc st))))
           ∧ heap (wrapper___init__ cls q st).2 !! Pos.succ (next_loc st) =
               Some (OObjectProxy
                       (Proxy (VInt q) (cls_c_api cls) (Some (m, q)) ∅))).
Proof.
  split.
  - intros Hne. split.
    + by destruct (q_init_mismatch st m q api Hne) as (st' & -> & ? & ? & _).
    + intros cls Hm. by apply wrapper_init_mismatch.
  - intros Heq. split.
    + destruct (q_init_ok st m q api Heq) as (st' & -> & Hh & _).
      cbn [fst snd]. rewrite Hh. by rewrite lookup_insert_eq.
    + intros cls Hm.
      destruct (wrapper_init_ok cls q m st Hm Heq) as (st' & -> & Hh & _).
      cbn [fst snd]. rewrite Hh, lookup_insert_eq.
      rewrite lookup_insert_ne by lia. by rewrite lookup_insert_eq.
Qed.

(** ** Closing tabs *)

Lemma wrapper_q_run st self cls q :
  heap st !! self = Some (OWrapper cls (Some q)) →
  wrapper_q self st = (Ok q, st).
Proof. intros Hs. unfold wrapper_q. munfold. by rewrite Hs. Qed.

(** C9: [MainWindow.closeAll] and [MainWindow.closeTab] are the same
    operation: both look up and invoke the Qt meta-method 'closeTab' of the
    wrapped window. *)
Theorem closeAll_is_closeTab (self : loc) (st : State) :
  MainWindow.closeAll self st = MainWindow.closeTab self st
  ∧ ∀ q p m w names,
      wf st →
      heap st !! self = Some (OWrapper MainWindow (Some q)) →
      heap st !! q = Some (OObjectProxy p) →
      inst_dict p !! "closeTab" = None →
      qt p = Some (m, w) → _q_methods st !! m = Some names →
      "closeTab" ∈ names →
      (MainWindow.closeAll self st).1 = Ok VNone
      ∧ trace (MainWindow.closeAll self st).2 =
          trace st ++ [EInvokeMethod m w "closeTab" []].
Proof.
  split; [reflexivity|].
  intros q p m w names Hwf Hs Hq Hd Hqt Hm Hin.
  assert (Hne : q ≠ next_loc st) by (by eapply wf_self_not_fresh).
  unfold MainWindow.closeAll, call_method.
  rewrite bind_unfold, (wrapper_q_run st self MainWindow q) by done.
  rewrite !bind_unfold.
  rewrite (py_getattr_dispatch st q p); [|done|done|].
  2:{ unfold members. rewrite Hqt. by apply not_elem_of_q_members. }
  rewrite Hqt.
  rewrite (q_getattr_method_run st q p m w names) by done.
  erewrite py_call_q_method.
  2:{ simpl. rewrite lookup_insert_ne by done. by rewrite lookup_insert_eq. }
  done.
Qed.



(** ** Successful calls *)

Lemma static_call_ok st l n s f a args :
  wf st → heap st !! l = Some (OCStaticMethodProxy n s f) →
  resolve_symbol n = Some a →
  ∃ st', py_call (VRef l) args st =
           (Ok (foreign_result (trace st) (CFunc s a) args), st')
    ∧ wf st' ∧ state_le st st'
    ∧ trace st' = trace st ++ [ECall (CFunc s a) args]
    ∧ next_loc st' = next_loc st ∧ unchanged_but l st st'.
Proof.
  intros Hwf Hl Hr. rewrite (py_call_static st l n s f) by done.
  destruct (static_call_outcome st l args Hwf) as (Hwf' & Hle & Hn & Hu & _ & Hres).
  destruct (Hres n s f a Hl Hr) as [Hv Ht].
  destruct (_CStaticMethodProxy.__call__ l args st) as [r st'].
  cbn [fst snd] in *. subst r. by exists st'.
Qed.

Lemma py_getattr_c_ok st self p attr n s a :
  wf st → heap st !! self = Some (OObjectProxy p) →
  attr ∉ members p → c_api p !! attr = Some (n, s) →
  resolve_symbol n = Some a →
  (∀ m q, qt p = Some (m, q) →
     is_Some (_q_methods st !! m) ∧ attr ∉ meta_methods m) →
  ∃ l st', py_getattr self attr st = (Ok (VRef l), st')
    ∧ wf st' ∧ state_le st st' ∧ trace st' = trace st
    ∧ unchanged_but self st st'
    ∧ heap st' !! l = Some (OCMethodProxy (CFunc s a) (c_ptr p)).
Proof.
  intros Hwf Hs Hmem Ha Hr Hq.
  destruct (py_getattr_outcome st self attr Hwf) as (Hwf' & Hle & Ht & Hu).
  assert (Hne : self ≠ next_loc st) by (by eapply wf_self_not_fresh).
  destruct (inst_dict p !! attr) as [v|] eqn:Hd.
  - rewrite (py_getattr_dict st self p attr v) in * by done.
    destruct (wf_dict _ Hwf _ _ _ _ Hs Hd) as (l & -> & Hb).
    exists l, st. split_and!; try done.
    destruct Hb as [(m & q & Hqt & Hin & _)|(n' & s' & a' & Ha' & Hr' & _ & Hl)].
    + destruct (Hq m q Hqt) as [_ Hnin]. done.
    + rewrite Ha in Ha'. injection Ha' as <- <-.
      rewrite Hr in Hr'. by injection Hr' as <-.
  - assert (Hc : py_getattr self attr st = _CObjectProxy.__getattr__ self attr st).
    { rewrite (py_getattr_dispatch st self p) by done.
      destruct (qt p) as [[m q]|] eqn:Hqt; [|done].
      destruct (Hq m q eq_refl) as [[names Hnames] Hnin].
      apply (q_getattr_c_api st self p m q names); try done.
      by rewrite (wf_q_methods _ Hwf _ _ Hnames). }
    rewrite Hc in *.
    destruct (c_getattr_run st self p attr n s a) as (st1 & Hst1 & Hrun);
      try done.
    rewrite Hrun in *. cbn [fst snd] in *.
    eexists _, _. split; [done|]. split_and!; try done.
    simpl. rewrite lookup_insert_ne by done. by rewrite lookup_insert_eq.
Qed.

Lemma call_method_c_ok st self p attr n s a args :
  wf st → heap st !! self = Some (OObjectProxy p) →
  attr ∉ members p → c_api p !! attr = Some (n, s) →
  resolve_symbol n = Some a →
  (∀ m q, qt p = Some (m, q) →
     is_Some (_q_methods st !! m) ∧ attr ∉ meta_methods m) →
  ∃ st', call_method self attr args st =
           (Ok (foreign_result (trace st) (CFunc s a) (c_ptr p :: args)), st')
    ∧ wf st' ∧ state_le st st'
    ∧ trace st' = trace st ++ [ECall (CFunc s a) (c_ptr p :: args)]
    ∧ unchanged_but self st st'.
Proof.
  intros Hwf Hs Hmem Ha Hr Hq.
  destruct (py_getattr_c_ok st self p attr n s a)
    as (l & st1 & Hrun & Hwf1 & Hle1 & Ht1 & Hu1 & Hl); try done.
  unfold call_method. rewrite bind_unfold, Hrun.
  rewrite (py_call_c_method st1 l (CFunc s a) (c_ptr p)) by done.
  rewrite Ht1. eexists. split; [done|]. split_and!.
  - by apply wf_set_trace.
  - eapply state_le_trans; [done|]. apply le_set_trace_app.
  - simpl. by rewrite Ht1.
  - done.
Qed.


(** ** [_QString] *)

Lemma wf_store_QString st self b c b' c' :
  wf st → heap st !! self = Some (OQString b c) →
  (b = false ∨ b' = b) → (c = None ∨ c' = c) →
  wf (set_heap <[self := OQString b' c']> st).
Proof.
  intros Hwf Hs Hb Hc. by eapply (wf_store st).
Qed.

Lemma QString_api_lookup :
  _QString._c_api !! "QString"
    = Some ("_ZN7QStringC2EPKc", CFUNCTYPE None [c_void_p; c_char_p])
  ∧ _QString._c_api !! "_d_QString"
    = Some ("_ZN7QStringD2Ev", CFUNCTYPE None [c_void_p]).
Proof. done. Qed.

Lemma QString_pointer_run st self b c p :
  heap st !! self = Some (OQString b (Some c)) →
  heap st !! c = Some (OObjectProxy p) →
  _QString._pointer self st = (Ok (c_ptr p), st).
Proof.
  intros Hs Hc. unfold _QString._pointer. munfold. rewrite Hs. simpl.
  by rewrite Hc.
Qed.

Lemma QString_del_owned st self c p a_dtor a_del :
  wf st →
  heap st !! self = Some (OQString true (Some c)) →
  heap st !! c = Some (OObjectProxy p) →
  c_api p = _QString._c_api → qt p = None →
  resolve_symbol "_ZN7QStringD2Ev" = Some a_dtor →
  resolve_symbol "_ZdlPv" = Some a_del →
  ∃ st', _QString.__del__ self st = (Ok tt, st')
    ∧ wf st' ∧ state_le st st'
    ∧ trace st' = trace st ++
        [ECall (CFunc (CFUNCTYPE None [c_void_p]) a_dtor) [c_ptr p];
         ECall (CFunc (CFUNCTYPE None [c_void_p]) a_del) [c_ptr p]].
Proof.
  intros Hwf Hs Hc Hapi Hqt Hdtor Hdel.
  destruct QString_api_lookup as [_ Hlk].
  destruct (call_method_c_ok st c p "_d_QString" "_ZN7QStringD2Ev"
              (CFUNCTYPE None [c_void_p]) a_dtor [])
    as (st1 & Hrun1 & Hwf1 & Hle1 & Ht1 & Hu1); try done.
  { unfold members. rewrite Hqt. by apply not_elem_of_c_members. }
  { by rewrite Hapi. }
  { intros m q. by rewrite Hqt. }
  assert (Hsc : self ≠ c).
  { intros ->. rewrite Hs in Hc. done. }
  assert (Hs1 : heap st1 !! self = Some (OQString true (Some c))).
  { rewrite Hu1; [done..|].
    destruct (decide (self < next_loc st)%positive) as [|Hge]; [done|].
    rewrite (wf_fresh _ Hwf) in Hs; [done | lia]. }
  destruct (le_heap _ _ Hle1 _ _ Hc) as (o1 & Hc1 & Hle).
  destruct o1 as [| | |p1| |]; try done. destruct Hle as (Hp1 & _).
  destruct (wf_delete _ Hwf1) as [f Hf].
  destruct (static_call_ok st1 _delete "_ZdlPv" (CFUNCTYPE None [c_void_p])
              f a_del [c_ptr p]) as
    (st2 & Hrun2 & Hwf2 & Hle2 & Ht2 & _); try done.
  exists st2. split_and!; try done.
  - unfold _QString.__del__. rewrite bind_unfold. unfold deref at 1.
    rewrite Hs. cbn [fst snd]. rewrite bind_unfold, Hrun1.
    rewrite bind_unfold, (QString_pointer_run st1 self true c p1) by done.
    rewrite <- Hp1. by rewrite bind_unfold, Hrun2.
  - by eapply state_le_trans.
  - rewrite Ht2, Ht1. by rewrite <- app_assoc.
Qed.

Lemma QString_init_owned st v a_new a_ctor :
  wf st → (v = VNone ∨ ∃ s, v = VStr s) →
  resolve_symbol "_Znwm" = Some a_new →
  resolve_symbol "_ZN7QStringC2EPKc" = Some a_ctor →
  let f_new := CFunc (CFUNCTYPE (Some c_void_p) [c_int]) a_new in
  let f_ctor := CFunc (CFUNCTYPE None [c_void_p; c_char_p]) a_ctor in
  let ptr := foreign_result (trace st) f_new [VInt sizeof_void_p] in
  let self := next_loc st in
  let c := Pos.succ (next_loc st) in
  ∃ st', _QString.__init__ v st = (Ok self, st')
    ∧ wf st' ∧ state_le st st'
    ∧ trace st' = trace st ++
        [ECall f_new [VInt sizeof_void_p]; ECall f_ctor [ptr; v]]
    ∧ heap st' !! self = Some (OQString true (Some c))
    ∧ (∃ p, heap st' !! c = Some (OObjectProxy p) ∧ c_ptr p = ptr
            ∧ c_api p = _QString._c_api ∧ qt p = None)
    ∧ unchanged_but _new st st'.
Proof.
  intros Hwf Hv Hnew Hctor f_new f_ctor ptr self c.
  destruct QString_api_lookup as [Hlk _].
  assert (Hself_new : self ≠ _new).
  { intros Heq. destruct (wf_new _ Hwf) as [f0 Hf0].
    rewrite <- Heq in Hf0. unfold self in Hf0.
    rewrite (wf_fresh _ Hwf) in Hf0; [done | lia]. }
  assert (∀ k1 k2 : M loc,
    match v with
    | VCVoidP _ => k1
    | VNone | VStr _ => k2
    | _ => raise (TypeError
             "QString can only be initialized with None, str, or a pointer")
    end = k2) as Hsel.
  { intros k1 k2. by destruct Hv as [-> | [s0 ->]]. }
  unfold _QString.__init__. rewrite bind_unfold. unfold alloc at 1.
  cbn [fst snd]. rewrite Hsel. unfold c_sizeof_c_void_p. rewrite bind_unfold.
  (* the new Python object *)
  match goal with |- context [py_call _ _ ?s] => set (st1 := s) end.
  assert (Hwf1 : wf st1) by (by apply wf_alloc).
  assert (Hle1 : state_le st st1) by (by apply le_alloc).
  (* _new(sizeof(c_void_p)) *)
  destruct (wf_new _ Hwf1) as [f Hf].
  destruct (static_call_ok st1 _new "_Znwm" (CFUNCTYPE (Some c_void_p) [c_int])
              f a_new [VInt sizeof_void_p])
    as (st2 & Hrun2 & Hwf2 & Hle2 & Ht2 & Hn2 & Hu2); try done.
  rewrite Hrun2. change (trace st1) with (trace st). fold f_new ptr.
  assert (Hs2 : heap st2 !! self = Some (OQString false None)).
  { rewrite Hu2; [|done|simpl; unfold self; lia].
    simpl. by rewrite lookup_insert_eq. }
  assert (Hc_eq : next_loc st2 = c) by (by rewrite Hn2).
  (* self._c = _CObjectProxy(_c_ptr, self._c_api) *)
  rewrite bind_unfold. unfold _CObjectProxy.__init__, alloc at 1.
  cbn [fst snd]. rewrite bind_unfold. unfold store at 1, modify at 1.
  cbn [fst snd]. rewrite bind_unfold. rewrite Hc_eq.
  set (p := Proxy ptr _QString._c_api None ∅).
  match goal with |- context [call_method _ _ _ ?s] => set (st4 := s) end.
  assert (wf st4 ∧ state_le st2 st4) as [Hwf4 Hle4].
  { pose proof (wf_alloc (OObjectProxy p) st2 eq_refl Hwf2) as Hwf3.
    pose proof (le_alloc (OObjectProxy p) st2 Hwf2) as Hle3.
    rewrite Hc_eq in Hwf3, Hle3.
    assert (heap (set_next_loc (Pos.succ c)
                    (set_heap <[c:=OObjectProxy p]> st2)) !! next_loc st
            = Some (OQString false None)) as Hs3.
    { simpl. rewrite lookup_insert_ne; [done|]. unfold c. lia. }
    split.
    - by eapply (wf_store_QString _ _ _ _ _ _ Hwf3 Hs3); simpl; auto.
    - eapply state_le_trans; [done|]. eapply le_store; [done|]. simpl. auto. }
  assert (Hc4 : heap st4 !! c = Some (OObjectProxy p)).
  { simpl. rewrite lookup_insert_ne by (unfold c; lia).
    by rewrite lookup_insert_eq. }
  (* self._c.QString(value) *)
  destruct (call_method_c_ok st4 c p "QString" "_ZN7QStringC2EPKc"
              (CFUNCTYPE None [c_void_p; c_char_p]) a_ctor [v])
    as (st5 & Hrun5 & Hwf5 & Hle5 & Ht5 & Hu5); try done.
  { by apply not_elem_of_c_members. }
  rewrite Hrun5.
  assert (Hs5 : heap st5 !! self = Some (OQString false (Some c))).
  { rewrite Hu5.
    - simpl. by rewrite lookup_insert_eq.
    - unfold self, c. lia.
    - simpl. unfold self. lia. }
  (* self._owned = True *)
  rewrite bind_unfold. unfold store at 1, modify at 1. cbn [fst snd].
  eexists. split; [reflexivity|]. split_and!.
  - apply (wf_store_QString st5 self false (Some c)); auto.
  - eapply state_le_trans; [exact Hle1|]. eapply state_le_trans; [exact Hle2|].
    eapply state_le_trans; [exact Hle4|]. eapply state_le_trans; [exact Hle5|].
    eapply le_store; [done|]. simpl. auto.
  - simpl. rewrite Ht5. simpl. rewrite Ht2. simpl. by rewrite <- app_assoc.
  - simpl. by rewrite lookup_insert_eq.
  - destruct (le_heap _ _ Hle5 _ _ Hc4) as (o5 & Hc5 & Hle).
    destruct o5 as [| | |p5| |]; try done.
    destruct Hle as (Hp & Ha & Hq & _). exists p5. split_and!; try done.
    simpl. by rewrite lookup_insert_ne by (unfold c; lia).
  - intros l Hne Hlt. simpl.
    rewrite lookup_insert_ne by lia.
    rewrite Hu5; [|unfold c; lia|simpl; lia].
    simpl. rewrite lookup_insert_ne by lia.
    rewrite lookup_insert_ne by (unfold c; lia).
    rewrite Hu2; [|done|simpl; lia].
    simpl. by rewrite lookup_insert_ne by lia.
Qed.


Lemma QString_init_pointer st ptr :
  wf st →
  let self := next_loc st in
  let c := Pos.succ (next_loc st) in
  ∃ st', _QString.__init__ (VCVoidP ptr) st = (Ok self, st')
    ∧ wf st' ∧ state_le st st' ∧ trace st' = trace st
    ∧ heap st' !! self = Some (OQString false (Some c))
    ∧ heap st' !! c
      = Some (OObjectProxy (Proxy (VCVoidP ptr) _QString._c_api None ∅))
    ∧ _QString.__del__ self st' = (Ok tt, st').
Proof.
  intros Hwf self c.
  unfold _QString.__init__. rewrite bind_unfold. unfold alloc at 1.
  cbn [fst snd]. rewrite bind_unfold.
  unfold _CObjectProxy.__init__, alloc at 1. cbn [fst snd].
  rewrite bind_unfold. unfold store at 1, modify at 1. cbn [fst snd].
  set (p := Proxy (VCVoidP ptr) _QString._c_api None ∅).
  pose proof (wf_alloc (OQString false None) st I Hwf) as Hwf1.
  pose proof (le_alloc (OQString false None) st Hwf) as Hle1.
  pose proof (wf_alloc (OObjectProxy p) _ eq_refl Hwf1) as Hwf2.
  pose proof (le_alloc (OObjectProxy p) _ Hwf1) as Hle2.
  match goal with |- context [set_heap ?f ?s] =>
    match f with context [OQString false (Some _)] => set (st2 := s) end end.
  assert (Hs2 : heap st2 !! self = Some (OQString false None)).
  { simpl. rewrite lookup_insert_ne by (unfold self; lia).
    by rewrite lookup_insert_eq. }
  eexists. split; [reflexivity|]. split_and!.
  - apply (wf_store_QString st2 self false None); auto.
  - eapply state_le_trans; [exact Hle1|]. eapply state_le_trans; [exact Hle2|].
    eapply le_store; [done|]. simpl. auto.
  - done.
  - simpl. by rewrite lookup_insert_eq.
  - simpl. rewrite lookup_insert_ne by (unfold self; lia).
    by rewrite lookup_insert_eq.
  - unfold _QString.__del__. rewrite bind_unfold. unfold deref at 1.
    simpl. by rewrite lookup_insert_eq.
Qed.

Lemma QString_init_other st v :
  match v with
  | VCVoidP _ | VNone | VStr _ => True
  | _ =>
      _QString.__init__ v st =
        (Raise (TypeError
                  "QString can only be initialized with None, str, or a pointer"),
         set_next_loc (Pos.succ (next_loc st))
           (set_heap <[next_loc st := OQString false None]> st))
  end.
Proof. by destruct v. Qed.

(** C10: [_QString(value)] has three kinds of argument.  A [c_void_p] is
    wrapped as it is and not owned, so that destruction does nothing.  For
    [None] or a [str] (the symbols of the allocator and of [QString] being
    defined) a native string is allocated, the native constructor is run
    on it and the object is owned: destruction runs the native destructor
    and frees the allocation.  Anything else raises [TypeError] without a
    foreign call. *)
Theorem QString_init_shapes (st : State) (Hwf : wf st) :
  (∀ ptr,
     (_QString.__init__ (VCVoidP ptr) st).1 = Ok (next_loc st)
     ∧ let st' := (_QString.__init__ (VCVoidP ptr) st).2 in
       trace st' = trace st
       ∧ heap st' !! next_loc st
         = Some (OQString false (Some (Pos.succ (next_loc st))))
       ∧ heap st' !! Pos.succ (next_loc st)
         = Some (OObjectProxy (Proxy (VCVoidP ptr) _QString._c_api None ∅))
       ∧ _QString.__del__ (next_loc st) st' = (Ok tt, st'))
  ∧ (∀ v a_new a_ctor a_dtor a_del,
       v = VNone ∨ (∃ s, v = VStr s) →
       resolve_symbol "_Znwm" = Some a_new →
       resolve_symbol "_ZN7QStringC2EPKc" = Some a_ctor →
       resolve_symbol "_ZN7QStringD2Ev" = Some a_dtor →
       resolve_symbol "_ZdlPv" = Some a_del →
       let f_new := CFunc (CFUNCTYPE (Some c_void_p) [c_int]) a_new in
       let f_ctor := CFunc (CFUNCTYPE None [c_void_p; c_char_p]) a_ctor in
       let f_dtor := CFunc (CFUNCTYPE None [c_void_p]) a_dtor in
       let f_del := CFunc (CFUNCTYPE None [c_void_p]) a_del in
       let ptr := foreign_result (trace st) f_new [VInt sizeof_void_p] in
       (_QString.__init__ v st).1 = Ok (next_loc st)
       ∧ let st' := (_QString.__init__ v st).2 in
         trace st' = trace st ++
           [ECall f_new [VInt sizeof_void_p]; ECall f_ctor [ptr; v]]
         ∧ heap st' !! next_loc st
           = Some (OQString true (Some (Pos.succ (next_loc st))))
         ∧ (_QString.__del__ (next_loc st) st').1 = Ok tt
         ∧ trace (_QString.__del__ (next_loc st) st').2 =
             trace st' ++ [ECall f_dtor [ptr]; ECall f_del [ptr]])
  ∧ (∀ v,
       match v with
       | VCVoidP _ | VNone | VStr _ => True
       | _ =>
           (_QString.__init__ v st).1 =
             Raise (TypeError
               "QString can only be initialized with None, str, or a pointer")
           ∧ trace (_QString.__init__ v st).2 = trace st
       end).
Proof.
  split_and!.
  - intros ptr.
    destruct (QString_init_pointer st ptr Hwf) as (st' & -> & _ & _ & ? & ? & ? & ?).
    by split_and!.
  - intros v a_new a_ctor a_dtor a_del Hv Hnew Hctor Hdtor Hdel.
    destruct (QString_init_owned st v a_new a_ctor Hwf Hv Hnew Hctor)
      as (st' & -> & Hwf' & _ & Ht & Hs & (p & Hc & Hp & Ha & Hq) & _).
    destruct (QString_del_owned st' _ _ p a_dtor a_del Hwf' Hs Hc Ha Hq Hdtor Hdel)
      as (st'' & Hdel' & _ & _ & Ht'').
    cbn zeta. cbn [fst snd]. rewrite Hdel'. cbn [fst snd].
    rewrite Ht'', Hp. by split_and!.
  - intros v. pose proof (QString_init_other st v) as Hv.
    destruct v; try done; by rewrite Hv.
Qed.


(** ** Smart pointers *)

Lemma from_bn_smart_ptr_ok st pv ty new_ref b rv :
  wf st → resolve_symbol new_ref = Some b →
  let f_ref := CFunc (CFUNCTYPE (Some c_void_p) [c_void_p]) b in
  let c_object := VCVoidP (read_pointer (trace st) (pv + sizeof_void_p * 2)) in
  foreign_result (trace st) f_ref [c_object] = VInt rv →
  ∃ st', _from_bn_smart_ptr (VInt pv) ty new_ref st =
           (Ok (VHandle ty (VCVoidP (if rv =? 0 then None else Some rv))), st')
    ∧ wf st' ∧ state_le st st'
    ∧ trace st' = trace st ++ [ECall f_ref [c_object]].
Proof.
  intros Hwf Hr f_ref c_object Hrv.
  assert (∃ st2 l f, wf st2 ∧ state_le st st2 ∧ trace st2 = trace st
            ∧ _bn_new_ref_fns st2 !! new_ref = Some l
            ∧ heap st2 !! l = Some (OCStaticMethodProxy new_ref
                                      (CFUNCTYPE (Some c_void_p) [c_void_p]) f)
            ∧ ((if decide (is_Some (_bn_new_ref_fns st !! new_ref))
                then mret tt
                else fn ← _CStaticMethodProxy.__init__ new_ref
                            (CFUNCTYPE (Some c_void_p) [c_void_p]);
                     modify (set_bn_new_ref_fns <[new_ref := fn]>)) st
               = (Ok tt, st2)))
    as (st2 & l & f & Hwf2 & Hle2 & Ht2 & Hl2 & Hf2 & Hrun2).
  { case_decide as Hsome.
    - destruct Hsome as [l Hl]. destruct (wf_new_ref _ Hwf _ _ Hl) as [f Hf].
      exists st, l, f. split_and!; try done. apply state_le_refl.
    - assert (_bn_new_ref_fns st !! new_ref = None) as Hnone
        by (by apply eq_None_not_Some).
      pose proof (wf_alloc (OCStaticMethodProxy new_ref
                    (CFUNCTYPE (Some c_void_p) [c_void_p]) None) st eq_refl Hwf)
        as Hwf1.
      pose proof (le_alloc (OCStaticMethodProxy new_ref
                    (CFUNCTYPE (Some c_void_p) [c_void_p]) None) st Hwf) as Hle1.
      eexists _, (next_loc st), None. split_and!; [| | | | |reflexivity].
      + apply wf_set_bn_new_ref_fns; [|exact Hwf1].
        exists None. simpl. by rewrite lookup_insert_eq.
      + eapply state_le_trans; [exact Hle1|]. by apply le_set_bn_new_ref_fns.
      + done.
      + simpl. by rewrite lookup_insert_eq.
      + simpl. by rewrite lookup_insert_eq. }
  destruct (static_call_ok st2 l new_ref (CFUNCTYPE (Some c_void_p) [c_void_p])
              f b [c_object])
    as (st3 & Hrun3 & Hwf3 & Hle3 & Ht3 & _); try done.
  exists st3. split_and!; try done.
  - unfold _from_bn_smart_ptr. rewrite bind_unfold. unfold get_state at 1.
    cbn [fst snd]. rewrite bind_unfold, Hrun2.
    rewrite bind_unfold. unfold get_state at 1. cbn [fst snd]. rewrite Hl2.
    rewrite bind_unfold. unfold mret at 1, M_ret at 1. cbn [fst snd].
    rewrite bind_unfold. unfold contents_at at 1. rewrite bind_unfold.
    unfold get_state at 1. cbn [fst snd]. unfold mret at 1, M_ret at 1.
    cbn [fst snd]. unfold c_sizeof_c_void_p. rewrite Ht2. fold c_object.
    rewrite bind_unfold, Hrun3. rewrite Ht2. fold f_ref. rewrite Hrv.
    rewrite bind_unfold. by unfold c_cast_c_void_p.
  - by eapply state_le_trans.
  - by rewrite Ht3, Ht2.
Qed.

(** C5: for each of the five view classes, [getBinaryView] calls the
    view's [getData], reads the pointer stored two pointer sizes into what
    it returned (after the vtable pointer and the reference count), asks
    'BNNewViewReference' for a new reference to it, and wraps the result as
    a [BinaryView] handle. *)
Theorem getBinaryView_smart_pointer (st : State) (cls : wrapper_class)
    (self q : loc) (p : proxy) (n : string) (s : csig) (a b pv rv : Z)
    (Hwf : wf st)
    (Hcls : cls ∈ [HexEditor; DisassemblyView; StringsView; LinearView; TypeView])
    (Hself : heap st !! self = Some (OWrapper cls (Some q)))
    (Hq : heap st !! q = Some (OObjectProxy p))
    (Hnot_qt : ∀ m w, qt p = Some (m, w) → "getData" ∉ meta_methods m)
    (Hapi : cls_c_api cls !! "getData" = Some (n, s))
    (Hget : resolve_symbol n = Some a)
    (Href : resolve_symbol "BNNewViewReference" = Some b) :
  let f_get := CFunc s a in
  let f_ref := CFunc (CFUNCTYPE (Some c_void_p) [c_void_p]) b in
  let t1 := trace st ++ [ECall f_get [c_ptr p]] in
  let c_object := VCVoidP (read_pointer t1 (pv + sizeof_void_p * 2)) in
  foreign_result (trace st) f_get [c_ptr p] = VInt pv →
  foreign_result t1 f_ref [c_object] = VInt rv →
  (getBinaryView cls self st).1 =
    Ok (VBinaryView
          (VHandle BNBinaryView (VCVoidP (if rv =? 0 then None else Some rv))))
  ∧ trace (getBinaryView cls self st).2 = t1 ++ [ECall f_ref [c_object]].
Proof.
  intros f_get f_ref t1 c_object Hpv Hrv.
  subst f_get f_ref t1 c_object.
  destruct (wf_wrapper _ Hwf _ _ _ Hself)
    as (p' & m & w & Hq' & Hapi' & Hptr & Hqt & _ & Hsome).
  rewrite Hq in Hq'. injection Hq' as <-.
  destruct (call_method_c_ok st q p "getData" n s a [])
    as (st1 & Hrun1 & Hwf1 & _ & Ht1 & _); try done.
  { unfold members. rewrite Hqt. by apply not_elem_of_q_members. }
  { by rewrite Hapi'. }
  { intros m' w' Hqt'. split; [|by eapply Hnot_qt].
    rewrite Hqt in Hqt'. by injection Hqt' as <- <-. }
  destruct (from_bn_smart_ptr_ok st1 pv BNBinaryView "BNNewViewReference" b rv)
    as (st2 & Hrun2 & _ & _ & Ht2); try done.
  { by rewrite Ht1. }
  assert (getBinaryView cls self st =
            (Ok (VBinaryView (VHandle BNBinaryView
                   (VCVoidP (if rv =? 0 then None else Some rv)))), st2)) as ->.
  { assert (getBinaryView cls self st = HexEditor.getBinaryView self st) as ->.
    { repeat (apply elem_of_cons in Hcls as [-> | Hcls]; [done|]).
      by apply elem_of_nil in Hcls. }
    unfold HexEditor.getBinaryView.
    rewrite bind_unfold, (wrapper_q_run st self cls q) by done.
    rewrite bind_unfold, Hrun1, Hpv.
    unfold _binary_view_from_cxx_ref. by rewrite bind_unfold, Hrun2. }
  cbn [fst snd]. rewrite Ht2, Ht1. done.
Qed.



(** ** Forwarding *)






(** ** Class-level state *)











(** ** Repeated lookups *)



End Proofs.

(** * The theorems at work on the demo host *)

Section Examples.
Import Demo.

Lemma wf_st_window : wf st_window.
Proof. apply run_wf_le, wf_initial_state. Qed.


Lemma wf_st_main : wf st_main.
Proof. apply (wrapper_init_outcome MainWindow 1 initial_state wf_initial_state). Qed.


Lemma wf_st_hex : wf st_hex.
Proof. apply (wrapper_init_outcome HexEditor 4 initial_state wf_initial_state). Qed.

Lemma wf_st_callback : wf st_callback.
Proof. apply wf_set_init_callbacks, wf_initial_state. Qed.

Lemma q_getattr_resolution_order_witness :
  (_QObjectProxy.__getattr__ 5%positive "closeTab" st_window).1
    = Ok (VRef 6%positive)
  ∧ (_QObjectProxy.__getattr__ 5%positive "show" st_window).1 = Ok (VHost 1).
Proof.
  split.
  - refine (proj1 (proj1
      (q_getattr_resolution_order st_window 5%positive p_window 8192 1
         ["newTab"; "closeTab"; "closeAll"] "closeTab" wf_st_window
         _ _ _) _)).
    + by vm_compute.
    + by vm_compute.
    + by vm_compute.
    + compute_done.
  - pose proof (proj2 (proj2
      (q_getattr_resolution_order st_window 5%positive p_window 8192 1
         ["newTab"; "closeTab"; "closeAll"] "show" wf_st_window
         ltac:(by vm_compute) ltac:(by vm_compute) ltac:(by vm_compute)))) as H.
    rewrite H; [done | compute_done | by vm_compute].
Defined.

Lemma undefined_symbol_raises_witness :
  (_CStaticMethodProxy.__call__ MainWindow_getActiveWindow [] initial_state).1
    = Raise (AttributeError
               "Symbol _ZN10MainWindow15getActiveWindowEv is not defined").
Proof.
  rewrite (proj1 (undefined_symbol_raises initial_state)
             MainWindow_getActiveWindow "_ZN10MainWindow15getActiveWindowEv"
             (CFUNCTYPE (Some c_void_p) []) []); [done| by vm_compute | by vm_compute].
Defined.

Lemma q_init_checks_meta_object_witness :
  (_QObjectProxy.__init__ 8192 2 ∅ initial_state).1
    = Raise (TypeError
        "proxy for 'MainWindow' cannot be initialized from a pointer to 'ViewFrame'")
  ∧ (_QObjectProxy.__init__ 8192 1 ∅ initial_state).1 = Ok 5%positive.
Proof.
  split.
  - destruct (proj1 (q_init_checks_meta_object initial_state 8192 2 ∅)
                ltac:(compute_done)) as [[H _] _].
    rewrite H. by vm_compute.
  - destruct (proj2 (q_init_checks_meta_object initial_state 8192 1 ∅)
                ltac:(compute_done)) as [[H _] _].
    rewrite H. by vm_compute.
Defined.

Lemma closeAll_is_closeTab_witness :
  (MainWindow.closeAll 5%positive st_main).1 = Ok VNone
  ∧ trace (MainWindow.closeAll 5%positive st_main).2
    = [EInvokeMethod 8192 1 "closeTab" []].
Proof.
  apply (proj2 (closeAll_is_closeTab 5%positive st_main) 6%positive
           p_window 8192 1 ["newTab"; "closeTab"; "closeAll"] wf_st_main);
    try (by vm_compute). compute_done.
Defined.


Lemma QString_init_shapes_witness :
  (_QString.__init__ (VStr "ELF:Hex") initial_state).1 = Ok 5%positive
  ∧ (_QString.__init__ (VCVoidP (Some 77)) initial_state).1 = Ok 5%positive.
Proof.
  destruct (QString_init_shapes initial_state wf_initial_state) as (H1 & H2 & _).
  split.
  - apply (H2 (VStr "ELF:Hex") 4096 4112 4120 4104); try (by vm_compute).
    right. by eexists.
  - apply (H1 (Some 77)).
Defined.

Lemma getBinaryView_smart_pointer_witness :
  (getBinaryView HexEditor 5%positive st_hex).1
    = Ok (VBinaryView (VHandle BNBinaryView (VCVoidP (Some 40960)))).
Proof.
  apply (getBinaryView_smart_pointer st_hex HexEditor 5%positive 6%positive
           p_hex "_ZN9HexEditor7getDataEv"
           (CFUNCTYPE (Some c_void_p) [c_void_p]) 12288 16384 32768 40960
           wf_st_hex); try (by vm_compute).
  - by apply elem_of_cons; left.
  - intros m w [= <- <-]. change (meta_methods 8960) with ["update"].
    compute_done.
Defined.





End Examples.

(** * Further properties of the proxy layer and of the Qt wrappers *)

(** ** Symbols of the static meta-objects *)

Section Symbols.
Import PyStr.

Lemma string_length_append (s1 s2 : string) :
  String.length (s1 +:+ s2) = (String.length s1 + String.length s2)%nat.
Proof. induction s1 as [|c s1 IH]; simpl; [done | by rewrite IH]. Qed.

Lemma string_append_inj_r (s1 s2 t1 t2 : string) :
  String.length s1 = String.length s2 →
  s1 +:+ t1 = s2 +:+ t2 → s1 = s2 ∧ t1 = t2.
Proof.
  revert s2. induction s1 as [|c s1 IH]; intros [|c' s2] Hlen Heq;
    simpl in *; try done.
  injection Heq as -> Heq. injection Hlen as Hlen.
  destruct (IH s2 Hlen Heq) as [-> ->]. done.
Qed.

Lemma digits_length_ge fuel : ∀ n acc,
  (String.length acc ≤ String.length (digits fuel n acc))%nat.
Proof.
  induction fuel as [|fuel IH]; intros n acc; simpl; [done|].
  destruct (n / 10 =? 0)%N; simpl; [lia|].
  etrans; [|apply IH]. simpl. lia.
Qed.

Lemma digits_length_mono fuel1 : ∀ fuel2 n m acc1 acc2,
  (N.size_nat n < fuel1)%nat → (N.size_nat m < fuel2)%nat → (n ≤ m)%N →
  String.length acc1 = String.length acc2 →
  (String.length (digits fuel1 n acc1) ≤ String.length (digits fuel2 m acc2))%nat.
Proof.
  induction fuel1 as [|fuel1 IH]; intros fuel2 n m acc1 acc2 Hn Hm Hle Hacc;
    [lia|].
  destruct fuel2 as [|fuel2]; [lia|]. simpl.
  destruct (N.eqb_spec (n / 10) 0) as [Hq|Hq].
  - destruct (m / 10 =? 0)%N; simpl; [lia|].
    etrans; [|apply digits_length_ge]. simpl. lia.
  - assert (n / 10 ≤ m / 10)%N as Hdiv by (by apply N.Div0.div_le_mono).
    destruct (N.eqb_spec (m / 10) 0) as [Hq'|Hq'].
    { rewrite Hq' in Hdiv. by apply N.le_0_r in Hdiv. }
    pose proof (size_nat_div10 n Hq). pose proof (size_nat_div10 m Hq').
    apply IH; try lia. simpl. by rewrite Hacc.
Qed.

Lemma str_of_N_length_mono n m :
  (n ≤ m)%N →
  (String.length (str_of_N n) ≤ String.length (str_of_N m))%nat.
Proof. intros Hle. apply digits_length_mono; try done; lia. Qed.

Lemma str_of_Z_of_nat (n : nat) : str_of_Z (Z.of_nat n) = str_of_N (N.of_nat n).
Proof.
  unfold str_of_Z. destruct (Z.of_nat n) eqn:E; try lia; f_equal; lia.
Qed.

(** X1: classes with different names never share a static meta-object
    symbol: the mangled name "_ZN" + len(name) + name + "16staticMetaObjectE"
    is different for different names, whatever characters they hold. *)
Theorem meta_object_symbol_injective (S1 S2 : string) :
  S1 ≠ S2 →
  format "_ZN{}{}16staticMetaObjectE"
    [str_of_Z (Z.of_nat (String.length S1)); S1]
  ≠ format "_ZN{}{}16staticMetaObjectE"
      [str_of_Z (Z.of_nat (String.length S2)); S2].
Proof.
  intros Hne Heq. apply Hne. clear Hne.
  change ("_ZN" +:+ (str_of_Z (Z.of_nat (String.length S1)) +:+
            (S1 +:+ "16staticMetaObjectE"))
          = "_ZN" +:+ (str_of_Z (Z.of_nat (String.length S2)) +:+
              (S2 +:+ "16staticMetaObjectE"))) in Heq.
  apply String.app_inj in Heq. rewrite !str_of_Z_of_nat in Heq.
  pose proof (f_equal String.length Heq) as Hlen.
  rewrite !string_length_append in Hlen.
  assert (String.length S1 = String.length S2) as HL.
  { destruct (Nat.le_gt_cases (String.length S1) (String.length S2)) as [Hle|Hgt].
    - pose proof (str_of_N_length_mono (N.of_nat (String.length S1))
                    (N.of_nat (String.length S2)) ltac:(lia)). lia.
    - pose proof (str_of_N_length_mono (N.of_nat (String.length S2))
                    (N.of_nat (String.length S1)) ltac:(lia)). lia. }
  rewrite HL in Heq. apply String.app_inj in Heq.
  by destruct (string_append_inj_r _ _ _ _ HL Heq).
Qed.
End Symbols.

Section Operations.
Context `{!Host, !QtObjects}.

(** X2: a static method proxy binds its symbol once.  The first call of an
    unbound proxy whose symbol is defined resolves it, stores the foreign
    function on the proxy and calls it; the next call uses the stored
    function and does not ask the symbol table again.  An undefined symbol
    is not remembered: every call asks again, binds nothing and calls
    nothing. *)
Theorem static_proxy_binds_once (st : State) (self : loc) (n : string)
    (s : csig) (args1 args2 : list value) :
  heap st !! self = Some (OCStaticMethodProxy n s None) →
  let r1 := _CStaticMethodProxy.__call__ self args1 st in
  let r2 := _CStaticMethodProxy.__call__ self args2 r1.2 in
  (∀ a, resolve_symbol n = Some a →
     let f := CFunc s a in
     r1.1 = Ok (foreign_result (trace st) f args1)
     ∧ heap r1.2 = <[self := OCStaticMethodProxy n s (Some f)]> (heap st)
     ∧ resolutions r1.2 = resolutions st ++ [n]
     ∧ r2.1 = Ok (foreign_result (trace st ++ [ECall f args1]) f args2)
     ∧ heap r2.2 = heap r1.2
     ∧ resolutions r2.2 = resolutions r1.2
     ∧ trace r2.2 = trace st ++ [ECall f args1; ECall f args2])
  ∧ (resolve_symbol n = None →
       heap r2.2 = heap st ∧ trace r2.2 = trace st
       ∧ resolutions r2.2 = resolutions st ++ [n; n]).
Proof.
  intros Hs r1 r2. subst r1 r2. split.
  - intros a Hr f.
    unfold _CStaticMethodProxy.__call__. munfold.
    rewrite Hs. simpl. rewrite Hr. simpl.
    rewrite lookup_insert_eq. simpl.
    rewrite <- app_assoc. by split_and!.
  - intros Hr.
    rewrite (static_call_undefined st self n s args1 Hs Hr). cbn [snd].
    rewrite (static_call_undefined (set_resolutions (λ r, r ++ [n]) st)
               self n s args2 Hs Hr). simpl.
    by rewrite <- app_assoc.
Qed.

(** X3: reading an attribute of a proxy never calls into the host: the
    trace of foreign interactions is the one before, no object other than the
    proxy itself changes, at most one object is allocated, and a result that
    is an object of the module is a method proxy which the same lookup
    returns again without changing anything. *)
Theorem lookup_calls_nothing (st : State) (self : loc) (attr : string) :
  wf st →
  let r := py_getattr self attr st in
  wf r.2 ∧ trace r.2 = trace st ∧ unchanged_but self st r.2
  ∧ (next_loc r.2 = next_loc st ∨ next_loc r.2 = Pos.succ (next_loc st))
  ∧ ∀ l, r.1 = Ok (VRef l) →
      (∃ o, heap r.2 !! l = Some o ∧ is_method_proxy o)
      ∧ py_getattr self attr r.2 = (Ok (VRef l), r.2).
Proof.
  intros Hwf r. subst r.
  destruct (py_getattr_outcome st self attr Hwf) as (Hwf' & _ & Ht & Hu).
  split_and!; try done.
  - destruct (py_getattr_cases st self attr Hwf)
      as [[-> _]|[(p & o & st1 & _ & _ & Ho & _ & ->)|(p & n & s & e & _ & _ & _ & _ & _ & ->)]];
      simpl; auto.
  - intros l Hl. destruct (py_getattr_ref st self attr l Hwf Hl) as (Ho & p & Hs & Hd).
    split; [done|]. by apply (py_getattr_dict _ self p).
Qed.


Lemma methods_run st self p m q names :
  heap st !! self = Some (OObjectProxy p) → qt p = Some (m, q) →
  _q_methods st !! m = Some names →
  _QObjectProxy._methods self st = (Ok names, st).
Proof.
  intros Hs Hq Hm. unfold _QObjectProxy._methods. munfold.
  rewrite Hs. simpl. rewrite Hq. by rewrite Hm.
Qed.

Lemma properties_run st self p m q names :
  heap st !! self = Some (OObjectProxy p) → qt p = Some (m, q) →
  _q_properties st !! m = Some names →
  _QObjectProxy._properties self st = (Ok names, st).
Proof.
  intros Hs Hq Hm. unfold _QObjectProxy._properties. munfold.
  rewrite Hs. simpl. rewrite Hq. by rewrite Hm.
Qed.

(** X5: once [_QObjectProxy.__init__] has succeeded, [_methods()] and
    [_properties()] of the new proxy return without [KeyError]: [_methods()]
    is the list of the method names of the meta-object, [_properties()] the
    list recorded for the meta-object (its property names when this is its
    first proxy), [_className()] is the class name of the wrapped object's own
    meta-object, and every name that [_methods()] lists is looked up as a
    [_QMethodProxy] for that object. *)
Theorem methods_after_init (st : State) (m q : Z)
    (api : gmap string (string * csig)) :
  wf st → m = q_metaObject q →
  let self := next_loc st in
  let st' := (_QObjectProxy.__init__ m q api st).2 in
  (_QObjectProxy.__init__ m q api st).1 = Ok self
  ∧ _QObjectProxy._methods self st' = (Ok (meta_methods m), st')
  ∧ _QObjectProxy._properties self st'
    = (Ok (default (meta_properties m) (_q_properties st !! m)), st')
  ∧ _QObjectProxy._className self st'
    = (Ok (meta_className (q_metaObject q)), st')
  ∧ ∀ attr, attr ∈ meta_methods m → attr ∉ q_members →
      (py_getattr self attr st').1 = Ok (VRef (next_loc st'))
      ∧ heap (py_getattr self attr st').2 !! next_loc st'
        = Some (OQMethodProxy m q attr).
Proof.
  intros Hwf Heq self st'. subst self st'.
  destruct (q_init_outcome st m q api Hwf) as (Hwf' & _ & _).
  destruct (q_init_ok st m q api Heq)
    as (st' & Hrun & Hh & Hn & Hm & Hp & _).
  rewrite Hrun in *. cbn [fst snd] in *.
  set (p := Proxy (VInt q) api (Some (m, q)) ∅).
  assert (Hs : heap st' !! next_loc st = Some (OObjectProxy p)).
  { rewrite Hh. by rewrite lookup_insert_eq. }
  assert (Hm' : _q_methods st' !! m = Some (meta_methods m)).
  { rewrite Hm.
    destruct (decide (is_Some (_q_methods st !! m))) as [Hsome|Hsome].
    - destruct Hsome as [names Hnames].
      by rewrite Hnames, (wf_q_methods _ Hwf _ _ Hnames).
    - by rewrite lookup_insert_eq. }
  clear Hm. split_and!; try done.
  - by apply (methods_run st' _ p m q).
  - apply (properties_run st' _ p m q); try done.
    rewrite Hp.
    destruct (decide (is_Some (_q_properties st !! m))) as [Hsome|Hsome].
    + destruct Hsome as [names Hnames]. by rewrite Hnames.
    + rewrite lookup_insert_eq. apply eq_None_not_Some in Hsome.
      by rewrite Hsome.
  - unfold _QObjectProxy._className. munfold. rewrite Hs. simpl. by rewrite Heq.
  - intros attr Hin Hmem.
    assert (Hne : next_loc st ≠ next_loc st')
      by (by eapply wf_self_not_fresh).
    rewrite (py_getattr_dispatch st' _ p) by done. simpl.
    rewrite (q_getattr_method_run st' _ p m q (meta_methods m)) by done.
    split; [done|]. simpl. rewrite lookup_insert_ne by done.
    by rewrite lookup_insert_eq.
Qed.

Lemma pointer_run st self p :
  heap st !! self = Some (OObjectProxy p) →
  _CObjectProxy._pointer self st =
    (match c_ptr p with
     | VSip _ a => Ok (VInt a)
     | _ => Raise (TypeError
                     "unwrapinstance() argument 1 must be a sip wrapper")
     end, st).
Proof.
  intros Hs. unfold _CObjectProxy._pointer. munfold. rewrite Hs. simpl.
  by destruct (c_ptr p).
Qed.

(** X6: [_CObjectProxy._pointer] calls [sip.unwrapinstance] on [_c_ptr].
    It returns the address when the proxy was made from a sip wrapper; for
    a [_QObjectProxy], whose [_c_ptr] is the address already unwrapped by
    [__init__], and so for the proxy [q] of every wrapper, it raises
    [TypeError] and leaves the state alone. *)
Theorem pointer_of_proxy (st : State) :
  wf st →
  (∀ self cls q, heap st !! self = Some (OWrapper cls (Some q)) →
     _CObjectProxy._pointer q st =
       (Raise (TypeError "unwrapinstance() argument 1 must be a sip wrapper"),
        st))
  ∧ (∀ ty a api,
       _CObjectProxy._pointer (next_loc st)
         (_CObjectProxy.__init__ (VSip ty a) api st).2
       = (Ok (VInt a), (_CObjectProxy.__init__ (VSip ty a) api st).2))
  ∧ (∀ m q api, m = q_metaObject q →
       _CObjectProxy._pointer (next_loc st)
         (_QObjectProxy.__init__ m q api st).2
       = (Raise (TypeError "unwrapinstance() argument 1 must be a sip wrapper"),
          (_QObjectProxy.__init__ m q api st).2)).
Proof.
  intros Hwf. split_and!.
  - intros self cls q Hs.
    destruct (wf_wrapper _ Hwf _ _ _ Hs) as (p & m & w & Hq & _ & Hp & _).
    rewrite (pointer_run st q p Hq). by rewrite Hp.
  - intros ty a api.
    rewrite (pointer_run _ _ (Proxy (VSip ty a) api None ∅)); [done|].
    simpl. by rewrite lookup_insert_eq.
  - intros m q api Heq.
    destruct (q_init_ok st m q api Heq) as (st' & -> & Hh & _). cbn [snd].
    rewrite (pointer_run _ _ (Proxy (VInt q) api (Some (m, q)) ∅)); [done|].
    rewrite Hh. by rewrite lookup_insert_eq.
Qed.

Lemma heap_lt st l o : wf st → heap st !! l = Some o → (l < next_loc st)%positive.
Proof.
  intros Hwf Hl. destruct (decide (l < next_loc st)%positive); [done|].
  rewrite (wf_fresh _ Hwf) in Hl; [done | lia].
Qed.

Lemma call_method_q_ok st self p m w attr args :
  wf st → heap st !! self = Some (OObjectProxy p) → qt p = Some (m, w) →
  is_Some (_q_methods st !! m) → attr ∈ meta_methods m → attr ∉ q_members →
  ∃ st', call_method self attr args st = (Ok VNone, st')
    ∧ wf st' ∧ state_le st st'
    ∧ trace st' = trace st ++ [EInvokeMethod m w attr args]
    ∧ unchanged_but self st st'.
Proof.
  intros Hwf Hs Hqt [names Hnames] Hin Hmem.
  pose proof (wf_q_methods _ Hwf _ _ Hnames) as ->.
  destruct (py_getattr_outcome st self attr Hwf) as (Hwf1 & Hle1 & Ht1 & Hu1).
  assert (∃ l st1, py_getattr self attr st = (Ok (VRef l), st1)
            ∧ heap st1 !! l = Some (OQMethodProxy m w attr))
    as (l & st1 & Hrun & Hl).
  { destruct (inst_dict p !! attr) as [v|] eqn:Hd.
    - rewrite (py_getattr_dict st self p attr v) by done.
      destruct (wf_dict _ Hwf _ _ _ _ Hs Hd) as (l & -> & Hb).
      exists l, st. split; [done|].
      destruct Hb as [(m' & q' & Hqt' & _ & Hl)|(n & s & a & _ & _ & Hnot & _)].
      + rewrite Hqt in Hqt'. by injection Hqt' as <- <-.
      + by destruct (Hnot m w Hqt).
    - assert (Hne : self ≠ next_loc st) by (by eapply wf_self_not_fresh).
      rewrite (py_getattr_dispatch st self p); [|done|done|].
      2:{ unfold members. by rewrite Hqt. }
      rewrite Hqt.
      rewrite (q_getattr_method_run st self p m w (meta_methods m)) by done.
      eexists _, _. split; [done|]. simpl.
      rewrite lookup_insert_ne by done. by rewrite lookup_insert_eq. }
  rewrite Hrun in *. cbn [fst snd] in *.
  unfold call_method. rewrite bind_unfold, Hrun.
  rewrite (py_call_q_method st1 l m w attr) by done.
  eexists. split; [done|]. split_and!.
  - by apply wf_set_trace.
  - eapply state_le_trans; [done|]. apply le_set_trace_app.
  - simpl. by rewrite Ht1.
  - done.
Qed.

Lemma call_method_missing st self p m w attr args :
  wf st → heap st !! self = Some (OObjectProxy p) → qt p = Some (m, w) →
  is_Some (_q_methods st !! m) → attr ∉ meta_methods m → attr ∉ q_members →
  c_api p !! attr = None → qt_getattr w attr = None →
  call_method self attr args st = (Raise (AttributeError attr), st).
Proof.
  intros Hwf Hs Hqt [names Hnames] Hin Hmem Ha Hg.
  pose proof (wf_q_methods _ Hwf _ _ Hnames) as ->.
  assert (inst_dict p !! attr = None) as Hd.
  { destruct (inst_dict p !! attr) as [v|] eqn:Hd; [|done].
    destruct (wf_dict _ Hwf _ _ _ _ Hs Hd) as (l & -> & Hb).
    destruct Hb as [(m' & q' & Hqt' & Hin' & _)|(n & s & a & Ha' & _)].
    - rewrite Hqt in Hqt'. injection Hqt' as <- <-. done.
    - by rewrite Ha in Ha'. }
  unfold call_method. rewrite bind_unfold.
  rewrite (py_getattr_dispatch st self p); [|done|done|].
  2:{ unfold members. by rewrite Hqt. }
  rewrite Hqt.
  rewrite (q_getattr_qt st self p m w (meta_methods m)) by done.
  by rewrite Hg.
Qed.

Lemma call_method_c_undefined st self p attr n s args :
  wf st → heap st !! self = Some (OObjectProxy p) →
  attr ∉ members p → c_api p !! attr = Some (n, s) →
  resolve_symbol n = None →
  (∀ m q, qt p = Some (m, q) →
     is_Some (_q_methods st !! m) ∧ attr ∉ meta_methods m) →
  call_method self attr args st =
    (Raise (AttributeError ("Symbol " +:+ n +:+ " is not defined")),
     set_resolutions (λ r, r ++ [n]) st).
Proof.
  intros Hwf Hs Hmem Ha Hr Hq.
  assert (inst_dict p !! attr = None) as Hd.
  { destruct (inst_dict p !! attr) as [v|] eqn:Hd; [|done].
    destruct (wf_dict _ Hwf _ _ _ _ Hs Hd) as (l & -> & Hb).
    destruct Hb as [(m' & q' & Hqt' & Hin' & _)|(n' & s' & a & Ha' & Hr' & _)].
    - by destruct (Hq m' q' Hqt').
    - rewrite Ha in Ha'. injection Ha' as <- <-. by rewrite Hr in Hr'. }
  assert (_c_funcptrs st !! n = None) as Hc.
  { destruct (_c_funcptrs st !! n) as [a|] eqn:Hc; [|done].
    by rewrite (wf_funcptrs _ Hwf _ _ Hc) in Hr. }
  unfold call_method. rewrite bind_unfold.
  rewrite (py_getattr_dispatch st self p) by done.
  assert (_CObjectProxy.__getattr__ self attr st =
            (Raise (AttributeError ("Symbol " +:+ n +:+ " is not defined")),
             set_resolutions (λ r, r ++ [n]) st)) as Hrun
    by (by apply (c_getattr_undefined_symbol st self p attr n s)).
  destruct (qt p) as [[m q]|] eqn:Hqt; [|by rewrite Hrun].
  destruct (Hq m q eq_refl) as [[names Hnames] Hnin].
  rewrite (q_getattr_c_api st self p m q names); try done.
  - by rewrite Hrun.
  - by rewrite (wf_q_methods _ Hwf _ _ Hnames).
Qed.

(** The shape shared by the methods of [MainWindow] that stand for a slot. *)
Lemma slot_method_run st self cls q p m w slot args :
  wf st → heap st !! self = Some (OWrapper cls (Some q)) →
  heap st !! q = Some (OObjectProxy p) → qt p = Some (m, w) →
  slot ∉ q_members →
  let f := (q ← wrapper_q self; call_method q slot args ;; mret VNone) in
  (slot ∈ meta_methods m →
     (f st).1 = Ok VNone
     ∧ trace (f st).2 = trace st ++ [EInvokeMethod m w slot args])
  ∧ (slot ∉ meta_methods m → cls_c_api cls !! slot = None →
     qt_getattr w slot = None →
     f st = (Raise (AttributeError slot), st)).
Proof.
  intros Hwf Hs Hq Hqt Hmem f. subst f.
  destruct (wf_wrapper _ Hwf _ _ _ Hs)
    as (p' & m' & w' & Hq' & Hapi & _ & Hqt' & _ & Hsome).
  rewrite Hq in Hq'. injection Hq' as <-.
  rewrite Hqt in Hqt'. injection Hqt' as <- <-.
  rewrite bind_unfold, (wrapper_q_run st self cls q) by done. split.
  - intros Hin.
    destruct (call_method_q_ok st q p m w slot args)
      as (st' & Hrun & _ & _ & Ht & _); try done.
    rewrite bind_unfold, Hrun. done.
  - intros Hin Ha Hg.
    rewrite bind_unfold, (call_method_missing st q p m w slot args); try done.
    by rewrite Hapi.
Qed.

(** X7: each of the slot methods of [MainWindow] ([newWindow], [newTab],
    ..., [saveAs]) invokes the Qt slot it stands for exactly once on the
    wrapped window and returns [None]; [save] invokes 'saveDatabase', and
    [navigateBack] and [navigateForward] pass [Q_ARG(bool, False)].  When the
    meta-object has no such method and the Qt object no such attribute,
    [AttributeError] is raised and nothing has changed. *)
Theorem MainWindow_methods_invoke_slots (st : State) (self q : loc)
    (p : proxy) (m w : Z) (f : loc → M value) (slot : string)
    (args : list value) :
  wf st → (f, (slot, args)) ∈ MainWindow_slots →
  heap st !! self = Some (OWrapper MainWindow (Some q)) →
  heap st !! q = Some (OObjectProxy p) → qt p = Some (m, w) →
  (slot ∈ meta_methods m →
     (f self st).1 = Ok VNone
     ∧ trace (f self st).2 = trace st ++ [EInvokeMethod m w slot args])
  ∧ (slot ∉ meta_methods m → qt_getattr w slot = None →
     f self st = (Raise (AttributeError slot), st)).
Proof.
  intros Hwf Hf Hs Hq Hqt.
  assert ((slot ∉ q_members) ∧ (cls_c_api MainWindow !! slot = None)
          ∧ f self = (q ← wrapper_q self; call_method q slot args ;; mret VNone))
    as (Hmem & Hapi & ->).
  { unfold MainWindow_slots in Hf.
    repeat (apply elem_of_cons in Hf as [[= -> -> ->] | Hf];
      [split_and!; [by apply not_elem_of_q_members | done | done]|]).
    by apply elem_of_nil in Hf. }
  destruct (slot_method_run st self MainWindow q p m w slot args
              Hwf Hs Hq Hqt Hmem) as [H1 H2].
  split; [done|]. intros Hin Hg. by apply H2.
Qed.

(** What [cls(q)] gives once the meta-object of [q] is known. *)
Lemma wrapper_init_cases cls w m st :
  wf st →
  _q_meta_object_for_class (cls_name cls) = Ok (VSip QMetaObject m) →
  let out := wrapper___init__ cls w st in
  wf out.2 ∧ state_le st out.2 ∧ trace out.2 = trace st
  ∧ (q_metaObject w = m →
       out.1 = Ok (next_loc st)
       ∧ heap out.2 !! next_loc st
         = Some (OWrapper cls (Some (Pos.succ (next_loc st))))
       ∧ heap out.2 !! Pos.succ (next_loc st)
         = Some (OObjectProxy
                   (Proxy (VInt w) (cls_c_api cls) (Some (m, w)) ∅)))
  ∧ (q_metaObject w ≠ m →
       out.1 = Raise (TypeError
                 ("proxy for '" +:+ meta_className m
                  +:+ "' cannot be initialized from a pointer to '"
                  +:+ meta_className (q_metaObject w) +:+ "'"))).
Proof.
  intros Hwf Hm out. subst out.
  destruct (wrapper_init_outcome cls w st Hwf) as (Hwf' & Hle & Ht & _).
  split_and!; try done.
  - intros Heq. symmetry in Heq.
    destruct (wrapper_init_ok cls w m st Hm Heq) as (st' & -> & Hh & _).
    cbn [fst snd]. rewrite Hh, lookup_insert_eq.
    rewrite lookup_insert_ne by lia. by rewrite lookup_insert_eq.
  - intros Hne. apply wrapper_init_mismatch; [done|]. by intros ->.
Qed.

(** X8: [MainWindow.getCurrentView] calls the C method once.  A null result
    ([None] or 0) gives [None]; the address of a widget whose meta-object is
    that of [ViewFrame] gives a new [ViewFrame] wrapper around that widget;
    the address of any other widget raises the [TypeError] of
    [_QObjectProxy.__init__]. *)
Theorem getCurrentView_cases (st : State) (self q : loc) (p : proxy) (a : Z) :
  wf st →
  heap st !! self = Some (OWrapper MainWindow (Some q)) →
  heap st !! q = Some (OObjectProxy p) →
  (∀ m w, qt p = Some (m, w) → "getCurrentView" ∉ meta_methods m) →
  resolve_symbol "_ZN10MainWindow14getCurrentViewEv" = Some a →
  let f := CFunc (CFUNCTYPE (Some c_void_p) [c_void_p]) a in
  let r := foreign_result (trace st) f [c_ptr p] in
  let out := MainWindow.getCurrentView self st in
  trace out.2 = trace st ++ [ECall f [c_ptr p]]
  ∧ (r = VNone ∨ r = VInt 0 → out.1 = Ok VNone)
  ∧ (∀ v m2, r = VInt v → v ≠ 0 →
       _q_meta_object_for_class "ViewFrame" = Ok (VSip QMetaObject m2) →
       (q_metaObject v = m2 →
          ∃ obj proxy, out.1 = Ok (VRef obj)
            ∧ heap out.2 !! obj = Some (OWrapper ViewFrame (Some proxy))
            ∧ heap out.2 !! proxy
              = Some (OObjectProxy
                        (Proxy (VInt v) (cls_c_api ViewFrame) (Some (m2, v)) ∅)))
       ∧ (q_metaObject v ≠ m2 →
            out.1 = Raise (TypeError
                      ("proxy for '" +:+ meta_className m2
                       +:+ "' cannot be initialized from a pointer to '"
                       +:+ meta_className (q_metaObject v) +:+ "'")))).
Proof.
  intros Hwf Hs Hq Hnot Hr f r out. subst out.
  destruct (wf_wrapper _ Hwf _ _ _ Hs)
    as (p' & m & w & Hq' & Hapi & _ & Hqt & _ & Hsome).
  rewrite Hq in Hq'. injection Hq' as <-.
  destruct (call_method_c_ok st q p "getCurrentView"
              "_ZN10MainWindow14getCurrentViewEv"
              (CFUNCTYPE (Some c_void_p) [c_void_p]) a [])
    as (st1 & Hrun1 & Hwf1 & Hle1 & Ht1 & _); try done.
  { unfold members. rewrite Hqt. by apply not_elem_of_q_members. }
  { by rewrite Hapi. }
  { intros m' w' Hqt'. split; [|by eapply Hnot].
    rewrite Hqt in Hqt'. by injection Hqt' as <- <-. }
  fold f r in Hrun1. fold f in Ht1.
  destruct (MainWindow.getCurrentView self st) as [res st'] eqn:Hout.
  cbn [fst snd]. revert Hout. unfold MainWindow.getCurrentView.
  rewrite bind_unfold, (wrapper_q_run st self MainWindow q) by done.
  rewrite bind_unfold, Hrun1. intros Hout.
  split_and!.
  - destruct (py_bool r); [|by injection Hout as <- <-].
    destruct r; try (by injection Hout as <- <-).
    cbv [mbind M_bind mret M_ret wrapinstance_address] in Hout.
    pose proof (wrapper_init_outcome ViewFrame n st1 Hwf1) as (_ & _ & Ht & _).
    destruct (wrapper___init__ ViewFrame n st1) as [[obj|e] st2];
      cbn [fst snd] in *; injection Hout as <- <-; congruence.
  - intros [Hr0 | Hr0]; rewrite Hr0 in Hout; by injection Hout as <- <-.
  - intros v m2 Hrv Hv Hm2. rewrite Hrv in Hout.
    cbv [py_bool] in Hout. rewrite (proj2 (Z.eqb_neq v 0)) in Hout by done.
    cbv [negb mbind M_bind mret M_ret wrapinstance_address] in Hout.
    destruct (wrapper_init_cases ViewFrame v m2 st1 Hwf1 Hm2)
      as (_ & _ & _ & Hok & Hbad).
    destruct (wrapper___init__ ViewFrame v st1) as [res2 st2];
      cbn [fst snd] in *.
    split.
    + intros Heq. destruct (Hok Heq) as (Hres & Ho & Hp). subst res2.
      injection Hout as <- <-.
      by exists (next_loc st1), (Pos.succ (next_loc st1)).
    + intros Hne. rewrite (Hbad Hne) in Hout. by injection Hout as <- <-.
Qed.

(** X9: [getActiveWindow()] calls the static entry point once.  When the
    host returns no window ([None]) it raises [TypeError]; the address,
    other than 0, of a widget whose meta-object is that of [MainWindow] gives
    a new [MainWindow] wrapper around it; the address of any other widget
    raises the [TypeError] of [_QObjectProxy.__init__]. *)
Theorem getActiveWindow_cases (st : State) (a : Z) :
  wf st →
  is_static st MainWindow_getActiveWindow "_ZN10MainWindow15getActiveWindowEv"
    (CFUNCTYPE (Some c_void_p) []) →
  resolve_symbol "_ZN10MainWindow15getActiveWindowEv" = Some a →
  let f := CFunc (CFUNCTYPE (Some c_void_p) []) a in
  let r := foreign_result (trace st) f [] in
  let out := getActiveWindow st in
  trace out.2 = trace st ++ [ECall f []]
  ∧ (r = VNone →
       out.1 = Raise (TypeError "wrapinstance() argument 1 must be int"))
  ∧ (∀ w m1, r = VInt w → w ≠ 0 →
       _q_meta_object_for_class "MainWindow" = Ok (VSip QMetaObject m1) →
       (q_metaObject w = m1 →
          ∃ obj proxy, out.1 = Ok (VRef obj)
            ∧ heap out.2 !! obj = Some (OWrapper MainWindow (Some proxy))
            ∧ heap out.2 !! proxy
              = Some (OObjectProxy
                        (Proxy (VInt w) (cls_c_api MainWindow) (Some (m1, w)) ∅)))
       ∧ (q_metaObject w ≠ m1 →
            out.1 = Raise (TypeError
                      ("proxy for '" +:+ meta_className m1
                       +:+ "' cannot be initialized from a pointer to '"
                       +:+ meta_className (q_metaObject w) +:+ "'")))).
Proof.
  intros Hwf [f0 Hf0] Hr f r out. subst out.
  destruct (static_call_ok st MainWindow_getActiveWindow _ _ f0 a [] Hwf Hf0 Hr)
    as (st1 & Hrun1 & Hwf1 & Hle1 & Ht1 & _).
  fold f r in Hrun1. fold f in Ht1.
  destruct (getActiveWindow st) as [res st'] eqn:Hout.
  cbn [fst snd]. revert Hout.
  unfold getActiveWindow, MainWindow.getActiveWindow, MainWindow.__init__.
  rewrite bind_unfold, Hrun1. intros Hout.
  split_and!.
  - destruct r; try (by injection Hout as <- <-).
    cbv [mbind M_bind mret M_ret wrapinstance_address] in Hout.
    pose proof (wrapper_init_outcome MainWindow n st1 Hwf1) as (_ & _ & Ht & _).
    destruct (wrapper___init__ MainWindow n st1) as [[obj|e] st2];
      cbn [fst snd] in *; injection Hout as <- <-; congruence.
  - intros Hr0. rewrite Hr0 in Hout. by injection Hout as <- <-.
  - intros w m1 Hrw _ Hm1. rewrite Hrw in Hout.
    cbv [mbind M_bind mret M_ret wrapinstance_address] in Hout.
    destruct (wrapper_init_cases MainWindow w m1 st1 Hwf1 Hm1)
      as (_ & _ & _ & Hok & Hbad).
    destruct (wrapper___init__ MainWindow w st1) as [res2 st2];
      cbn [fst snd] in *.
    split.
    + intros Heq. destruct (Hok Heq) as (Hres & Ho & Hp). subst res2.
      injection Hout as <- <-.
      by exists (next_loc st1), (Pos.succ (next_loc st1)).
    + intros Hne. rewrite (Hbad Hne) in Hout. by injection Hout as <- <-.
Qed.

(** A native string is made for [v], a pointer to it is passed to the C
    method [attr] of the wrapped object, and the string is destroyed. *)
Lemma QString_argument_run st self cls q p v attr n s
    a_new a_ctor a_f a_dtor a_del (g : value → value) :
  wf st →
  heap st !! self = Some (OWrapper cls (Some q)) →
  heap st !! q = Some (OObjectProxy p) →
  (∀ m w, qt p = Some (m, w) → attr ∉ meta_methods m) →
  attr ∉ q_members →
  v = VNone ∨ (∃ s, v = VStr s) →
  resolve_symbol "_Znwm" = Some a_new →
  resolve_symbol "_ZN7QStringC2EPKc" = Some a_ctor →
  cls_c_api cls !! attr = Some (n, s) →
  resolve_symbol n = Some a_f →
  resolve_symbol "_ZN7QStringD2Ev" = Some a_dtor →
  resolve_symbol "_ZdlPv" = Some a_del →
  let f_new := CFunc (CFUNCTYPE (Some c_void_p) [c_int]) a_new in
  let f_ctor := CFunc (CFUNCTYPE None [c_void_p; c_char_p]) a_ctor in
  let f := CFunc s a_f in
  let f_dtor := CFunc (CFUNCTYPE None [c_void_p]) a_dtor in
  let f_del := CFunc (CFUNCTYPE None [c_void_p]) a_del in
  let ptr := foreign_result (trace st) f_new [VInt sizeof_void_p] in
  let t1 := trace st ++
              [ECall f_new [VInt sizeof_void_p]; ECall f_ctor [ptr; v]] in
  ∃ st',
    (q_s ← _QString.__init__ v;
     q ← wrapper_q self;
     ptr ← _QString._pointer q_s;
     r ← call_method q attr [ptr];
     release_QString q_s ;;
     mret (g r)) st
    = (Ok (g (foreign_result t1 f [c_ptr p; ptr])), st')
    ∧ trace st' = t1 ++ [ECall f [c_ptr p; ptr];
                         ECall f_dtor [ptr]; ECall f_del [ptr]].
Proof.
  intros Hwf Hself Hq Hnot Hmem Hv Hnew Hctor Hapi Hf Hdtor Hdel. cbn zeta.
  set (ptr := foreign_result (trace st) _ [VInt sizeof_void_p]).
  destruct (wf_wrapper _ Hwf _ _ _ Hself)
    as (p' & m & w & Hq' & Hapi' & Hptr & Hqt & _ & Hsome).
  rewrite Hq in Hq'. injection Hq' as <-.
  assert (Hne : ∀ l cls x, heap st !! l = Some (OWrapper cls x) → l ≠ _new).
  { intros l cls' x Hl ->. destruct (wf_new _ Hwf) as [f0 Hf0].
    rewrite Hf0 in Hl. done. }
  assert (Hne' : q ≠ _new).
  { intros ->. destruct (wf_new _ Hwf) as [f0 Hf0]. rewrite Hf0 in Hq. done. }
  destruct (QString_init_owned st v a_new a_ctor Hwf Hv Hnew Hctor)
    as (st1 & Hrun1 & Hwf1 & Hle1 & Ht1 & Hs1 & (pc & Hc1 & Hpc & Hac & Hqc) & Hu1).
  assert (Hself1 : heap st1 !! self = Some (OWrapper cls (Some q))).
  { rewrite Hu1; [done| |]; by eauto using heap_lt. }
  assert (Hq1 : heap st1 !! q = Some (OObjectProxy p)).
  { rewrite Hu1; [done|done|]. by eauto using heap_lt. }
  destruct (call_method_c_ok st1 q p attr n s a_f [ptr])
    as (st2 & Hrun2 & Hwf2 & Hle2 & Ht2 & _); try done.
  { unfold members. by rewrite Hqt. }
  { by rewrite Hapi'. }
  { intros m' w' Hqt'. split; [|by eapply Hnot].
    rewrite Hqt in Hqt'. injection Hqt' as <- <-.
    destruct Hsome as [x Hx]. exists x.
    by eapply lookup_weaken; [|apply Hle1]. }
  destruct (le_heap _ _ Hle2 _ _ Hs1) as (o2 & Hs2 & Hle).
  destruct o2 as [| | | |b2 c2|]; try done.
  destruct Hle as [[?| ->] [?| ->]]; try done.
  destruct (le_heap _ _ Hle2 _ _ Hc1) as (o2 & Hc2 & Hle).
  destruct o2 as [| | |pc2| |]; try done.
  destruct Hle as (Hpc2 & Hac2 & Hqc2 & _).
  destruct (QString_del_owned st2 _ _ pc2 a_dtor a_del Hwf2 Hs2 Hc2)
    as (st3 & Hrun3 & _ & _ & Ht3); try done; try congruence.
  subst ptr. exists st3. split.
  - rewrite bind_unfold, Hrun1.
    rewrite bind_unfold, (wrapper_q_run st1 self cls q) by done.
    rewrite bind_unfold.
    rewrite (QString_pointer_run st1 _ true _ pc) by done.
    rewrite Hpc. rewrite bind_unfold, Hrun2.
    rewrite bind_unfold. unfold release_QString, try_except.
    rewrite Hrun3. rewrite Ht1. done.
  - rewrite Ht3, Ht2, Ht1, <- Hpc2, Hpc. by rewrite <- !app_assoc.
Qed.

(** The same for a pointer to a native string that exists already: nothing
    is made and nothing is destroyed. *)
Lemma QString_pointer_argument_run st self cls q p ptr attr n s a_f
    (g : value → value) :
  wf st →
  heap st !! self = Some (OWrapper cls (Some q)) →
  heap st !! q = Some (OObjectProxy p) →
  (∀ m w, qt p = Some (m, w) → attr ∉ meta_methods m) →
  attr ∉ q_members →
  cls_c_api cls !! attr = Some (n, s) →
  resolve_symbol n = Some a_f →
  let f := CFunc s a_f in
  ∃ st',
    (q_s ← _QString.__init__ (VCVoidP ptr);
     q ← wrapper_q self;
     ptr ← _QString._pointer q_s;
     r ← call_method q attr [ptr];
     release_QString q_s ;;
     mret (g r)) st
    = (Ok (g (foreign_result (trace st) f [c_ptr p; VCVoidP ptr])), st')
    ∧ trace st' = trace st ++ [ECall f [c_ptr p; VCVoidP ptr]].
Proof.
  intros Hwf Hself Hq Hnot Hmem Hapi Hf. cbn zeta.
  destruct (wf_wrapper _ Hwf _ _ _ Hself)
    as (p' & m & w & Hq' & Hapi' & Hptr & Hqt & _ & Hsome).
  rewrite Hq in Hq'. injection Hq' as <-.
  destruct (QString_init_pointer st ptr Hwf)
    as (st1 & Hrun1 & Hwf1 & Hle1 & Ht1 & Hs1 & Hc1 & _).
  destruct (le_heap _ _ Hle1 _ _ Hself) as (o1 & Hself1 & Hle).
  destruct o1 as [| | | | |cls1 q1]; try done.
  destruct Hle as [<- [?| ->]]; [done|].
  destruct (le_heap _ _ Hle1 _ _ Hq) as (o1 & Hq1 & Hle).
  destruct o1 as [| | |p1| |]; try done.
  destruct Hle as (Hp1 & Ha1 & Hqt1 & _).
  destruct (call_method_c_ok st1 q p1 attr n s a_f [VCVoidP ptr])
    as (st2 & Hrun2 & Hwf2 & Hle2 & Ht2 & Hu2); try done.
  { unfold members. by rewrite <- Hqt1, Hqt. }
  { by rewrite <- Ha1, Hapi'. }
  { intros m' w' Hqt'. rewrite <- Hqt1 in Hqt'. split; [|by eapply Hnot].
    rewrite Hqt in Hqt'. injection Hqt' as <- <-.
    destruct Hsome as [x Hx]. exists x.
    by eapply lookup_weaken; [|apply Hle1]. }
  assert (Hqne : next_loc st ≠ q).
  { apply not_eq_sym. by eapply wf_self_not_fresh. }
  assert (Hs2 : heap st2 !! next_loc st
                = Some (OQString false (Some (Pos.succ (next_loc st))))).
  { rewrite Hu2; [done|done|]. by eapply heap_lt. }
  eexists. split.
  - rewrite bind_unfold, Hrun1.
    rewrite bind_unfold, (wrapper_q_run st1 self cls q) by done.
    rewrite bind_unfold.
    rewrite (QString_pointer_run st1 _ false _ _ Hs1 Hc1). simpl c_ptr.
    rewrite bind_unfold, Hrun2.
    rewrite bind_unfold. unfold release_QString, try_except, _QString.__del__.
    rewrite bind_unfold. unfold deref at 1. rewrite Hs2.
    cbv [mret M_ret mbind M_bind]. rewrite Ht1, <- Hp1. done.
  - by rewrite Ht2, Ht1, <- Hp1.
Qed.

Lemma on_main_thread_ok {A} (func : M A) st a st' :
  func st = (Ok a, st') → on_main_thread func st = (Ok a, st').
Proof. intros Hf. unfold on_main_thread. by rewrite Hf. Qed.

Lemma on_main_thread_raise {A} (func : M A) st e st' :
  func st = (Raise e, st') →
  on_main_thread func st
  = (Raise e, set_trace (λ t, t ++ [ELogError; EPrintStderr]) st').
Proof. intros Hf. unfold on_main_thread. by rewrite Hf. Qed.

(** X10: [MainWindow.openFilename] returns [None] whatever the C function
    returns.  For [None] or a [str] it allocates and constructs a native
    string, passes a pointer to it, then destroys and frees it; a [c_void_p]
    is passed on as it is, with no allocation; any other value raises
    [TypeError], which is logged, and no foreign function is called. *)
Theorem openFilename_cases (st : State) (self q : loc) (p : proxy)
    (a_new a_ctor a_open a_dtor a_del : Z) :
  wf st →
  heap st !! self = Some (OWrapper MainWindow (Some q)) →
  heap st !! q = Some (OObjectProxy p) →
  (∀ m w, qt p = Some (m, w) → "openFilename" ∉ meta_methods m) →
  resolve_symbol "_Znwm" = Some a_new →
  resolve_symbol "_ZN7QStringC2EPKc" = Some a_ctor →
  resolve_symbol "_ZN10MainWindow12openFilenameERK7QString" = Some a_open →
  resolve_symbol "_ZN7QStringD2Ev" = Some a_dtor →
  resolve_symbol "_ZdlPv" = Some a_del →
  let f_new := CFunc (CFUNCTYPE (Some c_void_p) [c_int]) a_new in
  let f_ctor := CFunc (CFUNCTYPE None [c_void_p; c_char_p]) a_ctor in
  let f_open := CFunc (CFUNCTYPE (Some c_int) [c_void_p; c_void_p]) a_open in
  let f_dtor := CFunc (CFUNCTYPE None [c_void_p]) a_dtor in
  let f_del := CFunc (CFUNCTYPE None [c_void_p]) a_del in
  let ptr := foreign_result (trace st) f_new [VInt sizeof_void_p] in
  (∀ v, v = VNone ∨ (∃ s, v = VStr s) →
     (MainWindow.openFilename self v st).1 = Ok VNone
     ∧ trace (MainWindow.openFilename self v st).2 =
         trace st ++
           [ECall f_new [VInt sizeof_void_p]; ECall f_ctor [ptr; v];
            ECall f_open [c_ptr p; ptr];
            ECall f_dtor [ptr]; ECall f_del [ptr]])
  ∧ (∀ s_ptr,
       (MainWindow.openFilename self (VCVoidP s_ptr) st).1 = Ok VNone
       ∧ trace (MainWindow.openFilename self (VCVoidP s_ptr) st).2 =
           trace st ++ [ECall f_open [c_ptr p; VCVoidP s_ptr]])
  ∧ (∀ v,
       match v with
       | VCVoidP _ | VNone | VStr _ => True
       | _ =>
           (MainWindow.openFilename self v st).1 =
             Raise (TypeError
               "QString can only be initialized with None, str, or a pointer")
           ∧ trace (MainWindow.openFilename self v st).2 =
               trace st ++ [ELogError; EPrintStderr]
       end).
Proof.
  intros Hwf Hs Hq Hnot Hnew Hctor Hopen Hdtor Hdel. cbn zeta.
  assert (Hmem : "openFilename" ∉ q_members)
    by (by apply not_elem_of_q_members).
  split_and!.
  - intros v Hv.
    destruct (QString_argument_run st self MainWindow q p v "openFilename"
                _ _ a_new a_ctor a_open a_dtor a_del (λ _, VNone)
                Hwf Hs Hq Hnot Hmem Hv Hnew Hctor eq_refl Hopen Hdtor Hdel)
      as (st' & Hrun & Ht).
    unfold MainWindow.openFilename.
    rewrite (on_main_thread_ok _ _ _ _ Hrun). cbn [fst snd].
    rewrite Ht. by rewrite <- app_assoc.
  - intros s_ptr.
    destruct (QString_pointer_argument_run st self MainWindow q p s_ptr
                "openFilename" _ _ a_open (λ _, VNone)
                Hwf Hs Hq Hnot Hmem eq_refl Hopen)
      as (st' & Hrun & Ht).
    unfold MainWindow.openFilename.
    by rewrite (on_main_thread_ok _ _ _ _ Hrun).
  - intros v. pose proof (QString_init_other st v) as Hv.
    destruct v; try done;
      unfold MainWindow.openFilename;
      (erewrite on_main_thread_raise; [|by rewrite bind_unfold, Hv]); done.
Qed.

(** X11: [ViewFrame.back] and [ViewFrame.forward] call the C method of that
    name on the wrapped frame and return [None]; when its symbol is not
    defined the [AttributeError] is logged and raised again, and no foreign
    function is called. *)
Theorem ViewFrame_back_forward (st : State) (self q : loc) (p : proxy)
    (f : loc → M value) (attr n : string) :
  wf st →
  (f, attr, n) ∈ [(ViewFrame.back, "back", "_ZN9ViewFrame4backEv");
                  (ViewFrame.forward, "forward", "_ZN9ViewFrame7forwardEv")] →
  heap st !! self = Some (OWrapper ViewFrame (Some q)) →
  heap st !! q = Some (OObjectProxy p) →
  (∀ m w, qt p = Some (m, w) → attr ∉ meta_methods m) →
  (∀ a, resolve_symbol n = Some a →
     (f self st).1 = Ok VNone
     ∧ trace (f self st).2 =
         trace st ++ [ECall (CFunc (CFUNCTYPE None [c_void_p]) a) [c_ptr p]])
  ∧ (resolve_symbol n = None →
       (f self st).1 =
         Raise (AttributeError ("Symbol " +:+ n +:+ " is not defined"))
       ∧ trace (f self st).2 = trace st ++ [ELogError; EPrintStderr]).
Proof.
  intros Hwf Hf Hs Hq Hnot.
  destruct (wf_wrapper _ Hwf _ _ _ Hs)
    as (p' & m & w & Hq' & Hapi & _ & Hqt & _ & Hsome).
  rewrite Hq in Hq'. injection Hq' as <-.
  assert ((attr ∉ members p)
          ∧ c_api p !! attr = Some (n, CFUNCTYPE None [c_void_p])
          ∧ f self = on_main_thread
                       (q ← wrapper_q self; call_method q attr [] ;; mret VNone))
    as (Hmem & Ha & ->).
  { unfold members. rewrite Hqt, Hapi.
    repeat (apply elem_of_cons in Hf as [[= -> -> ->] | Hf];
      [split_and!; [by apply not_elem_of_q_members | done | done]|]).
    by apply elem_of_nil in Hf. }
  assert (Hqm : ∀ m' w', qt p = Some (m', w') →
            is_Some (_q_methods st !! m') ∧ attr ∉ meta_methods m').
  { intros m' w' Hqt'. split; [|by eapply Hnot].
    rewrite Hqt in Hqt'. by injection Hqt' as <- <-. }
  split.
  - intros a Hr.
    destruct (call_method_c_ok st q p attr n _ a [] Hwf Hq Hmem Ha Hr Hqm)
      as (st1 & Hrun1 & _ & _ & Ht1 & _).
    erewrite on_main_thread_ok; [done|].
    rewrite bind_unfold, (wrapper_q_run st self ViewFrame q) by done.
    by rewrite bind_unfold, Hrun1.
  - intros Hr.
    pose proof (call_method_c_undefined st q p attr n _ [] Hwf Hq Hmem Ha Hr Hqm)
      as Hrun1.
    erewrite on_main_thread_raise; [|
      rewrite bind_unfold, (wrapper_q_run st self ViewFrame q) by done;
      by rewrite bind_unfold, Hrun1].
    done.
Qed.


Lemma list_remove_None x l : list_remove x l = None ↔ x ∉ l.
Proof.
  induction l as [|y l IH]; simpl.
  - split; [intros _; apply not_elem_of_nil | done].
  - case_decide as Hy.
    + subst y. split; [done|]. intros Hn. destruct Hn. by left.
    + rewrite not_elem_of_cons. destruct (list_remove x l) as [l'|]; simpl.
      * split; [done|]. intros [_ Hn]. by apply IH in Hn.
      * split; [|done]. intros _. split; [by intros ->|]. by apply IH.
Qed.

Lemma list_remove_first x l1 l2 :
  x ∉ l1 → list_remove x (l1 ++ x :: l2) = Some (l1 ++ l2).
Proof.
  induction l1 as [|y l1 IH]; simpl; intros Hn.
  - by rewrite decide_True.
  - apply not_elem_of_cons in Hn as [Hne Hn].
    rewrite decide_False by done. by rewrite IH.
Qed.

(** X13: [addInitCallback] appends to the list of callbacks of its class and
    [removeInitCallback] removes the first occurrence: removing a callback
    that is not registered fails (the [ValueError] of [list.remove]),
    registering a new callback and removing it gives back the state before,
    and the two classes have separate lists. *)
Theorem init_callbacks_add_remove (cls : wrapper_class)
    (add : value → M value) (remove : value → State → option State)
    (st : State) (fn : value) :
  (cls, add, remove) ∈
    [(MainWindow, MainWindow.addInitCallback, MainWindow.removeInitCallback);
     (ViewFrame, ViewFrame.addInitCallback, ViewFrame.removeInitCallback)] →
  init_callbacks cls (add fn st).2 = init_callbacks cls st ++ [fn]
  ∧ (∀ cls', cls' ≠ cls →
       init_callbacks cls' (add fn st).2 = init_callbacks cls' st)
  ∧ (fn ∉ init_callbacks cls st ↔ remove fn st = None)
  ∧ (fn ∉ init_callbacks cls st → remove fn (add fn st).2 = Some st)
  ∧ (∀ l1 l2, init_callbacks cls st = l1 ++ fn :: l2 → fn ∉ l1 →
       ∃ st', remove fn st = Some st'
         ∧ init_callbacks cls st' = l1 ++ l2
         ∧ st' = set_init_callbacks cls (λ _, l1 ++ l2) st).
Proof.
  intros Hin.
  assert (cls = MainWindow ∨ cls = ViewFrame) as Hcls.
  { repeat (apply elem_of_cons in Hin as [[= -> _ _] | Hin]; [by auto|]).
    by apply elem_of_nil in Hin. }
  assert (add = (λ fn, modify (set_init_callbacks cls (λ l, l ++ [fn])) ;;
                       mret VNone)
          ∧ remove = (λ fn st,
                 l ← list_remove fn (init_callbacks cls st);
                 Some (set_init_callbacks cls (λ _, l) st))) as [-> ->].
  { repeat (apply elem_of_cons in Hin as [[= -> -> ->] | Hin]; [done|]).
    by apply elem_of_nil in Hin. }
  clear Hin.
  assert (Hadd : init_callbacks cls (set_init_callbacks cls (λ l, l ++ [fn]) st)
                 = init_callbacks cls st ++ [fn])
    by (by destruct Hcls as [-> | ->]).
  split_and!.
  - done.
  - intros cls' Hne. by destruct Hcls as [-> | ->]; destruct cls'.
  - cbv beta.
    destruct (list_remove fn (init_callbacks cls st)) as [l|] eqn:Hl; simpl.
    + split; [|done]. intros Hn. apply list_remove_None in Hn. congruence.
    + split; [done|]. intros _. by apply list_remove_None.
  - intros Hn. cbn [snd mbind M_bind modify mret M_ret]. simpl snd.
    rewrite Hadd.
    pose proof (list_remove_first fn (init_callbacks cls st) [] Hn) as Hrm.
    rewrite app_nil_r in Hrm. rewrite Hrm. simpl. f_equal.
    destruct Hcls as [-> | ->]; by destruct st.
  - intros l1 l2 Hl Hn. rewrite Hl.
    rewrite (list_remove_first fn l1 l2 Hn). simpl.
    eexists. split; [done|]. split; [|done].
    by destruct Hcls as [-> | ->].
Qed.














Lemma for_return_first {A B} (P : A → Prop) (body : A → M (option B))
    (xs : list A) st :
  (∀ x, x ∈ xs → P x ∨ ¬ P x) →
  (∀ x, x ∈ xs → ¬ P x → body x st = (Ok None, st)) →
  (Forall (λ x, ¬ P x) xs ∧ for_return xs body st = (Ok None, st))
  ∨ ∃ l1 x l2, xs = l1 ++ x :: l2 ∧ Forall (λ y, ¬ P y) l1 ∧ P x
      ∧ for_return xs body st =
          (r ← body x;
           match r with
           | Some v => mret (Some v)
           | None => for_return l2 body
           end) st.
Proof.
  induction xs as [|x xs IH]; intros Hdec Hskip.
  - left. by split.
  - destruct (Hdec x) as [HP|HP]; [by left| |].
    + right. exists [], x, xs. by split_and!.
    + destruct IH as [[Hall Hrun]|(l1 & y & l2 & -> & Hall & HPy & Hrun)].
      * intros y Hy. apply Hdec. by right.
      * intros y Hy. apply Hskip. by right.
      * left. split; [by constructor|].
        cbn [for_return]. rewrite bind_unfold, Hskip; [done|by left|done].
      * right. exists (x :: l1), y, l2. split_and!; try done.
        -- by constructor.
        -- cbn [for_return app]. rewrite bind_unfold, Hskip; [|by left|done].
           done.
Qed.

Lemma class_meta_inj cls m m' : class_meta cls m → class_meta cls m' → m = m'.
Proof. unfold class_meta. intros -> [= ->]. done. Qed.

Lemma cls_q_meta_object_run cls m st :
  class_meta cls m → cls_q_meta_object cls st = (Ok m, st).
Proof.
  intros Hm. destruct (cls_q_meta_object_spec cls st) as [Hst Hr].
  apply Hr in Hm. destruct (cls_q_meta_object cls st) as [r st'].
  simpl in *. by subst.
Qed.

(** Making the wrapper of class [cls] for a widget of that class. *)
Lemma wrapper_init_instance cls w st :
  wf st → class_meta cls (q_metaObject w) →
  ∃ st', wrapper___init__ cls w st = (Ok (next_loc st), st')
    ∧ wf st' ∧ state_le st st' ∧ trace st' = trace st
    ∧ heap st' !! next_loc st
      = Some (OWrapper cls (Some (Pos.succ (next_loc st))))
    ∧ heap st' !! Pos.succ (next_loc st)
      = Some (OObjectProxy
                (Proxy (VInt w) (cls_c_api cls) (Some (q_metaObject w, w)) ∅)).
Proof.
  intros Hwf Hm.
  destruct (wrapper_init_cases cls w _ st Hwf Hm) as (? & ? & ? & Hok & _).
  destruct (Hok eq_refl) as (Hr & ? & ?).
  destruct (wrapper___init__ cls w st) as [r st']. cbn [fst snd] in *.
  subst r. by exists st'.
Qed.

(** The test that [getInfoPanel] and [getViewFromWidget] make before they
    construct a wrapper. *)
Lemma instance_test_run cls w m st :
  wf st → class_meta cls m →
  let test :=
    (q_meta_object ← cls_q_meta_object cls;
     if decide (q_metaObject w = q_meta_object)
     then obj ← wrapper___init__ cls w; mret (Some (VRef obj))
     else mret None) in
  (q_metaObject w ≠ m → test st = (Ok None, st))
  ∧ (q_metaObject w = m →
     test st = (Ok (Some (VRef (next_loc st))), (wrapper___init__ cls w st).2)).
Proof.
  intros Hwf Hm test. subst test.
  rewrite bind_unfold, (cls_q_meta_object_run cls m st Hm). split.
  - intros Hne. by rewrite decide_False.
  - intros Heq. rewrite decide_True by done. subst m.
    destruct (wrapper_init_instance cls w st Hwf Hm) as (st' & Hrun & _).
    by rewrite bind_unfold, Hrun.
Qed.

Lemma all_children_run st q p m w :
  heap st !! q = Some (OObjectProxy p) → qt p = Some (m, w) →
  _QObjectProxy._all_children q st =
    (Ok (_QObjectProxy.find_all
           (QObjectTree w (q_children (trace st) w))), st).
Proof.
  intros Hq Hqt. unfold _QObjectProxy._all_children. munfold.
  rewrite Hq. simpl. by rewrite Hqt.
Qed.

(** The loop of [getViewFromWidget]: the first class whose meta-object is
    that of the widget is instantiated. *)
Lemma view_class_loop st w :
  wf st → imported →
  ((∀ cls, cls ∈ View___subclasses__ → ¬ class_meta cls (q_metaObject w))
   ∧ View_getViewFromWidget w st = (Ok VNone, st))
  ∨ ∃ l1 cls l2, View___subclasses__ = l1 ++ cls :: l2
      ∧ (∀ c, c ∈ l1 → ¬ class_meta c (q_metaObject w))
      ∧ class_meta cls (q_metaObject w)
      ∧ View_getViewFromWidget w st
        = (Ok (VRef (next_loc st)), (wrapper___init__ cls w st).2).
Proof.
  intros Hwf Himp.
  unfold View_getViewFromWidget.
  rewrite bind_unfold.
  match goal with |- context [for_return _ ?b st] => set (body := b) end.
  assert (Hdec : ∀ cls, cls ∈ View___subclasses__ →
            class_meta cls (q_metaObject w) ∨ ¬ class_meta cls (q_metaObject w)).
  { intros cls _. destruct (Himp cls) as [m Hm].
    destruct (decide (q_metaObject w = m)) as [<- | Hne]; [by left|].
    right. intros Hm'. by destruct (class_meta_inj _ _ _ Hm Hm'). }
  assert (Hskip : ∀ cls, cls ∈ View___subclasses__ →
            ¬ class_meta cls (q_metaObject w) → body cls st = (Ok None, st)).
  { intros cls _ Hno. destruct (Himp cls) as [m Hm].
    apply (instance_test_run cls w m st Hwf Hm). by intros <-. }
  destruct (for_return_first (λ cls, class_meta cls (q_metaObject w)) body
              View___subclasses__ st Hdec Hskip)
    as [[Hall Hrun]|(l1 & cls & l2 & Hl & Hall & Hm & Hrun)].
  - left. rewrite Hrun. split; [|done].
    intros cls Hcls. by apply (proj1 (Forall_forall _ _) Hall).
  - right. exists l1, cls, l2. rewrite Hrun.
    destruct (instance_test_run cls w _ st Hwf Hm) as [_ Hyes].
    specialize (Hyes eq_refl). fold (body cls) in Hyes.
    rewrite bind_unfold, Hyes. split_and!; try done.
    intros c Hc. by apply (proj1 (Forall_forall _ _) Hall).
Qed.

(** X17: [View.getViewFromWidget] never raises once the module is imported:
    it returns [None], and changes nothing, when the widget's meta-object is
    that of no view class, and otherwise a new wrapper of the first view
    class, in the order of definition, whose meta-object it is. *)
Theorem getViewFromWidget_first_match (st : State) (w : Z) :
  wf st → imported →
  let out := View.getViewFromWidget w st in
  ((∀ cls, cls ∈ View___subclasses__ → ¬ class_meta cls (q_metaObject w))
   ∧ out = (Ok VNone, st))
  ∨ ∃ l1 cls l2, View___subclasses__ = l1 ++ cls :: l2
      ∧ (∀ c, c ∈ l1 → ¬ class_meta c (q_metaObject w))
      ∧ class_meta cls (q_metaObject w)
      ∧ out.1 = Ok (VRef (next_loc st))
      ∧ wf out.2 ∧ trace out.2 = trace st
      ∧ heap out.2 !! next_loc st
        = Some (OWrapper cls (Some (Pos.succ (next_loc st))))
      ∧ heap out.2 !! Pos.succ (next_loc st)
        = Some (OObjectProxy
                  (Proxy (VInt w) (cls_c_api cls)
                     (Some (q_metaObject w, w)) ∅)).
Proof.
  intros Hwf Himp out. subst out. unfold View.getViewFromWidget.
  destruct (view_class_loop st w Hwf Himp)
    as [[Hall Hrun]|(l1 & cls & l2 & Hl & Hall & Hm & Hrun)].
  - left. by rewrite Hrun.
  - right. exists l1, cls, l2. rewrite Hrun.
    destruct (wrapper_init_instance cls w st Hwf Hm)
      as (st' & -> & Hwf' & _ & Ht & Ho & Hp).
    by split_and!.
Qed.

(** X18: [ViewFrame.getInfoPanel] returns [None], and changes nothing, when
    no descendant of the frame has the meta-object of [InfoPanel]; otherwise
    it returns a new [InfoPanel] wrapper around the first such descendant in
    the order of [_all_children] (every child before its own children, and
    those before its next sibling), and the constructor's [TypeError] cannot
    occur. *)
Theorem getInfoPanel_first_match (st : State) (self q : loc) (p : proxy)
    (mq w m : Z) :
  wf st →
  heap st !! self = Some (OWrapper ViewFrame (Some q)) →
  heap st !! q = Some (OObjectProxy p) → qt p = Some (mq, w) →
  class_meta InfoPanel m →
  let children :=
    _QObjectProxy.find_all (QObjectTree w (q_children (trace st) w)) in
  let out := ViewFrame.getInfoPanel self st in
  ((∀ c, c ∈ children → q_metaObject c ≠ m) ∧ out = (Ok VNone, st))
  ∨ ∃ l1 c l2, children = l1 ++ c :: l2
      ∧ (∀ x, x ∈ l1 → q_metaObject x ≠ m)
      ∧ q_metaObject c = m
      ∧ out.1 = Ok (VRef (next_loc st))
      ∧ wf out.2 ∧ trace out.2 = trace st
      ∧ heap out.2 !! next_loc st
        = Some (OWrapper InfoPanel (Some (Pos.succ (next_loc st))))
      ∧ heap out.2 !! Pos.succ (next_loc st)
        = Some (OObjectProxy (Proxy (VInt c) ∅ (Some (m, c)) ∅)).
Proof.
  intros Hwf Hs Hq Hqt Hm children out. subst out.
  unfold ViewFrame.getInfoPanel.
  rewrite bind_unfold, (wrapper_q_run st self ViewFrame q) by done.
  rewrite bind_unfold, (all_children_run st q p mq w) by done.
  fold children. rewrite bind_unfold.
  match goal with |- context [for_return _ ?b st] => set (body := b) end.
  assert (Hdec : ∀ c, c ∈ children → q_metaObject c = m ∨ q_metaObject c ≠ m).
  { intros c _. destruct (decide (q_metaObject c = m)); auto. }
  assert (Hskip : ∀ c, c ∈ children → q_metaObject c ≠ m →
            body c st = (Ok None, st)).
  { intros c _ Hno. by apply (instance_test_run InfoPanel c m st Hwf Hm). }
  destruct (for_return_first (λ c, q_metaObject c = m) body children st
              Hdec Hskip)
    as [[Hall Hrun]|(l1 & c & l2 & Hl & Hall & Hc & Hrun)].
  - left. rewrite Hrun. split; [|done].
    intros c Hin. by apply (proj1 (Forall_forall _ _) Hall).
  - right. exists l1, c, l2. rewrite Hrun.
    destruct (instance_test_run InfoPanel c m st Hwf Hm) as [_ Hyes].
    specialize (Hyes Hc). fold (body c) in Hyes.
    rewrite bind_unfold, Hyes.
    subst m.
    destruct (wrapper_init_instance InfoPanel c st Hwf Hm)
      as (st' & -> & Hwf' & _ & Ht & Ho & Hp).
    cbv [mbind M_bind mret M_ret default fst snd]. split_and!; try done.
    intros x Hx. by apply (proj1 (Forall_forall _ _) Hall).
Qed.

(** X19: [InfoPanel.getTabWidget] returns the first descendant of the panel
    whose meta-object is [QTabWidget.staticMetaObject], and [None] when there
    is none; it changes nothing. *)
Theorem getTabWidget_first_match (st : State) (self q : loc) (p : proxy)
    (mq w : Z) :
  heap st !! self = Some (OWrapper InfoPanel (Some q)) →
  heap st !! q = Some (OObjectProxy p) → qt p = Some (mq, w) →
  let children :=
    _QObjectProxy.find_all (QObjectTree w (q_children (trace st) w)) in
  let out := InfoPanel.getTabWidget self st in
  ((∀ c, c ∈ children → q_metaObject c ≠ QTabWidget_staticMetaObject)
   ∧ out = (Ok None, st))
  ∨ ∃ l1 c l2, children = l1 ++ c :: l2
      ∧ (∀ x, x ∈ l1 → q_metaObject x ≠ QTabWidget_staticMetaObject)
      ∧ q_metaObject c = QTabWidget_staticMetaObject
      ∧ out = (Ok (Some c), st).
Proof.
  intros Hs Hq Hqt children out. subst out.
  unfold InfoPanel.getTabWidget.
  rewrite bind_unfold, (wrapper_q_run st self InfoPanel q) by done.
  rewrite bind_unfold, (all_children_run st q p mq w) by done.
  fold children.
  match goal with |- context [for_return _ ?b st] => set (body := b) end.
  assert (Hdec : ∀ c, c ∈ children →
            q_metaObject c = QTabWidget_staticMetaObject
            ∨ q_metaObject c ≠ QTabWidget_staticMetaObject).
  { intros c _.
    destruct (decide (q_metaObject c = QTabWidget_staticMetaObject)); auto. }
  assert (Hskip : ∀ c, c ∈ children →
            q_metaObject c ≠ QTabWidget_staticMetaObject →
            body c st = (Ok None, st)).
  { intros c _ Hno. unfold body. by rewrite decide_False. }
  destruct (for_return_first
              (λ c, q_metaObject c = QTabWidget_staticMetaObject)
              body children st Hdec Hskip)
    as [[Hall Hrun]|(l1 & c & l2 & Hl & Hall & Hc & Hrun)].
  - left. rewrite Hrun. split; [|done].
    intros c Hin. by apply (proj1 (Forall_forall _ _) Hall).
  - right. exists l1, c, l2. rewrite Hrun.
    assert (body c st = (Ok (Some c), st)) as Hbody.
    { unfold body. by rewrite decide_True. }
    rewrite bind_unfold, Hbody.
    split_and!; try done.
    intros x Hx. by apply (proj1 (Forall_forall _ _) Hall).
Qed.

(** X20: [ViewFrame.getView] returns [None], and changes nothing, when no
    descendant of the frame is a visible widget of a view class; otherwise
    it returns a new wrapper, of the matching view class, around the first
    such descendant. *)
Theorem getView_first_visible_view (st : State) (self q : loc) (p : proxy)
    (mq w : Z) :
  wf st → imported →
  heap st !! self = Some (OWrapper ViewFrame (Some q)) →
  heap st !! q = Some (OObjectProxy p) → qt p = Some (mq, w) →
  let children :=
    _QObjectProxy.find_all (QObjectTree w (q_children (trace st) w)) in
  let shown c :=
    q_isWidget c = true ∧ q_isVisible (trace st) c = true ∧ is_view c in
  let out := ViewFrame.getView self st in
  ((∀ c, c ∈ children → ¬ shown c) ∧ out = (Ok VNone, st))
  ∨ ∃ l1 c l2 cls, children = l1 ++ c :: l2
      ∧ (∀ x, x ∈ l1 → ¬ shown x) ∧ shown c
      ∧ cls ∈ View___subclasses__ ∧ class_meta cls (q_metaObject c)
      ∧ out.1 = Ok (VRef (next_loc st))
      ∧ wf out.2 ∧ trace out.2 = trace st
      ∧ heap out.2 !! next_loc st
        = Some (OWrapper cls (Some (Pos.succ (next_loc st))))
      ∧ heap out.2 !! Pos.succ (next_loc st)
        = Some (OObjectProxy
                  (Proxy (VInt c) (cls_c_api cls)
                     (Some (q_metaObject c, c)) ∅)).
Proof.
  intros Hwf Himp Hs Hq Hqt children shown out. subst out.
  unfold ViewFrame.getView.
  rewrite bind_unfold, (wrapper_q_run st self ViewFrame q) by done.
  rewrite bind_unfold, (all_children_run st q p mq w) by done.
  fold children. rewrite bind_unfold.
  match goal with |- context [for_return _ ?b st] => set (body := b) end.
  assert (Hview : ∀ c, is_view c ∨ ¬ is_view c).
  { intros c. destruct (view_class_loop st c Hwf Himp)
      as [[Hall _]|(l1 & cls & l2 & Hl & _ & Hm & _)].
    - right. intros (cls & Hin & Hm). by apply (Hall cls).
    - left. exists cls. split; [|done]. rewrite Hl.
      apply elem_of_app. right. by left. }
  assert (Hdec : ∀ c, c ∈ children → shown c ∨ ¬ shown c).
  { intros c _. unfold shown.
    destruct (q_isWidget c); [|right; by intros [? _]].
    destruct (q_isVisible (trace st) c); [|right; by intros (_ & ? & _)].
    destruct (Hview c) as [Hv|Hv]; [by left|]. right. by intros (_ & _ & ?). }
  assert (Hskip : ∀ c, c ∈ children → ¬ shown c → body c st = (Ok None, st)).
  { intros c _ Hno. unfold body, shown in *. rewrite bind_unfold.
    unfold get_state at 1. cbn [fst snd].
    destruct (q_isWidget c); [|done].
    destruct (q_isVisible (trace st) c); [|done]. simpl.
    destruct (view_class_loop st c Hwf Himp)
      as [[_ Hrun]|(l1 & cls & l2 & Hl & _ & Hm & _)].
    - by rewrite bind_unfold, Hrun.
    - destruct Hno. split_and!; try done. exists cls. split; [|done].
      rewrite Hl. apply elem_of_app. right. by left. }
  destruct (for_return_first shown body children st Hdec Hskip)
    as [[Hall Hrun]|(l1 & c & l2 & Hl & Hall & Hc & Hrun)].
  - left. rewrite Hrun. split; [|done].
    intros c Hin. by apply (proj1 (Forall_forall _ _) Hall).
  - right. destruct Hc as (Hw & Hv & Hview_c).
    destruct (view_class_loop st c Hwf Himp)
      as [[Hnone _]|(k1 & cls & k2 & Hk & _ & Hm & Hrunc)].
    { destruct Hview_c as (cls & Hin & Hm). by destruct (Hnone cls). }
    assert (body c st
            = (Ok (Some (VRef (next_loc st))), (wrapper___init__ cls c st).2))
      as Hbody.
    { unfold body. rewrite bind_unfold. unfold get_state at 1. cbn [fst snd].
      rewrite Hw, Hv. simpl. by rewrite bind_unfold, Hrunc. }
    exists l1, c, l2, cls. rewrite Hrun, bind_unfold, Hbody.
    destruct (wrapper_init_instance cls c st Hwf Hm)
      as (st' & -> & Hwf' & _ & Ht & Ho & Hp).
    cbv [mbind M_bind mret M_ret default fst snd]. split_and!; try done.
    + intros x Hx. by apply (proj1 (Forall_forall _ _) Hall).
    + rewrite Hk. apply elem_of_app. right. by left.
Qed.

Lemma from_bn_smart_ptr_first st pv ty new_ref b :
  resolve_symbol new_ref = Some b →
  _bn_new_ref_fns st !! new_ref = None →
  let sig := CFUNCTYPE (Some c_void_p) [c_void_p] in
  let f := CFunc sig b in
  let c_object := VCVoidP (read_pointer (trace st) (pv + sizeof_void_p * 2)) in
  (_from_bn_smart_ptr (VInt pv) ty new_ref st).2 =
    set_trace (λ t, t ++ [ECall f [c_object]])
      (set_heap <[next_loc st := OCStaticMethodProxy new_ref sig (Some f)]>
         (set_resolutions (λ r, r ++ [new_ref])
            (set_bn_new_ref_fns <[new_ref := next_loc st]>
               (set_next_loc (Pos.succ (next_loc st))
                  (set_heap <[next_loc st :=
                                OCStaticMethodProxy new_ref sig None]> st))))).
Proof.
  intros Hr Hnone. cbn zeta.
  unfold _from_bn_smart_ptr, _CStaticMethodProxy.__init__, py_call,
    _CStaticMethodProxy.__call__, c_cast_c_void_p, c_sizeof_c_void_p.
  munfold. simpl.
  rewrite decide_False by (rewrite Hnone; by intros [? ?]).
  repeat first [rewrite lookup_insert_eq | rewrite Hr | progress simpl].
  by destruct (foreign_result _ _ _).
Qed.

Lemma from_bn_smart_ptr_again st pv ty new_ref l f :
  _bn_new_ref_fns st !! new_ref = Some l →
  heap st !! l
    = Some (OCStaticMethodProxy new_ref (CFUNCTYPE (Some c_void_p) [c_void_p])
              (Some f)) →
  let c_object := VCVoidP (read_pointer (trace st) (pv + sizeof_void_p * 2)) in
  (_from_bn_smart_ptr (VInt pv) ty new_ref st).2
  = set_trace (λ t, t ++ [ECall f [c_object]]) st.
Proof.
  intros Hl Hf. cbn zeta.
  unfold _from_bn_smart_ptr, py_call,
    _CStaticMethodProxy.__call__, c_cast_c_void_p, c_sizeof_c_void_p.
  munfold. simpl.
  rewrite decide_True by (by rewrite Hl).
  repeat first [rewrite Hl | rewrite Hf | progress simpl].
  by destruct (foreign_result _ _ _).
Qed.

(** X21: [_from_bn_smart_ptr] keeps one static proxy for each reference
    function in [_bn_new_ref_fns].  The first call for a name makes the
    proxy, binds it and calls it on the object pointer read two pointer sizes
    into the smart pointer; the next call reuses the proxy: nothing is
    allocated and the symbol is not resolved again.  A pointer that is not
    an integer (such as the [None] of a null result) raises [TypeError]
    before any foreign call. *)
Theorem new_ref_proxy_is_reused (st : State) (ty : bn_ctype)
    (new_ref : string) (b pv1 pv2 : Z) :
  resolve_symbol new_ref = Some b →
  _bn_new_ref_fns st !! new_ref = None →
  let sig := CFUNCTYPE (Some c_void_p) [c_void_p] in
  let f := CFunc sig b in
  let st1 := (_from_bn_smart_ptr (VInt pv1) ty new_ref st).2 in
  let st2 := (_from_bn_smart_ptr (VInt pv2) ty new_ref st1).2 in
  let c1 := VCVoidP (read_pointer (trace st) (pv1 + sizeof_void_p * 2)) in
  let c2 := VCVoidP (read_pointer (trace st1) (pv2 + sizeof_void_p * 2)) in
  (_bn_new_ref_fns st1 = <[new_ref := next_loc st]> (_bn_new_ref_fns st)
   ∧ heap st1 !! next_loc st = Some (OCStaticMethodProxy new_ref sig (Some f))
   ∧ next_loc st1 = Pos.succ (next_loc st)
   ∧ resolutions st1 = resolutions st ++ [new_ref]
   ∧ trace st1 = trace st ++ [ECall f [c1]])
  ∧ (_bn_new_ref_fns st2 = _bn_new_ref_fns st1
     ∧ heap st2 = heap st1
     ∧ next_loc st2 = next_loc st1
     ∧ resolutions st2 = resolutions st1
     ∧ trace st2 = trace st1 ++ [ECall f [c2]])
  ∧ (∀ ptr, (∀ pv, ptr ≠ VInt pv) →
       (_from_bn_smart_ptr ptr ty new_ref st).1
         = Raise (TypeError "unsupported operand type(s) for +")
       ∧ trace (_from_bn_smart_ptr ptr ty new_ref st).2 = trace st).
Proof.
  intros Hr Hnone sig f st1 st2 c1 c2.
  assert (Hst1 : st1 = _) by apply (from_bn_smart_ptr_first st pv1 ty new_ref b Hr Hnone).
  cbn zeta in Hst1.
  assert (H1 : _bn_new_ref_fns st1 !! new_ref = Some (next_loc st))
    by (rewrite Hst1; simpl; by rewrite lookup_insert_eq).
  assert (H2 : heap st1 !! next_loc st
               = Some (OCStaticMethodProxy new_ref sig (Some f)))
    by (rewrite Hst1; simpl; by rewrite lookup_insert_eq).
  assert (Hst2 : st2 = _)
    by apply (from_bn_smart_ptr_again st1 pv2 ty new_ref _ _ H1 H2).
  cbn zeta in Hst2. fold c2 in Hst2.
  split_and!; try done; try (by rewrite Hst1); try (by rewrite Hst2).
  intros ptr Hptr.
  unfold _from_bn_smart_ptr, _CStaticMethodProxy.__init__. munfold. simpl.
  rewrite decide_False by (rewrite Hnone; by intros [? ?]).
  simpl. rewrite lookup_insert_eq.
  destruct ptr; try done. by destruct (Hptr n).
Qed.

End Operations.

(** * The further properties at work on the session host *)

Ltac in_list :=
  repeat first [apply list_elem_of_here | apply list_elem_of_further].

Section OperationsExamples.
Import Session.

Lemma wf_session_main : wf st_main.
Proof. apply (wrapper_init_outcome MainWindow 1 initial_state wf_initial_state). Qed.

Lemma wf_session_frame : wf st_frame.
Proof. apply (wrapper_init_outcome ViewFrame 2 initial_state wf_initial_state). Qed.

Lemma wf_session_panel : wf st_panel.
Proof. apply (wrapper_init_outcome InfoPanel 3 initial_state wf_initial_state). Qed.



Lemma session_imported : imported.
Proof. intros cls. destruct cls; eexists; by vm_compute. Qed.

Lemma meta_object_symbol_injective_witness :
  bool_decide
    (PyStr.format "_ZN{}{}16staticMetaObjectE"
       [PyStr.str_of_Z (Z.of_nat (String.length "ViewFrame")); "ViewFrame"]
     = PyStr.format "_ZN{}{}16staticMetaObjectE"
         [PyStr.str_of_Z (Z.of_nat (String.length "InfoPanel")); "InfoPanel"])
  = false.
Proof.
  apply bool_decide_eq_false.
  by apply (meta_object_symbol_injective "ViewFrame" "InfoPanel").
Defined.

Lemma static_proxy_binds_once_witness :
  resolutions
    (_CStaticMethodProxy.__call__ _new [VInt 16]
       (_CStaticMethodProxy.__call__ _new [VInt 8] initial_state).2).2
  = ["_Znwm"].
Proof.
  pose proof (proj1 (static_proxy_binds_once initial_state _new "_Znwm"
                (CFUNCTYPE (Some c_void_p) [c_int]) [VInt 8] [VInt 16]
                ltac:(by vm_compute)) 4096 ltac:(by vm_compute)) as H.
  cbn zeta in H. destruct H as (_ & _ & H1 & _ & _ & H2 & _).
  rewrite H2, H1. reflexivity.
Defined.

Lemma lookup_calls_nothing_witness :
  trace (py_getattr 6%positive "closeTab" st_main).2 = [].
Proof.
  pose proof (lookup_calls_nothing st_main 6%positive "closeTab" wf_session_main)
    as H.
  cbn zeta in H. destruct H as (_ & H & _). rewrite H. reflexivity.
Defined.

Lemma methods_after_init_witness :
  (_QObjectProxy._methods 5%positive
     (_QObjectProxy.__init__ 8192 1 ∅ initial_state).2).1
  = Ok ["newTab"; "closeTab"; "closeAll"].
Proof.
  pose proof (methods_after_init initial_state 8192 1 ∅ wf_initial_state
                ltac:(by vm_compute)) as H.
  cbn zeta in H. destruct H as (_ & H & _).
  change (next_loc initial_state) with 5%positive in H.
  rewrite H. reflexivity.
Defined.

Lemma pointer_of_proxy_witness :
  (_CObjectProxy._pointer 6%positive st_main).1
  = Raise (TypeError "unwrapinstance() argument 1 must be a sip wrapper").
Proof.
  rewrite (proj1 (pointer_of_proxy st_main wf_session_main) 5%positive
             MainWindow 6%positive ltac:(by vm_compute)).
  reflexivity.
Defined.

Lemma MainWindow_methods_invoke_slots_witness :
  (MainWindow.newTab 5%positive st_main).1 = Ok VNone
  ∧ MainWindow.save 5%positive st_main
    = (Raise (AttributeError "saveDatabase"), st_main).
Proof.
  split.
  - pose proof (MainWindow_methods_invoke_slots st_main 5%positive 6%positive
                  p_main 8192 1 MainWindow.newTab "newTab" [] wf_session_main
                  ltac:(unfold MainWindow_slots; in_list)
                  ltac:(by vm_compute) ltac:(by vm_compute)
                  ltac:(by vm_compute)) as [H _].
    destruct H as [H _]; [|exact H].
    change (meta_methods 8192) with (Demo.method_names 8192). in_list.
  - pose proof (MainWindow_methods_invoke_slots st_main 5%positive 6%positive
                  p_main 8192 1 MainWindow.save "saveDatabase" []
                  wf_session_main
                  ltac:(unfold MainWindow_slots; in_list)
                  ltac:(by vm_compute) ltac:(by vm_compute)
                  ltac:(by vm_compute)) as [_ H].
    apply H; [|by vm_compute].
    change (meta_methods 8192) with (Demo.method_names 8192). compute_done.
Defined.

Lemma getCurrentView_cases_witness :
  trace (MainWindow.getCurrentView 5%positive st_main).2
  = [ECall (CFunc (CFUNCTYPE (Some c_void_p) [c_void_p]) 12816) [VInt 1]]
  ∧ ∃ obj proxy,
      (MainWindow.getCurrentView 5%positive st_main).1 = Ok (VRef obj)
      ∧ heap (MainWindow.getCurrentView 5%positive st_main).2 !! obj
        = Some (OWrapper ViewFrame (Some proxy))
      ∧ heap (MainWindow.getCurrentView 5%positive st_main).2 !! proxy
        = Some (OObjectProxy
                  (Proxy (VInt 2) (cls_c_api ViewFrame) (Some (8448, 2)) ∅)).
Proof.
  pose proof (getCurrentView_cases st_main 5%positive 6%positive p_main 12816
                wf_session_main ltac:(by vm_compute) ltac:(by vm_compute)) as H.
  cbn zeta in H. destruct H as (Ht & _ & Hv).
  - intros m w [= <- <-]. change (meta_methods 8192) with (Demo.method_names 8192).
    compute_done.
  - by vm_compute.
  - split; [exact Ht|].
    apply (Hv 2 8448); [by vm_compute | compute_done | by vm_compute
                        | by vm_compute].
Defined.

Lemma getActiveWindow_cases_witness :
  trace (getActiveWindow initial_state).2
  = [ECall (CFunc (CFUNCTYPE (Some c_void_p) []) 12800) []]
  ∧ ∃ obj proxy,
      (getActiveWindow initial_state).1 = Ok (VRef obj)
      ∧ heap (getActiveWindow initial_state).2 !! obj
        = Some (OWrapper MainWindow (Some proxy))
      ∧ heap (getActiveWindow initial_state).2 !! proxy
        = Some (OObjectProxy
                  (Proxy (VInt 1) (cls_c_api MainWindow) (Some (8192, 1)) ∅)).
Proof.
  pose proof (getActiveWindow_cases initial_state 12800 wf_initial_state) as H.
  cbn zeta in H. destruct H as (Ht & _ & Hv).
  - by eexists.
  - by vm_compute.
  - split; [exact Ht|].
    apply (Hv 1 8192); by vm_compute.
Defined.

Lemma openFilename_cases_witness :
  (MainWindow.openFilename 5%positive (VStr "a.bndb") st_main).1 = Ok VNone
  ∧ (MainWindow.openFilename 5%positive (VInt 3) st_main).1
    = Raise (TypeError
               "QString can only be initialized with None, str, or a pointer").
Proof.
  assert (∀ m w, qt p_main = Some (m, w) → "openFilename" ∉ meta_methods m)
    as Hnot.
  { intros m w [= <- <-].
    change (meta_methods 8192) with (Demo.method_names 8192). compute_done. }
  pose proof (openFilename_cases st_main 5%positive 6%positive p_main
                4096 4112 12808 4120 4104 wf_session_main
                ltac:(by vm_compute) ltac:(by vm_compute) Hnot
                ltac:(by vm_compute) ltac:(by vm_compute) ltac:(by vm_compute)
                ltac:(by vm_compute) ltac:(by vm_compute)) as H.
  cbn zeta in H. destruct H as (Hs & _ & Ho).
  split.
  - apply (Hs (VStr "a.bndb")). right. by eexists.
  - apply (Ho (VInt 3)).
Defined.

Lemma ViewFrame_back_forward_witness :
  (ViewFrame.back 5%positive st_frame).1
  = Raise (AttributeError "Symbol _ZN9ViewFrame4backEv is not defined")
  ∧ trace (ViewFrame.back 5%positive st_frame).2 = [ELogError; EPrintStderr].
Proof.
  assert (∀ m w, qt p_frame = Some (m, w) → "back" ∉ meta_methods m) as Hnot.
  { intros m w [= <- <-].
    change (meta_methods 8448) with (Demo.method_names 8448). compute_done. }
  pose proof (ViewFrame_back_forward st_frame 5%positive 6%positive p_frame
                ViewFrame.back "back" "_ZN9ViewFrame4backEv" wf_session_frame
                ltac:(in_list) ltac:(by vm_compute) ltac:(by vm_compute) Hnot)
    as [_ H].
  destruct (H ltac:(by vm_compute)) as [Hr Ht].
  split; [exact Hr | rewrite Ht; by vm_compute].
Defined.


Lemma init_callbacks_add_remove_witness :
  MainWindow.removeInitCallback (VHost 7)
    (MainWindow.addInitCallback (VHost 7) initial_state).2
  = Some initial_state
  ∧ MainWindow.removeInitCallback (VHost 7) initial_state = None.
Proof.
  destruct (init_callbacks_add_remove MainWindow MainWindow.addInitCallback
              MainWindow.removeInitCallback initial_state (VHost 7)
              ltac:(in_list)) as (_ & _ & Hnone & Hback & _).
  split.
  - apply Hback. apply not_elem_of_nil.
  - apply Hnone. apply not_elem_of_nil.
Defined.




Lemma getViewFromWidget_first_match_witness :
  (View.getViewFromWidget 4 initial_state).1 = Ok (VRef 5%positive).
Proof.
  pose proof (getViewFromWidget_first_match initial_state 4 wf_initial_state
                session_imported) as H.
  cbn zeta in H.
  destruct H as [[Hall _]|(l1 & cls & l2 & _ & _ & _ & Hr & _)].
  - destruct (Hall HexEditor); [in_list | by vm_compute].
  - exact Hr.
Defined.

Lemma getInfoPanel_first_match_witness :
  (ViewFrame.getInfoPanel 5%positive st_frame).1 = Ok (VRef 7%positive).
Proof.
  pose proof (getInfoPanel_first_match st_frame 5%positive 6%positive p_frame
                8448 2 8704 wf_session_frame ltac:(by vm_compute)
                ltac:(by vm_compute) ltac:(by vm_compute) ltac:(by vm_compute))
    as H.
  cbn zeta in H.
  destruct H as [[Hall _]|(l1 & c & l2 & _ & _ & _ & Hr & _)].
  - destruct (Hall 3); [|by vm_compute].
    change (3 ∈ [9; 3; 10; 4]). in_list.
  - exact Hr.
Defined.

Lemma getView_first_visible_view_witness :
  (ViewFrame.getView 5%positive st_frame).1 = Ok (VRef 7%positive).
Proof.
  pose proof (getView_first_visible_view st_frame 5%positive 6%positive p_frame
                8448 2 wf_session_frame session_imported ltac:(by vm_compute)
                ltac:(by vm_compute) ltac:(by vm_compute)) as H.
  cbn zeta in H.
  destruct H as [[Hall _]|(l1 & c & l2 & cls & _ & _ & _ & _ & _ & Hr & _)].
  - destruct (Hall 4).
    + change (4 ∈ [9; 3; 10; 4]). in_list.
    + split_and!; [done | done |].
      exists HexEditor. split; [in_list | by vm_compute].
  - exact Hr.
Defined.

Lemma getTabWidget_first_match_witness :
  (InfoPanel.getTabWidget 5%positive st_panel).1 = Ok (Some 10).
Proof.
  pose proof (getTabWidget_first_match st_panel 5%positive 6%positive p_panel
                8704 3 ltac:(by vm_compute) ltac:(by vm_compute)
                ltac:(by vm_compute)) as H.
  cbn zeta in H.
  destruct H as [[Hall _]|(l1 & c & l2 & Hl & _ & _ & Hr)].
  - destruct (Hall 10); [|by vm_compute].
    change (10 ∈ [10]). in_list.
  - change (_QObjectProxy.find_all _) with [10] in Hl.
    destruct l1 as [|x l1].
    + injection Hl as <- _. by rewrite Hr.
    + injection Hl as _ Hl. by destruct l1.
Defined.

Lemma new_ref_proxy_is_reused_witness :
  next_loc
    (_from_bn_smart_ptr (VInt 32768) BNBinaryView "BNNewViewReference"
       (_from_bn_smart_ptr (VInt 32768) BNBinaryView "BNNewViewReference"
          initial_state).2).2
  = 6%positive.
Proof.
  pose proof (new_ref_proxy_is_reused initial_state BNBinaryView
                "BNNewViewReference" 16384 32768 32768
                ltac:(by vm_compute) ltac:(by vm_compute)) as H.
  cbn zeta in H. destruct H as ((_ & _ & H1 & _) & (_ & _ & H2 & _) & _).
  rewrite H2, H1. reflexivity.
Defined.

End OperationsExamples.
